(** * Historical-candle cache of balkhaev/trader: data manager, downloader and
    quote-format converter

    A shallow embedding of
      - [apps/lean/data_manager.py]              (class [DataManager]),
      - [apps/lean/download_binance_data.py]     (the standalone downloader),
      - [apps/lean/scripts/convert_quote_data.py] (the format converter),
      - [apps/portfolio/main.py]                 (the endpoint deleting a symbol),
    followed by the properties of the cache that the specification states.

    Modelling conventions.
      - Python [str] values are [string]s; a character is a code point below
        256.  The character classes of [str.strip], [str.isdigit],
        [str.splitlines] and [int] are the interpreter's on that range.
        [str.lower] and [str.upper] are the interpreter's on that range too,
        but for µ and ÿ, whose upper-case forms lie above 255.  What needs
        lower-casing to undo upper-casing is stated for ASCII symbols.
      - Python [int] is [Z].  The interpreter's optional cap on the number of
        digits accepted by [int(str)] and [str(int)] is not configured.
      - A raised exception is a value of [exn]; a fallible computation
        returns [exn + A].
      - Whatever belongs to the host (binary floating point and its [repr],
        the local time zone, the wall clock, the remote service, the size of
        a deflated container, the paths [os.stat] refuses) is a field of the
        class [Platform]. *)

From Stdlib Require Import ZArith String Ascii List Bool Lia.
From Stdlib Require Import DecimalString DecimalZ DecimalFacts ZifyBool.
From stdpp Require Import gmap strings list.

Local Open Scope string_scope.
Local Open Scope Z_scope.

(** ** Exceptions *)

Inductive exn : Type :=
| ValueError
| IndexError
| OverflowError
| OSError
| BadZipFile
| UnicodeDecodeError.

Definition result (A : Type) : Type := (exn + A)%type.

Definition is_ok {A} (r : result A) : bool :=
  match r with inr _ => true | inl _ => false end.

(** ** Python strings *)

Module Py.

Definition LF : ascii := ascii_of_nat 10.
Definition CR : ascii := ascii_of_nat 13.
Definition DQUOTE : ascii := ascii_of_nat 34.
Definition COMMA : ascii := ascii_of_nat 44.

Definition code (c : ascii) : nat := nat_of_ascii c.

(** [str.isspace] on one character: TAB..CR, FS..US, space, NEL, NBSP. *)
Definition isspace (c : ascii) : bool :=
  let n := code c in
  (((9 <=? n) && (n <=? 13)) || ((28 <=? n) && (n <=? 31)) || (n =? 32)
   || (n =? 133) || (n =? 160))%nat.

(** The blanks [int()] skips around a literal: the C locale's, and the
    non-ASCII spaces. *)
Definition int_space (c : ascii) : bool :=
  let n := code c in
  (((9 <=? n) && (n <=? 13)) || (n =? 32) || (n =? 133) || (n =? 160))%nat.

(** The decimal digits ['0'..'9']. *)
Definition is_decimal (c : ascii) : bool :=
  let n := code c in ((48 <=? n) && (n <=? 57))%nat.

(** [str.isdigit] on one character: the decimal digits and the superscripts
    two, three and one. *)
Definition isdigit_char (c : ascii) : bool :=
  let n := code c in
  (is_decimal c || (n =? 178) || (n =? 179) || (n =? 185))%nat.

(** The line boundaries of [str.splitlines]. *)
Definition is_linebreak (c : ascii) : bool :=
  let n := code c in
  (((10 <=? n) && (n <=? 13)) || ((28 <=? n) && (n <=? 30)) || (n =? 133))%nat.

Fixpoint all_chars (p : ascii -> bool) (s : string) : bool :=
  match s with
  | EmptyString => true
  | String c r => p c && all_chars p r
  end.

Fixpoint has_char (c : ascii) (s : string) : bool :=
  match s with
  | EmptyString => false
  | String d r => Ascii.eqb c d || has_char c r
  end.

(** [s.isdigit()] *)
Definition isdigit (s : string) : bool :=
  match s with
  | EmptyString => false
  | _ => all_chars isdigit_char s
  end.

Fixpoint lstrip_with (sp : ascii -> bool) (s : string) : string :=
  match s with
  | EmptyString => EmptyString
  | String c r => if sp c then lstrip_with sp r else s
  end.

Fixpoint rstrip_with (sp : ascii -> bool) (s : string) : string :=
  match s with
  | EmptyString => EmptyString
  | String c r =>
      match rstrip_with sp r with
      | EmptyString => if sp c then EmptyString else String c EmptyString
      | r' => String c r'
      end
  end.

Definition strip_with (sp : ascii -> bool) (s : string) : string :=
  rstrip_with sp (lstrip_with sp s).

(** [s.strip()] *)
Definition strip (s : string) : string := strip_with isspace s.

(** [s.split(sep)] for a one-character separator. *)
Fixpoint split (sep : ascii) (s : string) : list string :=
  match s with
  | EmptyString => [EmptyString]
  | String c r =>
      if Ascii.eqb c sep then EmptyString :: split sep r
      else match split sep r with
           | h :: t => String c h :: t
           | [] => [String c EmptyString]
           end
  end.

(** [s.splitlines()] *)
Fixpoint splitlines (s : string) : list string :=
  match s with
  | EmptyString => []
  | String c r =>
      if is_linebreak c then
        match r with
        | String d r2 =>
            if Ascii.eqb c CR && Ascii.eqb d LF
            then EmptyString :: splitlines r2
            else EmptyString :: splitlines r
        | EmptyString => [EmptyString]
        end
      else match splitlines r with
           | h :: t => String c h :: t
           | [] => [String c EmptyString]
           end
  end.

(** [sep.join(l)] *)
Fixpoint join (sep : string) (l : list string) : string :=
  match l with
  | [] => EmptyString
  | x :: rest =>
      match rest with
      | [] => x
      | _ => x ++ sep ++ join sep rest
      end
  end.

(** [c.lower()] for one character: the letters A-Z and, of the upper half
    of the alphabet, À-Þ without the sign × between them. *)
Definition lower_char (c : ascii) : ascii :=
  let n := code c in
  if (((65 <=? n) && (n <=? 90))
      || ((192 <=? n) && (n <=? 222) && negb (n =? 215)))%nat
  then ascii_of_nat (n + 32) else c.

(** [c.upper()] for one character: a-z and à-þ (without the sign ÷ between
    them) move down by 32, and ß becomes the two letters SS. The upper-case
    forms of µ and ÿ have code points above 255, outside the alphabet of
    these strings: the two are left as they are. *)
Definition upper_char (c : ascii) : string :=
  let n := code c in
  if (n =? 223)%nat then "SS"
  else if (((97 <=? n) && (n <=? 122))
           || ((224 <=? n) && (n <=? 254) && negb (n =? 247)))%nat
       then String (ascii_of_nat (n - 32)) EmptyString
       else String c EmptyString.

Fixpoint map_chars (f : ascii -> ascii) (s : string) : string :=
  match s with
  | EmptyString => EmptyString
  | String c r => String (f c) (map_chars f r)
  end.

(** [s.lower()] *)
Definition lower (s : string) : string := map_chars lower_char s.

(** [s.upper()] *)
Fixpoint upper (s : string) : string :=
  match s with
  | EmptyString => EmptyString
  | String c r => upper_char c ++ upper r
  end.

(** [s.isascii()] *)
Definition isascii (s : string) : bool := all_chars (fun c => (code c <? 128)%nat) s.

Fixpoint replace_from (old new : string) (skip : nat) (s : string) : string :=
  match s with
  | EmptyString => EmptyString
  | String c r =>
      match skip with
      | S k => replace_from old new k r
      | O =>
          if String.prefix old s
          then new ++ replace_from old new (Nat.pred (String.length old)) r
          else String c (replace_from old new O r)
      end
  end.

(** [s.replace(old, new)] for a non-empty [old]. *)
Definition replace (old new : string) (s : string) : string :=
  replace_from old new O s.

(** [s.endswith(suffix)] *)
Definition endswith (suffix s : string) : bool :=
  let n := String.length s in
  let k := String.length suffix in
  ((k <=? n)%nat && String.eqb (String.substring (n - k) k s) suffix).

(** [s.startswith(p)] *)
Definition startswith (p s : string) : bool := String.prefix p s.

(** *** Integers and their literals *)

(** [str(n)] *)
Definition str (n : Z) : string := NilZero.string_of_int (Z.to_int n).

Definition digit_of (c : ascii) : option (Decimal.uint -> Decimal.uint) :=
  match code c with
  | 48%nat => Some Decimal.D0
  | 49%nat => Some Decimal.D1
  | 50%nat => Some Decimal.D2
  | 51%nat => Some Decimal.D3
  | 52%nat => Some Decimal.D4
  | 53%nat => Some Decimal.D5
  | 54%nat => Some Decimal.D6
  | 55%nat => Some Decimal.D7
  | 56%nat => Some Decimal.D8
  | 57%nat => Some Decimal.D9
  | _ => None
  end.

(** The digits of an integer literal: groups of decimal digits, with single
    underscores allowed between two digits. [after_digit] tells whether the
    previous character was a digit. *)
Fixpoint int_digits (after_digit : bool) (s : string) : option Decimal.uint :=
  match s with
  | EmptyString => if after_digit then Some Decimal.Nil else None
  | String c r =>
      if (code c =? 95)%nat then
        if after_digit then
          match r with
          | EmptyString => None
          | _ => int_digits false r
          end
        else None
      else
        match digit_of c with
        | Some d =>
            match int_digits true r with
            | Some u => Some (d u)
            | None => None
            end
        | None => None
        end
  end.

(** The sign of a literal and what follows it. *)
Definition split_sign (t : string) : bool * string :=
  match t with
  | String c r =>
      if (code c =? 45)%nat then (true, r)
      else if (code c =? 43)%nat then (false, r)
      else (false, t)
  | EmptyString => (false, t)
  end.

(** [int(s)] *)
Definition int (s : string) : result Z :=
  let '(negative, body) := split_sign (strip_with int_space s) in
  match int_digits false body with
  | Some u => inr (if negative then - Z.of_uint u else Z.of_uint u)
  | None => inl ValueError
  end.

(** [sorted(l)] on strings: insertion into an ordered list, by code points. *)
Fixpoint insert_sorted (x : string) (l : list string) : list string :=
  match l with
  | [] => [x]
  | y :: r => if String.leb x y then x :: l else y :: insert_sorted x r
  end.

Definition sorted (l : list string) : list string :=
  fold_right insert_sorted [] l.

End Py.

(** ** The proleptic Gregorian calendar, in UTC *)

Module Calendar.

(** Year, month and day of the day numbered [z], day 0 being 1970-01-01. *)
Definition civil_from_days (z : Z) : Z * Z * Z :=
  let z := z + 719468 in
  let era := z / 146097 in
  let doe := z - era * 146097 in
  let yoe := (doe - doe / 1460 + doe / 36524 - doe / 146096) / 365 in
  let doy := doe - (365 * yoe + yoe / 4 - yoe / 100) in
  let mp := (5 * doy + 2) / 153 in
  let d := doy - (153 * mp + 2) / 5 + 1 in
  let m := if mp <? 10 then mp + 3 else mp - 9 in
  let y := yoe + era * 400 in
  (if m <=? 2 then y + 1 else y, m, d).

(** The number of the day [y]-[m]-[d]. *)
Definition days_from_civil (y m d : Z) : Z :=
  let y := if m <=? 2 then y - 1 else y in
  let era := y / 400 in
  let yoe := y - era * 400 in
  let mp := if m <=? 2 then m + 9 else m - 3 in
  let doy := (153 * mp + 2) / 5 + d - 1 in
  let doe := yoe * 365 + yoe / 4 - yoe / 100 + doy in
  era * 146097 + doe - 719468.

Definition MINYEAR : Z := 1.
Definition MAXYEAR : Z := 9999.

Definition digit_char (n : Z) : ascii := ascii_of_nat (48 + Z.to_nat (n mod 10)).

(** [%m], [%d], [%H], [%M]: two digits. *)
Definition pad2 (n : Z) : string :=
  String (digit_char (n / 10)) (String (digit_char n) EmptyString).

(** [%Y]: four digits. *)
Definition pad4 (n : Z) : string :=
  String (digit_char (n / 1000)) (String (digit_char (n / 100)) (pad2 n)).

(** The instant [ts_ms] milliseconds after the epoch, read in UTC. *)
Record datetime : Type := {
  year : Z; month : Z; day : Z; hour : Z; minute : Z
}.

Definition of_ms (ts_ms : Z) : datetime :=
  let seconds := ts_ms / 1000 in
  let '(y, m, d) := civil_from_days (seconds / 86400) in
  let sod := seconds mod 86400 in
  {| year := y; month := m; day := d;
     hour := sod / 3600; minute := (sod mod 3600) / 60 |}.

Definition in_range (dt : datetime) : bool :=
  (MINYEAR <=? year dt) && (year dt <=? MAXYEAR).

(** [dt.strftime("%Y%m%d %H:%M")] *)
Definition strftime_key (dt : datetime) : string :=
  pad4 (year dt) ++ pad2 (month dt) ++ pad2 (day dt) ++ " "
  ++ pad2 (hour dt) ++ ":" ++ pad2 (minute dt).

(** [dt.strftime("%Y-%m-%d")] *)
Definition strftime_date (dt : datetime) : string :=
  pad4 (year dt) ++ "-" ++ pad2 (month dt) ++ "-" ++ pad2 (day dt).

(** [dt.strftime("%Y-%m-%d %H:%M")] *)
Definition strftime_minute (dt : datetime) : string :=
  strftime_date dt ++ " " ++ pad2 (hour dt) ++ ":" ++ pad2 (minute dt).

End Calendar.

(** ** The data model *)

(** One row of the klines endpoint, [[openTime_ms, open, high, low, close,
    ...]]; only the indices 0 to 4 are read. The prices are floats of the
    host, on which [float(x)] is the identity. *)
Record Candle (F : Type) : Type := {
  timestamp_ms : Z;
  open_price : F;
  high_price : F;
  low_price : F;
  close_price : F
}.
Arguments timestamp_ms {F} _.
Arguments open_price {F} _.
Arguments high_price {F} _.
Arguments low_price {F} _.
Arguments close_price {F} _.

(** The query of one page: the [params] dictionary of the request. *)
Record request : Type := {
  q_symbol : string;
  q_interval : string;
  q_startTime : string;
  q_endTime : string;
  q_limit : string
}.

(** What one request yields under the interface of the remote: an exception
    of [urlopen] or of the JSON decoder, which the [try] of the loop
    catches, or the decoded list of rows. A decoded answer of another shape
    (an object, a number), on which the statements after the [try] raise,
    is not an answer of this type: what is proved of a fetch is proved for
    remotes that keep to the interface. *)
Inductive response (F : Type) : Type :=
| Failed
| Page (data : list (Candle F)).
Arguments Failed {F}.
Arguments Page {F} data.

(** The contents of a zip member as [read().decode('utf-8')] sees them. *)
Inductive payload : Type :=
| Text (content : string)
| NotUtf8
| Damaged.

(** A file as [zipfile.ZipFile] sees it: no container at all, or the members
    in the order of the central directory. *)
Inductive container : Type :=
| NotZip
| Zip (members : list (string * payload)).

Record file : Type := {
  f_body : container;
  st_size : Z;
  st_mtime : Z
}.

(** The state the programs act on: the files by path, and the number of
    interactions with the host so far (requests, clock readings, writes). *)
Record world : Type := {
  w_fs : gmap string file;
  w_tick : nat
}.

Definition tick (w : world) : world :=
  {| w_fs := w_fs w; w_tick := S (w_tick w) |}.

(** ** The host *)

Class Platform : Type := {
  (** binary floating point: [x + y], [x * y], [float(n)], the literal
      [0.0001] and [repr] *)
  pyfloat : Type;
  float_of_int : Z -> pyfloat;
  fadd : pyfloat -> pyfloat -> pyfloat;
  fmul : pyfloat -> pyfloat -> pyfloat;
  spread_literal : pyfloat;
  float_repr : pyfloat -> string;
  (** [datetime.fromtimestamp(ts / 1000).strftime("%Y-%m-%d")] *)
  local_date : Z -> result string;
  (** [datetime.fromtimestamp(st_mtime).strftime("%Y-%m-%d %H:%M")] *)
  local_minute : Z -> result string;
  (** [int(datetime.strptime(d, "%Y-%m-%d").timestamp() * 1000)] *)
  date_to_ms : string -> result Z;
  (** [datetime.now().strftime("%Y-%m-%d")] at the n-th interaction *)
  today : nat -> string;
  (** the exception [utcfromtimestamp] raises for an instant outside the
      years 1 to 9999 *)
  out_of_range : Z -> exn;
  (** the modification time and the size of an archive written at the n-th
      interaction *)
  clock : nat -> Z;
  archive_size : list (string * payload) -> Z;
  (** [os.stat(path)] fails with an error that [Path.exists] lets through:
      [exists] takes ENOENT, ENOTDIR, EBADF and ELOOP for absence and raises
      any other [OSError], as ENAMETOOLONG for a name of more than 255 bytes
      on Linux *)
  stat_error : string -> bool;
  (** the answer of the remote service to the n-th interaction *)
  remote : nat -> request -> response pyfloat
}.

(** Characters [repr] of a float is made of: digits, the point, the exponent
    mark, signs, and the letters of [inf] and [nan]. *)
Definition float_char (c : ascii) : bool :=
  Py.is_decimal c || Py.has_char c ".e+infa" || (Py.code c =? 45)%nat.

(** What every host satisfies: [repr] of a float is made of such characters,
    a rendered date is not empty, and the wall clock shows an instant that
    [datetime] can render. *)
Class PlatformLaws (P : Platform) : Prop := {
  float_repr_chars : forall x : pyfloat, Py.all_chars float_char (float_repr x) = true;
  local_date_nonempty : forall ts d, local_date ts = inr d -> d <> EmptyString;
  clock_renders : forall n, exists m, local_minute (clock n) = inr m
}.

(** ** Computations on the world *)

(** A computation either runs out of fuel ([None]) or ends in a world, with
    a value or a raised exception. *)
Definition M (A : Type) : Type := world -> option (result A * world).

Definition ret {A} (a : A) : M A := fun w => Some (inr a, w).
Definition raise {A} (e : exn) : M A := fun w => Some (inl e, w).
Definition bind {A B} (m : M A) (k : A -> M B) : M B :=
  fun w =>
    match m w with
    | None => None
    | Some (inl e, w') => Some (inl e, w')
    | Some (inr a, w') => k a w'
    end.
Definition lift {A} (r : result A) : M A := fun w => Some (r, w).
Definition get_fs : M (gmap string file) := fun w => Some (inr (w_fs w), w).

Definition rbind {A B} (r : result A) (k : A -> result B) : result B :=
  match r with
  | inl e => inl e
  | inr a => k a
  end.

Declare Scope py_scope.
Delimit Scope py_scope with py.
Notation "x <- m ;; k" := (bind m (fun x => k))
  (at level 60, m at next level, right associativity) : py_scope.
Notation "m ;;; k" := (bind m (fun _ => k))
  (at level 60, right associativity) : py_scope.
Notation "'try' x <- r ;; k" := (rbind r (fun x => k))
  (at level 60, x name, r at next level, right associativity) : py_scope.
Local Open Scope py_scope.

Fixpoint for_each {A B} (f : A -> M B) (l : list A) : M (list B) :=
  match l with
  | [] => ret []
  | x :: rest => y <- f x ;; ys <- for_each f rest ;; ret (y :: ys)
  end.

(** ** The [csv] writer, excel dialect *)

Module Csv.

Fixpoint double_quotes (s : string) : string :=
  match s with
  | EmptyString => EmptyString
  | String c r =>
      if Ascii.eqb c Py.DQUOTE
      then String c (String c (double_quotes r))
      else String c (double_quotes r)
  end.

(** A field is quoted when it holds the delimiter, the quote character or a
    character of the line terminator. *)
Definition needs_quotes (s : string) : bool :=
  Py.has_char Py.COMMA s || Py.has_char Py.DQUOTE s
  || Py.has_char Py.CR s || Py.has_char Py.LF s.

Definition field (s : string) : string :=
  if needs_quotes s
  then String Py.DQUOTE (double_quotes s ++ String Py.DQUOTE EmptyString)
  else s.

Definition lineterminator : string :=
  String Py.CR (String Py.LF EmptyString).

(** [writer.writerow(fields)] for a row of two fields or more: what it
    appends to the buffer. *)
Definition writerow (fields : list string) : string :=
  Py.join "," (map field fields) ++ lineterminator.

(** [csv_data.getvalue()] after [writerow] was called on each row in turn. *)
Fixpoint getvalue (rows : list (list string)) : string :=
  match rows with
  | [] => EmptyString
  | r :: rest => writerow r ++ getvalue rest
  end.

End Csv.

(** ** Reading a zip archive *)

Module ZipFile.

(** [zf.namelist()[0]] *)
Definition first_name (members : list (string * payload)) : result string :=
  match members with
  | [] => inl IndexError
  | (name, _) :: _ => inr name
  end.

(** The member [zf.open(name)] reads: the last one recorded under [name]. *)
Fixpoint getinfo (name : string) (members : list (string * payload)) : option payload :=
  match members with
  | [] => None
  | (n, p) :: rest =>
      match getinfo name rest with
      | Some q => Some q
      | None => if String.eqb n name then Some p else None
      end
  end.

(** [zf.open(name).read().decode('utf-8')] *)
Definition read_text (name : string) (members : list (string * payload)) : result string :=
  match getinfo name members with
  | Some (Text content) => inr content
  | Some NotUtf8 => inl UnicodeDecodeError
  | Some Damaged => inl BadZipFile
  | None => inl BadZipFile
  end.

(** [zipfile.ZipFile(path, 'r')] on the file found at [path] *)
Definition open_read (f : file) : result (list (string * payload)) :=
  match f_body f with
  | NotZip => inl BadZipFile
  | Zip members => inr members
  end.

End ZipFile.

(** The characters of [str(n)]. *)
Definition sign_or_digit (c : ascii) : bool :=
  Py.is_decimal c || (Py.code c =? 45)%nat.

(** A character that is neither blank nor special to the csv writer. *)
Definition plain (c : ascii) : bool :=
  negb (Py.isspace c) && negb (Ascii.eqb c Py.COMMA) && negb (Ascii.eqb c Py.DQUOTE).

(** The first comma-separated field, [s.split(',')[0]]: [split] never
    returns the empty list. *)
Definition first_field (s : string) : string :=
  match Py.split Py.COMMA s with
  | f :: _ => f
  | [] => EmptyString
  end.

(** [l[a:b]] *)
Definition slice {A} (a b : nat) (l : list A) : list A :=
  firstn (b - a) (skipn a l).

Section Programs.
Context {P : Platform}.

(** [zipfile.ZipFile(path, 'w', ZIP_DEFLATED)] with one member written: the
    file at [path] is replaced. *)
Definition write_zip (path name content : string) : M unit :=
  fun w =>
    let members := [(name, Text content)] in
    Some (inr tt,
          {| w_fs := <[path := {| f_body := Zip members;
                                   st_size := archive_size members;
                                   st_mtime := clock (w_tick w) |}]> (w_fs w);
             w_tick := S (w_tick w) |}).

(** [datetime.now().strftime("%Y-%m-%d")] *)
Definition now_date : M string :=
  fun w => Some (inr (today (w_tick w)), tick w).

(** *** The pagination loop of both downloaders

    [symbol] is the symbol as sent: the data manager sends it in upper case,
    the standalone script as given. *)

Definition klines_request (symbol interval : string) (current_ts end_ts : Z) : request :=
  {| q_symbol := symbol;
     q_interval := interval;
     q_startTime := Py.str current_ts;
     q_endTime := Py.str end_ts;
     q_limit := "1000" |}.

(** What one turn of [while current_ts < end_ts] comes to. *)
Inductive turn : Type :=
| Exit
| BreakOnError
| BreakOnEmpty
| Continue (data : list (Candle pyfloat)) (next_ts : Z).

Definition next_start (c : Candle pyfloat) (rest : list (Candle pyfloat)) : Z :=
  timestamp_ms (List.last rest c) + 1.

Definition klines_turn (symbol interval : string) (end_ts current_ts : Z) (n : nat) : turn :=
  if current_ts <? end_ts then
    match remote n (klines_request symbol interval current_ts end_ts) with
    | Failed => BreakOnError
    | Page [] => BreakOnEmpty
    | Page (c :: rest) => Continue (c :: rest) (next_start c rest)
    end
  else Exit.

Fixpoint klines_loop (fuel : nat) (symbol interval : string) (end_ts current_ts : Z)
    (all_data : list (Candle pyfloat)) (w : world)
  : option (result (list (Candle pyfloat)) * world) :=
  match fuel with
  | O => None
  | S fuel' =>
      match klines_turn symbol interval end_ts current_ts (w_tick w) with
      | Exit => Some (inr all_data, w)
      | BreakOnError | BreakOnEmpty => Some (inr all_data, tick w)
      | Continue data next_ts =>
          klines_loop fuel' symbol interval end_ts next_ts (all_data ++ data) (tick w)
      end
  end.

(** The pages the loop receives and keeps, in order: the ghost of a run. *)
Fixpoint klines_pages (fuel : nat) (symbol interval : string) (end_ts current_ts : Z)
    (n : nat) : list (list (Candle pyfloat)) :=
  match fuel with
  | O => []
  | S fuel' =>
      match klines_turn symbol interval end_ts current_ts n with
      | Continue data next_ts =>
          data :: klines_pages fuel' symbol interval end_ts next_ts (S n)
      | _ => []
      end
  end.

Definition fetch_klines (fuel : nat) (symbol interval start_date end_date : string)
  : M (list (Candle pyfloat)) :=
  start_ts <- lift (date_to_ms start_date) ;;
  end_ts <- lift (date_to_ms end_date) ;;
  klines_loop fuel symbol interval end_ts start_ts [].

End Programs.

(** ** [download_binance_data.py] *)

Module Downloader.
Section Downloader.
Context {P : Platform}.

Definition spread : pyfloat := spread_literal.

Definition download_binance_klines (fuel : nat) (symbol interval start_date end_date : string)
  : M (list (Candle pyfloat)) :=
  fetch_klines fuel symbol interval start_date end_date.

(** The fields [writer.writerow] receives for one candle. *)
Definition quote_fields (candle : Candle pyfloat) : list string :=
  let one_plus_spread := fadd (float_of_int 1) spread in
  [ Py.str (timestamp_ms candle);
    float_repr (open_price candle); float_repr (high_price candle);
    float_repr (low_price candle); float_repr (close_price candle);
    float_repr (fmul (open_price candle) one_plus_spread);
    float_repr (fmul (high_price candle) one_plus_spread);
    float_repr (fmul (low_price candle) one_plus_spread);
    float_repr (fmul (close_price candle) one_plus_spread) ].

Definition csv_text (data : list (Candle pyfloat)) : string :=
  Csv.getvalue (map quote_fields data).

Definition convert_to_lean_quote_format (data : list (Candle pyfloat))
    (symbol output_dir : string) : M string :=
  let zip_path := output_dir ++ "/" ++ Py.lower symbol ++ "_quote.zip" in
  let csv_filename := Py.lower symbol ++ ".csv" in
  write_zip zip_path csv_filename (csv_text data) ;;;
  ret zip_path.

Definition download_symbols (fuel : nat) (symbols : list string)
    (interval start_date end_date output_dir : string) : M unit :=
  for_each (fun symbol =>
    data <- download_binance_klines fuel symbol interval start_date end_date ;;
    match data with
    | [] => ret tt
    | _ => convert_to_lean_quote_format data symbol output_dir ;;; ret tt
    end) symbols ;;;
  ret tt.

End Downloader.
End Downloader.

(** ** [data_manager.py] *)

Record SymbolStatus : Type := {
  symbol : string;
  available : bool;
  file_path : option string;
  file_size : Z;
  candles_count : nat;
  start_date : option string;
  end_date : option string;
  last_updated : option string
}.

Module DataManager.

Record t : Type := { lean_path : string }.

Definition DEFAULT_START_DATE : string := "2023-01-01".

Definition data_path (self : t) : string :=
  lean_path self ++ "/data/crypto/binance/daily".

(** [self.data_path / f"{symbol.lower()}_quote.zip"] *)
Definition quote_zip (self : t) (symbol : string) : string :=
  data_path self ++ "/" ++ Py.lower symbol ++ "_quote.zip".

(** [SymbolStatus(symbol=symbol.upper(), available=False)] *)
Definition not_available (symbol_ : string) : SymbolStatus :=
  {| symbol := Py.upper symbol_; available := false; file_path := None;
     file_size := 0; candles_count := O; start_date := None;
     end_date := None; last_updated := None |}.

Section DataManager.
Context {P : Platform}.

Definition SPREAD : pyfloat := spread_literal.

(** The names [glob("*_quote.zip")] yields in [data_path]. *)
Definition glob_quote_zip (self : t) (fs : gmap string file) : list string :=
  let dir := data_path self ++ "/" in
  omap (fun path : string =>
          if Py.startswith dir path then
            let name := String.substring (String.length dir)
                          (String.length path - String.length dir) path in
            if negb (Py.has_char "/" name) && Py.endswith "_quote.zip" name
            then Some name else None
          else None)
       (map fst (map_to_list fs)).

(** [f.stem] of a name ending in [.zip] *)
Definition stem (name : string) : string :=
  String.substring 0 (String.length name - 4) name.

Definition get_available_symbols (self : t) (fs : gmap string file) : list string :=
  Py.sorted (map (fun name => Py.upper (Py.replace "_quote" "" (stem name)))
                 (glob_quote_zip self fs)).

(** [zip_file.exists()]: it raises when [os.stat] fails with an error that
    is not one of absence. *)
Definition path_exists (fs : gmap string file) (path : string) : result bool :=
  if stat_error path then inl OSError
  else inr (match fs !! path with Some _ => true | None => false end).

(** [is_symbol_available], by the answer of [zip_file.exists()]. *)
Definition is_symbol_available (self : t) (fs : gmap string file) (symbol_ : string) : bool :=
  match fs !! quote_zip self symbol_ with
  | Some _ => true
  | None => false
  end.

(** The body of the [try] of [get_symbol_status], on the file found at
    [zip_file]. *)
Definition read_status (zip_file symbol_ : string) (f : file) : result SymbolStatus :=
  try members <- ZipFile.open_read f ;;
  try csv_name <- ZipFile.first_name members ;;
  try content <- ZipFile.read_text csv_name members ;;
  let lines := Py.split Py.LF (Py.strip content) in
  let candles_count_ := List.length lines in
  try dates <-
    match lines with
    | [] => inr (None, None)
    | l0 :: _ =>
        try first_ts <- Py.int (first_field l0) ;;
        try start_date_ <- local_date first_ts ;;
        try last_ts <- Py.int (first_field (List.last lines l0)) ;;
        try end_date_ <- local_date last_ts ;;
        inr (Some start_date_, Some end_date_)
    end ;;
  try last_updated_ <- local_minute (st_mtime f) ;;
  inr {| symbol := Py.upper symbol_; available := true;
         file_path := Some zip_file; file_size := st_size f;
         candles_count := candles_count_;
         start_date := fst dates; end_date := snd dates;
         last_updated := Some last_updated_ |}.

(** [get_symbol_status] from the answer of [zip_file.exists()] on: the
    early return when the file is absent, and the [try] with its [except]
    clause, which turns whatever [read_status] raises into the not-available
    status. *)
Definition get_symbol_status (self : t) (fs : gmap string file) (symbol_ : string)
  : SymbolStatus :=
  let zip_file := quote_zip self symbol_ in
  match fs !! zip_file with
  | None => not_available symbol_
  | Some f =>
      match read_status zip_file symbol_ f with
      | inr status => status
      | inl _ => not_available symbol_
      end
  end.

(** The call [get_symbol_status(symbol)] from its first line:
    [zip_file.exists()] stands before the [try], so that what it raises
    leaves the call; once it has answered, the call is [get_symbol_status]
    above. *)
Definition get_symbol_status_call (self : t) (fs : gmap string file) (symbol_ : string)
  : result SymbolStatus :=
  let zip_file := quote_zip self symbol_ in
  try present <- path_exists fs zip_file ;;
  if present then inr (get_symbol_status self fs symbol_)
  else inr (not_available symbol_).

Definition get_all_status (self : t) (fs : gmap string file) : list SymbolStatus :=
  map (get_symbol_status self fs) (get_available_symbols self fs).

(** [check_symbols]: the lists under the keys ["available"] and ["missing"]. *)
Fixpoint check_symbols (self : t) (fs : gmap string file) (symbols : list string)
  : list string * list string :=
  match symbols with
  | [] => ([], [])
  | s :: rest =>
      let '(av, mi) := check_symbols self fs rest in
      if is_symbol_available self fs s
      then (Py.upper s :: av, mi)
      else (av, Py.upper s :: mi)
  end.

Definition _download_binance_klines (self : t) (fuel : nat)
    (symbol_ interval start_date_ end_date_ : string) : M (list (Candle pyfloat)) :=
  fetch_klines fuel (Py.upper symbol_) interval start_date_ end_date_.

(** The fields [writer.writerow] receives for one candle. *)
Definition quote_fields (candle : Candle pyfloat) : list string :=
  let one_plus_spread := fadd (float_of_int 1) SPREAD in
  [ Py.str (timestamp_ms candle);
    float_repr (open_price candle); float_repr (high_price candle);
    float_repr (low_price candle); float_repr (close_price candle);
    float_repr (fmul (open_price candle) one_plus_spread);
    float_repr (fmul (high_price candle) one_plus_spread);
    float_repr (fmul (low_price candle) one_plus_spread);
    float_repr (fmul (close_price candle) one_plus_spread) ].

(** One row as it stands in the buffer, without its terminator. *)
Definition quote_line (candle : Candle pyfloat) : string :=
  Py.join "," (quote_fields candle).

(** [csv_data.getvalue()] after the loop over [data] *)
Definition csv_text (data : list (Candle pyfloat)) : string :=
  Csv.getvalue (map quote_fields data).

Definition _save_to_lean_format (self : t) (data : list (Candle pyfloat))
    (symbol_ : string) : M (option string) :=
  match data with
  | [] => ret None
  | _ =>
      let zip_path := quote_zip self symbol_ in
      let csv_filename := Py.lower symbol_ ++ ".csv" in
      write_zip zip_path csv_filename (csv_text data) ;;;
      ret (Some zip_path)
  end.

Definition download_symbol (self : t) (fuel : nat) (symbol_ : string)
    (start_date_ end_date_ : option string) : M SymbolStatus :=
  let start_date_ := default DEFAULT_START_DATE start_date_ in
  end_date_ <- match end_date_ with
               | None => now_date
               | Some d => ret d
               end ;;
  data <- _download_binance_klines self fuel symbol_ "1d" start_date_ end_date_ ;;
  match data with
  | [] => ret None
  | _ => _save_to_lean_format self data symbol_
  end ;;;
  fs <- get_fs ;;
  ret (get_symbol_status self fs symbol_).

(** The fetch [download_symbol] performs: its first lines, up to the call
    of [_download_binance_klines]. *)
Definition download_fetch (self : t) (fuel : nat) (symbol_ : string)
    (start_date_ end_date_ : option string) : M (list (Candle pyfloat)) :=
  let start_date_ := default DEFAULT_START_DATE start_date_ in
  end_date_ <- match end_date_ with
               | None => now_date
               | Some d => ret d
               end ;;
  _download_binance_klines self fuel symbol_ "1d" start_date_ end_date_.

Definition download_missing (self : t) (fuel : nat) (symbols : list string)
  : M (list SymbolStatus) :=
  fs <- get_fs ;;
  let check := check_symbols self fs symbols in
  for_each (fun s => download_symbol self fuel s None None) (snd check).

(** [status.available and status.end_date]: [None] and the empty string are
    false. *)
Definition resume_date (status : SymbolStatus) : option string :=
  if available status then
    match end_date status with
    | Some d => if String.eqb d "" then None else Some d
    | None => None
    end
  else None.

Definition update_symbol (self : t) (fuel : nat) (symbol_ : string) : M SymbolStatus :=
  fs <- get_fs ;;
  let status := get_symbol_status self fs symbol_ in
  let start_date_ :=
    match resume_date status with
    | Some d => d
    | None => DEFAULT_START_DATE
    end in
  download_symbol self fuel symbol_ (Some start_date_) None.

Definition update_all (self : t) (fuel : nat) : M (list SymbolStatus) :=
  fs <- get_fs ;;
  let symbols := get_available_symbols self fs in
  for_each (update_symbol self fuel) symbols.

Definition ensure_symbols (self : t) (fuel : nat) (symbols : list string)
  : M (list string * list string) :=
  fs <- get_fs ;;
  let check := check_symbols self fs symbols in
  match snd check with
  | [] => ret tt
  | missing => download_missing self fuel missing ;;; ret tt
  end ;;;
  fs' <- get_fs ;;
  ret (check_symbols self fs' symbols).

End DataManager.
End DataManager.

(** ** [scripts/convert_quote_data.py] *)

Module Converter.

(** [name.rfind('.')], counted from the left. *)
Fixpoint rfind_dot (s : string) : option nat :=
  match s with
  | EmptyString => None
  | String c r =>
      match rfind_dot r with
      | Some i => Some (S i)
      | None => if Ascii.eqb c "." then Some O else None
      end
  end.

(** The index at which the final component of a path starts. *)
Fixpoint name_start (s : string) : nat :=
  match s with
  | EmptyString => O
  | String c r =>
      if Py.has_char "/" r then S (name_start r)
      else if Ascii.eqb c "/" then 1%nat else O
  end.

(** [path.with_suffix(suffix)]: the last suffix of the final component, if it
    has one, gives way to [suffix]. *)
Definition with_suffix (path suffix : string) : string :=
  let k := name_start path in
  let dir := String.substring 0 k path in
  let name := String.substring k (String.length path - k) path in
  let kept :=
    match rfind_dot name with
    | Some i =>
        if ((0 <? i) && (i <? String.length name - 1))%nat
        then String.substring 0 i name
        else name
    | None => name
    end in
  dir ++ kept ++ suffix.

Section Converter.
Context {P : Platform}.

(** [datetime.utcfromtimestamp(ts_ms / 1000).strftime("%Y%m%d %H:%M")] *)
Definition convert_timestamp (ts_ms : Z) : result string :=
  let dt := Calendar.of_ms ts_ms in
  if Calendar.in_range dt then inr (Calendar.strftime_key dt)
  else inl (out_of_range ts_ms).

(** [convert_line]: [inr None] is the returned [None], [inl] an exception
    the [except] clause lets through. *)
Definition convert_line (line : string) : result (option string) :=
  let parts := Py.split Py.COMMA (Py.strip line) in
  if (List.length parts <? 9)%nat then inr None
  else
    let attempt :=
      try ts_ms <- Py.int (hd EmptyString parts) ;;
      try lean_date <- convert_timestamp ts_ms ;;
      let bid_data := slice 1 5 parts in
      let ask_data := slice 5 9 parts in
      let bid_size := "0" in
      let ask_size := "0" in
      inr (lean_date ++ "," ++ Py.join "," bid_data ++ "," ++ bid_size ++ ","
           ++ Py.join "," ask_data ++ "," ++ ask_size) in
    match attempt with
    | inr row => inr (Some row)
    | inl ValueError | inl IndexError => inr None
    | inl e => inl e
    end.

(** The loop [for line in lines] that fills [converted]. *)
Fixpoint convert_lines (lines : list string) : result (list string) :=
  match lines with
  | [] => inr []
  | line :: rest =>
      match Py.strip line with
      | EmptyString => convert_lines rest
      | _ =>
          try converted_line <- convert_line line ;;
          try converted <- convert_lines rest ;;
          inr (match converted_line with
               | Some (String c r) => String c r :: converted
               | _ => converted
               end)
      end
  end.

(** [lines and not lines[0].split(',')[0].isdigit()] *)
Definition already_lean (lines : list string) : bool :=
  match lines with
  | [] => false
  | l0 :: _ => negb (Py.isdigit (first_field l0))
  end.

(** [shutil.copy2(src, dst)] of a file that exists *)
Definition copy2 (f : file) (dst : string) : M unit :=
  fun w => Some (inr tt, {| w_fs := <[dst := f]> (w_fs w); w_tick := w_tick w |}).

Definition convert_zip_file (input_path : string) (output_path : option string)
    (backup : bool) : M unit :=
  let output_path := default input_path output_path in
  fs <- get_fs ;;
  match fs !! input_path with
  | None => raise OSError
  | Some f =>
      members <- lift (ZipFile.open_read f) ;;
      match members with
      | [] => ret tt
      | (csv_name, _) :: _ =>
          content <- lift (ZipFile.read_text csv_name members) ;;
          let lines := Py.splitlines content in
          if already_lean lines then ret tt
          else
            converted <- lift (convert_lines lines) ;;
            match converted with
            | [] => ret tt
            | _ =>
                (if backup && String.eqb input_path output_path
                 then copy2 f (with_suffix input_path ".zip.bak")
                 else ret tt) ;;;
                write_zip output_path csv_name (Py.join (String Py.LF EmptyString) converted)
            end
      end
  end.

(** The loop of [main] over [quote_files], the archives the recursive glob
    found, in the order it found them: [for qf in quote_files:
    convert_zip_file(qf)]. *)
Definition convert_quote_files (quote_files : list string) : M unit :=
  for_each (fun qf => convert_zip_file qf None true) quote_files ;;;
  ret tt.

End Converter.
End Converter.

(** ** [apps/portfolio/main.py]: the endpoint that deletes a symbol *)

Module Api.

(** [delete_symbol_data]: [inl code] is the raised [HTTPException] with that
    status code, [inr] the status of the returned dictionary. *)
Definition delete_symbol_data (data_manager : DataManager.t) (symbol_ : string) (w : world)
  : (Z + string) * world :=
  let zip_file := DataManager.quote_zip data_manager symbol_ in
  match w_fs w !! zip_file with
  | Some _ => (inr "ok", {| w_fs := delete zip_file (w_fs w); w_tick := w_tick w |})
  | None => (inl 404, w)
  end.

End Api.

(** ** What the specification says the codec writes

    The current encoding of the specification: eleven fields, the first the
    date key of the opening instant in UTC, rows joined by a line feed. *)

Module Spec.
Section Spec.
Context {P : Platform}.

Definition date_key (ts_ms : Z) : string :=
  Calendar.strftime_key (Calendar.of_ms ts_ms).

Definition current_row (candle : Candle pyfloat) : string :=
  let one_plus_spread := fadd (float_of_int 1) spread_literal in
  Py.join ","
    [ date_key (timestamp_ms candle);
      float_repr (open_price candle); float_repr (high_price candle);
      float_repr (low_price candle); float_repr (close_price candle);
      "0";
      float_repr (fmul (open_price candle) one_plus_spread);
      float_repr (fmul (high_price candle) one_plus_spread);
      float_repr (fmul (low_price candle) one_plus_spread);
      float_repr (fmul (close_price candle) one_plus_spread);
      "0" ].

Definition current_text (data : list (Candle pyfloat)) : string :=
  Py.join (String Py.LF EmptyString) (map current_row data).

End Spec.
End Spec.

(** ** A sample host

    Prices are decimals with eight places, kept as integers and multiplied
    exactly; the time zone is UTC; the remote serves three daily candles of
    one symbol, two per page. The definitions are evaluated on it. *)

Module Sample.

Definition scale : Z := 100000000.

Fixpoint digits (k : nat) (n : Z) : string :=
  match k with
  | O => EmptyString
  | S k' => digits k' (n / 10) ++ String (Calendar.digit_char n) EmptyString
  end.

Definition repr (x : Z) : string :=
  let a := Z.abs x in
  let places := Py.rstrip_with (Ascii.eqb "0") (digits 8 (a mod scale)) in
  (if x <? 0 then "-" else "") ++ Py.str (a / scale) ++ "."
  ++ match places with
     | EmptyString => "0"
     | _ => places
     end.

Definition utc_date (ts_ms : Z) : result string :=
  let dt := Calendar.of_ms ts_ms in
  if Calendar.in_range dt then inr (Calendar.strftime_date dt) else inl ValueError.

Definition utc_minute (seconds : Z) : result string :=
  let dt := Calendar.of_ms (seconds * 1000) in
  if Calendar.in_range dt then inr (Calendar.strftime_minute dt) else inl ValueError.

Definition parse_date (d : string) : result Z :=
  match Py.split "-" d with
  | [y; m; d] =>
      try y <- Py.int y ;;
      try m <- Py.int m ;;
      try d <- Py.int d ;;
      inr (Calendar.days_from_civil y m d * 86400000)
  | _ => inl ValueError
  end.

Definition price (units : Z) : Z := units * scale.

Definition candle (ts o h l c : Z) : Candle Z :=
  {| timestamp_ms := ts; open_price := o; high_price := h;
     low_price := l; close_price := c |}.

(** 2023-01-01, 2023-01-02 and 2023-01-03, at midnight UTC. *)
Definition market : list (Candle Z) :=
  [ candle 1672531200000 (price 100) (price 101) (price 99) 10050000000;
    candle 1672617600000 (price 102) (price 103) (price 101) (price 102);
    candle 1672704000000 (price 104) (price 105) (price 103) (price 104) ].

Definition serve (n : nat) (q : request) : response Z :=
  if String.eqb (q_symbol q) "BTCUSDT" then
    match Py.int (q_startTime q), Py.int (q_endTime q) with
    | inr s, inr e =>
        Page (firstn 2 (List.filter
                          (fun c => (s <=? timestamp_ms c) && (timestamp_ms c <=? e))
                          market))
    | _, _ => Failed
    end
  else Failed.

Definition text_size (m : string * payload) : Z :=
  match snd m with
  | Text content => Z.of_nat (String.length content)
  | _ => 0
  end.

(** The bytes of a name in UTF-8: two for a code point from 128 on. *)
Fixpoint utf8_length (s : string) : nat :=
  match s with
  | EmptyString => O
  | String c r => ((if (Py.code c <? 128)%nat then 1 else 2) + utf8_length r)%nat
  end.

(** The limit of Linux on names: no component of more than 255 bytes. *)
Definition name_too_long (path : string) : bool :=
  existsb (fun name => (255 <? utf8_length name)%nat) (Py.split "/" path).

(** A symbol of 246 letters: with [_quote.zip] a name of 256 bytes. *)
Definition long_symbol : string := String.concat "" (repeat "A" 246).

#[export] Instance host : Platform := {|
  pyfloat := Z;
  float_of_int := fun n => n * scale;
  fadd := Z.add;
  fmul := fun x y => x * y / scale;
  spread_literal := 10000;
  float_repr := repr;
  local_date := utc_date;
  local_minute := utc_minute;
  date_to_ms := parse_date;
  today := fun _ => "2023-01-04";
  out_of_range := fun _ => ValueError;
  clock := fun n => 1672876800 + Z.of_nat (Nat.min n 1000);
  archive_size := fun members => 100 + fold_right Z.add 0 (map text_size members);
  stat_error := name_too_long;
  remote := serve
|}.

Definition dm : DataManager.t := {| DataManager.lean_path := "/lean" |}.

Definition start : world := {| w_fs := ∅; w_tick := O |}.

(** The world after [download_symbol("BTCUSDT")] from the empty cache. *)
Definition after_download : option (result SymbolStatus * world) :=
  DataManager.download_symbol dm 10 "BTCUSDT" None None start.

End Sample.

(** ** A second sample host, whose remote fails on the second request *)

Module Flaky.

Definition serve (n : nat) (q : request) : response Z :=
  if (n =? 1)%nat then Failed else Sample.serve n q.

Definition host : Platform := {|
  pyfloat := Z;
  float_of_int := fun n => n * Sample.scale;
  fadd := Z.add;
  fmul := fun x y => x * y / Sample.scale;
  spread_literal := 10000;
  float_repr := Sample.repr;
  local_date := Sample.utc_date;
  local_minute := Sample.utc_minute;
  date_to_ms := Sample.parse_date;
  today := fun _ => "2023-01-04";
  out_of_range := fun _ => ValueError;
  clock := fun n => 1672876800 + Z.of_nat (Nat.min n 1000);
  archive_size := fun members => 100 + fold_right Z.add 0 (map Sample.text_size members);
  stat_error := Sample.name_too_long;
  remote := serve
|}.

End Flaky.

(** A current-format archive: the three sample candles as the converter
    would leave them. *)
Definition current_archive : gmap string file :=
  {[ DataManager.quote_zip Sample.dm "BTCUSDT" :=
       {| f_body := Zip [("btcusdt.csv", Text (Spec.current_text (P := Sample.host) Sample.market))];
          st_size := 322; st_mtime := 1672876800 |} ]}.

Definition garbage_archive : gmap string file :=
  {[ DataManager.quote_zip Sample.dm "BTCUSDT" :=
       {| f_body := NotZip; st_size := 17; st_mtime := 1672876800 |} ]}.

(** The sample cache after the first download. *)
Definition cached : world :=
  match Sample.after_download with
  | Some (_, w) => w
  | None => Sample.start
  end.

(** ** Auxiliary notions of the statements *)

Definition CRLF : string := Csv.lineterminator.

(** Lines, each followed by the line terminator. *)
Fixpoint terminated (ls : list string) : string :=
  match ls with
  | [] => EmptyString
  | l :: rest => (l ++ CRLF) ++ terminated rest
  end.

(** What [split('\n')] makes of lines joined by CR LF. *)
Fixpoint cr_lines (ls : list string) : list string :=
  match ls with
  | [] => [EmptyString]
  | l :: rest =>
      match rest with
      | [] => [l]
      | _ => (l ++ String Py.CR EmptyString) :: cr_lines rest
      end
  end.

Definition solid (l : string) : Prop :=
  l <> EmptyString /\ Py.all_chars (fun c => negb (Py.isspace c)) l = true.

(** A turn that ends the loop. *)
Definition stops {P : Platform} (t : turn) : bool :=
  match t with
  | Continue _ _ => false
  | _ => true
  end.

(** No page starts at or before the row the page before it ends with. *)
Fixpoint boundaries_ok {F} (pages : list (list (Candle F))) : Prop :=
  match pages with
  | p :: rest =>
      match rest with
      | q :: _ =>
          match list.last p with
          | Some c => Forall (fun c' => timestamp_ms c < timestamp_ms c') q
          | None => True
          end /\ boundaries_ok rest
      | [] => True
      end
  | [] => True
  end.

(** The remote never returns a row that opens before the requested start. *)
Definition respects_start {P : Platform} (symbol_ interval : string) (end_ts : Z) : Prop :=
  forall n current_ts data,
    remote n (klines_request symbol_ interval current_ts end_ts) = Page data ->
    Forall (fun c => current_ts <= timestamp_ms c) data.

(** A row that starts with a date key and a comma. *)
Definition keyed (row : string) : Prop :=
  exists dt tail, row = Calendar.strftime_key dt ++ String Py.COMMA tail.

(** The remote has no rows for the symbol: every request for it fails or
    comes back empty. *)
Definition silent {P : Platform} (symbol_ : string) : Prop :=
  forall n q, q_symbol q = symbol_ -> remote n q = Failed \/ remote n q = Page [].

(** A computation that removes no file: a path that names a file before it
    names one after it, however it ends. *)
Definition keeps_files {A} (m : M A) : Prop :=
  forall w r w', m w = Some (r, w') ->
                 forall path, is_Some (w_fs w !! path) -> is_Some (w_fs w' !! path).

(** The text of the single member [name] of the archive at [path]. *)
Definition entry_text (fs : gmap string file) (path name : string) : option string :=
  match fs !! path with
  | Some f =>
      match f_body f with
      | Zip [(n, Text content)] => if String.eqb n name then Some content else None
      | _ => None
      end
  | None => None
  end.

(** * Properties *)

(** ** Strings *)

Lemma all_chars_app p a b :
  Py.all_chars p (a ++ b) = Py.all_chars p a && Py.all_chars p b.
Proof.
  induction a as [|c a IH]; simpl; [reflexivity|].
  rewrite IH. apply andb_assoc.
Qed.

Lemma all_chars_weaken (p q : ascii -> bool) s :
  (forall c, p c = true -> q c = true) ->
  Py.all_chars p s = true -> Py.all_chars q s = true.
Proof.
  intros Hpq. induction s as [|c s IH]; simpl; [reflexivity|].
  intros [Hc Hs]%andb_true_iff. rewrite (Hpq _ Hc), (IH Hs). reflexivity.
Qed.

Lemma all_chars_absent p c s :
  Py.all_chars p s = true -> p c = false -> Py.has_char c s = false.
Proof.
  intros Hs Hc. induction s as [|d s IH]; simpl in *; [reflexivity|].
  apply andb_true_iff in Hs as [Hd Hs]. rewrite (IH Hs), orb_false_r.
  destruct (Ascii.eqb_spec c d) as [E|E]; [subst d; congruence | reflexivity].
Qed.

Lemma has_char_app c a b :
  Py.has_char c (a ++ b) = Py.has_char c a || Py.has_char c b.
Proof.
  induction a as [|d a IH]; simpl; [reflexivity|].
  rewrite IH. apply orb_assoc.
Qed.

Lemma append_cons c (a b : string) : String c a ++ b = String c (a ++ b).
Proof. reflexivity. Qed.

Lemma append_nil (b : string) : "" ++ b = b.
Proof. reflexivity. Qed.

Lemma app_empty_r (s : string) : s ++ "" = s.
Proof.
  induction s as [|c s IH]; [reflexivity|]. rewrite append_cons, IH. reflexivity.
Qed.

Lemma app_assoc_s (a b c : string) : (a ++ b) ++ c = a ++ (b ++ c).
Proof.
  induction a as [|x a IH]; [reflexivity|]. rewrite !append_cons, IH. reflexivity.
Qed.

Lemma lstrip_keep sp c r :
  sp c = false -> Py.lstrip_with sp (String c r) = String c r.
Proof. intros H. simpl. rewrite H. reflexivity. Qed.

Lemma rstrip_clean sp s :
  Py.all_chars (fun c => negb (sp c)) s = true -> Py.rstrip_with sp s = s.
Proof.
  induction s as [|c s IH]; simpl; [reflexivity|].
  intros [Hc Hs]%andb_true_iff. rewrite (IH Hs).
  apply negb_true_iff in Hc. rewrite Hc. destruct s; reflexivity.
Qed.

Lemma rstrip_blank sp s :
  Py.all_chars sp s = true -> Py.rstrip_with sp s = "".
Proof.
  induction s as [|c s IH]; simpl; [reflexivity|].
  intros [Hc Hs]%andb_true_iff. rewrite (IH Hs), Hc. reflexivity.
Qed.

Lemma rstrip_app_keep sp a b :
  Py.rstrip_with sp b <> "" ->
  Py.rstrip_with sp (a ++ b) = a ++ Py.rstrip_with sp b.
Proof.
  intros Hb. induction a as [|c a IH]; simpl; [reflexivity|].
  rewrite IH, append_cons. destruct (a ++ Py.rstrip_with sp b) eqn:E; [|reflexivity].
  destruct a; [rewrite append_nil in E; contradiction | discriminate].
Qed.

Lemma rstrip_app_blank sp a b :
  Py.all_chars sp b = true ->
  Py.rstrip_with sp (a ++ b) = Py.rstrip_with sp a.
Proof.
  intros Hb. induction a as [|c a IH]; simpl.
  - apply rstrip_blank, Hb.
  - rewrite IH. reflexivity.
Qed.

Lemma rstrip_preserves p sp s :
  Py.all_chars p s = true -> Py.all_chars p (Py.rstrip_with sp s) = true.
Proof.
  induction s as [|c s IH]; simpl; [reflexivity|].
  intros [Hc Hs]%andb_true_iff. specialize (IH Hs).
  destruct (Py.rstrip_with sp s) eqn:E.
  - destruct (sp c); simpl; [reflexivity | rewrite Hc; reflexivity].
  - simpl in *. rewrite Hc, IH. reflexivity.
Qed.

Lemma strip_clean sp s :
  Py.all_chars (fun c => negb (sp c)) s = true -> Py.strip_with sp s = s.
Proof.
  intros H. unfold Py.strip_with.
  assert (Py.lstrip_with sp s = s) as ->.
  { destruct s as [|c s]; [reflexivity|]. simpl in *.
    apply andb_true_iff in H as [Hc _]. apply negb_true_iff in Hc.
    rewrite Hc. reflexivity. }
  apply rstrip_clean, H.
Qed.

Lemma split_nonempty sep s : Py.split sep s <> [].
Proof.
  destruct s as [|c s]; simpl; [discriminate|].
  destruct (Ascii.eqb c sep); [discriminate|].
  destruct (Py.split sep s); discriminate.
Qed.

Lemma split_absent sep s :
  Py.has_char sep s = false -> Py.split sep s = [s].
Proof.
  induction s as [|c s IH]; simpl; [reflexivity|].
  intros [Hc Hs]%orb_false_iff. rewrite Ascii.eqb_sym, Hc, (IH Hs). reflexivity.
Qed.

Lemma split_app sep a b :
  Py.has_char sep a = false ->
  Py.split sep (a ++ String sep b) = a :: Py.split sep b.
Proof.
  induction a as [|c a IH]; simpl.
  - intros _. rewrite Ascii.eqb_refl. reflexivity.
  - intros [Hc Ha]%orb_false_iff. rewrite Ascii.eqb_sym, Hc, (IH Ha). reflexivity.
Qed.

Lemma first_field_absent s :
  Py.has_char Py.COMMA s = false -> first_field s = s.
Proof. intros H. unfold first_field. rewrite split_absent; auto. Qed.

Lemma first_field_app a b :
  Py.has_char Py.COMMA a = false -> first_field (a ++ String Py.COMMA b) = a.
Proof. intros H. unfold first_field. rewrite split_app; auto. Qed.


(** ** Integer literals *)


Lemma uint_chars u : Py.all_chars Py.is_decimal (NilEmpty.string_of_uint u) = true.
Proof. induction u; simpl; auto. Qed.

Lemma uint_string_nonnil u :
  u <> Decimal.Nil -> NilZero.string_of_uint u = NilEmpty.string_of_uint u.
Proof. destruct u; [contradiction | reflexivity ..]. Qed.

Lemma str_pos p : Py.str (Z.pos p) = NilEmpty.string_of_uint (Pos.to_uint p).
Proof.
  unfold Py.str. simpl. apply uint_string_nonnil, DecimalPos.Unsigned.to_uint_nonnil.
Qed.

Lemma str_neg p :
  Py.str (Z.neg p) = String "-" (NilEmpty.string_of_uint (Pos.to_uint p)).
Proof.
  unfold Py.str. simpl. f_equal.
  apply uint_string_nonnil, DecimalPos.Unsigned.to_uint_nonnil.
Qed.

Lemma str_chars z : Py.all_chars sign_or_digit (Py.str z) = true.
Proof.
  assert (forall u, Py.all_chars sign_or_digit (NilEmpty.string_of_uint u) = true) as H.
  { intros u. apply all_chars_weaken with (p := Py.is_decimal); [|apply uint_chars].
    intros c Hc. unfold sign_or_digit. rewrite Hc. reflexivity. }
  destruct z as [|p|p].
  - reflexivity.
  - rewrite str_pos. apply H.
  - rewrite str_neg. simpl. apply H.
Qed.

Lemma str_nonempty z : Py.str z <> "".
Proof.
  destruct z as [|p|p]; [discriminate | | rewrite str_neg; discriminate].
  rewrite str_pos. pose proof (DecimalPos.Unsigned.to_uint_nonnil p) as H.
  destruct (Pos.to_uint p); [contradiction | discriminate ..].
Qed.

Lemma int_digits_uint u b :
  b = true \/ u <> Decimal.Nil ->
  Py.int_digits b (NilEmpty.string_of_uint u) = Some u.
Proof.
  revert b. induction u; intros b H; simpl;
    try (rewrite IHu by (left; reflexivity); reflexivity).
  destruct H as [->|H]; [reflexivity | contradiction].
Qed.

Lemma of_uint_pos p : Z.of_uint (Pos.to_uint p) = Z.pos p.
Proof. unfold Z.of_uint. rewrite DecimalPos.Unsigned.of_to. reflexivity. Qed.

Lemma sign_or_digit_not_blank c :
  sign_or_digit c = true -> negb (Py.int_space c) = true.
Proof.
  unfold sign_or_digit, Py.is_decimal, Py.int_space.
  generalize (Py.code c). intros n H. lia.
Qed.

Lemma split_sign_digit c r :
  Py.is_decimal c = true -> Py.split_sign (String c r) = (false, String c r).
Proof.
  unfold Py.split_sign, Py.is_decimal. generalize (Py.code c). intros n H.
  assert ((n =? 45)%nat = false) as -> by lia.
  assert ((n =? 43)%nat = false) as -> by lia.
  reflexivity.
Qed.

Lemma int_unsigned u :
  u <> Decimal.Nil -> Py.int (NilEmpty.string_of_uint u) = inr (Z.of_uint u).
Proof.
  intros Hn. unfold Py.int. rewrite strip_clean.
  2:{ apply all_chars_weaken with (p := Py.is_decimal); [|apply uint_chars].
      intros c Hc. apply sign_or_digit_not_blank. unfold sign_or_digit.
      rewrite Hc. reflexivity. }
  pose proof (int_digits_uint u false (or_intror Hn)) as Hd.
  pose proof (uint_chars u) as Hc.
  destruct (NilEmpty.string_of_uint u) as [|c r] eqn:E.
  - destruct u; [contradiction | discriminate ..].
  - simpl in Hc. apply andb_true_iff in Hc as [Hc _].
    rewrite (split_sign_digit _ _ Hc), Hd. reflexivity.
Qed.

(** [int(str(n)) == n] *)
Lemma int_str z : Py.int (Py.str z) = inr z.
Proof.
  destruct z as [|p|p].
  - reflexivity.
  - rewrite str_pos, int_unsigned, of_uint_pos;
      [reflexivity | apply DecimalPos.Unsigned.to_uint_nonnil].
  - rewrite str_neg. unfold Py.int. rewrite strip_clean.
    2:{ apply all_chars_weaken with (p := sign_or_digit);
          [apply sign_or_digit_not_blank|].
        rewrite <- str_neg. apply str_chars. }
    change (Py.split_sign (String "-" (NilEmpty.string_of_uint (Pos.to_uint p))))
      with (true, NilEmpty.string_of_uint (Pos.to_uint p)).
    cbv beta iota.
    rewrite int_digits_uint, of_uint_pos;
      [reflexivity | right; apply DecimalPos.Unsigned.to_uint_nonnil].
Qed.

Lemma str_no_comma z : Py.has_char Py.COMMA (Py.str z) = false.
Proof. apply all_chars_absent with (p := sign_or_digit); [apply str_chars | reflexivity]. Qed.


(** ** Rows written by the csv writer *)

Lemma eqb_code c d : Ascii.eqb c d = (Py.code c =? Py.code d)%nat.
Proof.
  unfold Py.code. destruct (Ascii.eqb_spec c d) as [->|Hne].
  - symmetry. apply Nat.eqb_refl.
  - symmetry. apply Nat.eqb_neq. intros E. apply Hne.
    rewrite <- (ascii_nat_embedding c), <- (ascii_nat_embedding d), E. reflexivity.
Qed.

Lemma plain_code c :
  plain c =
  let n := Py.code c in
  (negb (((9 <=? n) && (n <=? 13)) || ((28 <=? n) && (n <=? 31)) || (n =? 32)
         || (n =? 133) || (n =? 160))
   && negb (n =? 44) && negb (n =? 34))%nat.
Proof. unfold plain, Py.isspace. rewrite !eqb_code. reflexivity. Qed.

Lemma float_char_plain c : float_char c = true -> plain c = true.
Proof.
  unfold float_char. rewrite plain_code. simpl Py.has_char. rewrite !eqb_code.
  unfold Py.is_decimal. cbn [Py.code nat_of_ascii].
  change (Py.code ".") with 46%nat. change (Py.code "e") with 101%nat.
  change (Py.code "+") with 43%nat. change (Py.code "i") with 105%nat.
  change (Py.code "n") with 110%nat. change (Py.code "f") with 102%nat.
  change (Py.code "a") with 97%nat.
  generalize (Py.code c). intros n H. cbv zeta. lia.
Qed.

Lemma sign_or_digit_float c : sign_or_digit c = true -> float_char c = true.
Proof.
  unfold sign_or_digit, float_char. intros H.
  apply orb_true_iff in H as [->| ->]; [reflexivity | apply orb_true_r].
Qed.

Lemma plain_not_space c : plain c = true -> negb (Py.isspace c) = true.
Proof. unfold plain. intros [[H _]%andb_true_iff _]%andb_true_iff. exact H. Qed.

Lemma plain_field s : Py.all_chars plain s = true -> Csv.field s = s.
Proof.
  intros H. unfold Csv.field, Csv.needs_quotes.
  rewrite !(all_chars_absent plain _ s H); reflexivity.
Qed.

Lemma plain_no_comma s : Py.all_chars plain s = true -> Py.has_char Py.COMMA s = false.
Proof. intros H. apply (all_chars_absent plain _ s H). reflexivity. Qed.

Lemma solid_no_lf l : solid l -> Py.has_char Py.LF l = false.
Proof. intros [_ H]. apply (all_chars_absent _ _ l H). reflexivity. Qed.

Lemma join_cons sep x y rest :
  Py.join sep (x :: y :: rest) = x ++ sep ++ Py.join sep (y :: rest).
Proof. reflexivity. Qed.

Lemma join_solid_nonempty sep l rest : l <> "" -> Py.join sep (l :: rest) <> "".
Proof.
  intros H. destruct rest; [exact H|]. rewrite join_cons.
  destruct l; [contradiction | discriminate].
Qed.

Lemma rstrip_terminated ls :
  ls <> [] -> Forall solid ls ->
  Py.rstrip_with Py.isspace (terminated ls) = Py.join CRLF ls.
Proof.
  induction ls as [|l rest IH]; [contradiction|].
  intros _ Hs. apply Forall_cons_iff in Hs as [[Hne Hl] Hrest].
  destruct rest as [|l' rest'].
  - simpl. rewrite app_empty_r, rstrip_app_blank by reflexivity.
    apply rstrip_clean, Hl.
  - change (terminated (l :: l' :: rest')) with ((l ++ CRLF) ++ terminated (l' :: rest')).
    specialize (IH ltac:(discriminate) Hrest).
    rewrite rstrip_app_keep, IH, join_cons, app_assoc_s; [reflexivity|].
    rewrite IH. apply join_solid_nonempty.
    apply Forall_cons_iff in Hrest as [[H _] _]. exact H.
Qed.

Lemma strip_terminated ls :
  ls <> [] -> Forall solid ls -> Py.strip (terminated ls) = Py.join CRLF ls.
Proof.
  intros Hne Hs. unfold Py.strip, Py.strip_with.
  assert (Py.lstrip_with Py.isspace (terminated ls) = terminated ls) as ->.
  { destruct ls as [|l rest]; [contradiction|].
    apply Forall_cons_iff in Hs as [[Hl Hc] _].
    destruct l as [|c l]; [contradiction|].
    simpl in Hc. apply andb_true_iff in Hc as [Hc _]. apply negb_true_iff in Hc.
    simpl. rewrite Hc. reflexivity. }
  apply rstrip_terminated; assumption.
Qed.

Lemma split_joined ls :
  ls <> [] -> Forall solid ls -> Py.split Py.LF (Py.join CRLF ls) = cr_lines ls.
Proof.
  induction ls as [|l rest IH]; [contradiction|].
  intros _ Hs. apply Forall_cons_iff in Hs as [Hl Hrest].
  destruct rest as [|l' rest'].
  - simpl. apply split_absent, solid_no_lf, Hl.
  - rewrite join_cons.
    change (l ++ CRLF ++ Py.join CRLF (l' :: rest'))
      with (l ++ String Py.CR (String Py.LF (Py.join CRLF (l' :: rest')))).
    replace (l ++ String Py.CR (String Py.LF (Py.join CRLF (l' :: rest'))))
      with ((l ++ String Py.CR "") ++ String Py.LF (Py.join CRLF (l' :: rest')))
      by (rewrite app_assoc_s; reflexivity).
    rewrite split_app, IH by (try discriminate; try assumption;
      rewrite has_char_app, (solid_no_lf _ Hl); reflexivity).
    reflexivity.
Qed.

Lemma cr_lines_length ls : ls <> [] -> List.length (cr_lines ls) = List.length ls.
Proof.
  induction ls as [|l rest IH]; [contradiction|]. intros _.
  destruct rest as [|l' rest']; [reflexivity|].
  change (cr_lines (l :: l' :: rest')) with ((l ++ String Py.CR "") :: cr_lines (l' :: rest')).
  cbn [List.length]. f_equal. apply IH. discriminate.
Qed.

Lemma cr_lines_last ls d d' :
  ls <> [] -> List.last (cr_lines ls) d = List.last ls d'.
Proof.
  induction ls as [|l rest IH]; [contradiction|]. intros _.
  destruct rest as [|l' rest']; [reflexivity|].
  change (cr_lines (l :: l' :: rest')) with ((l ++ String Py.CR "") :: cr_lines (l' :: rest')).
  specialize (IH ltac:(discriminate)).
  destruct (cr_lines (l' :: rest')) eqn:E.
  - destruct rest'; discriminate.
  - change (List.last (l :: l' :: rest') d') with (List.last (l' :: rest') d').
    rewrite <- IH. reflexivity.
Qed.

(** ** The archive the data manager writes *)

Lemma all_chars_join p sep l :
  Py.all_chars p sep = true -> Forall (fun f => Py.all_chars p f = true) l ->
  Py.all_chars p (Py.join sep l) = true.
Proof.
  intros Hsep. induction l as [|x rest IH]; [reflexivity|].
  intros [Hx Hrest]%Forall_cons_iff. destruct rest as [|y rest']; [exact Hx|].
  rewrite join_cons, !all_chars_app, Hx, Hsep, (IH Hrest). reflexivity.
Qed.

Lemma map_field_plain l :
  Forall (fun f => Py.all_chars plain f = true) l -> map Csv.field l = l.
Proof.
  induction l as [|x rest IH]; [reflexivity|].
  intros [Hx Hrest]%Forall_cons_iff. simpl. rewrite (plain_field _ Hx), (IH Hrest).
  reflexivity.
Qed.

Lemma stdpp_last_last {A} (l : list A) (d : A) :
  l <> [] -> list.last l = Some (List.last l d).
Proof.
  induction l as [|x rest IH]; [contradiction|]. intros _.
  destruct rest as [|y rest']; [reflexivity|].
  change (list.last (x :: y :: rest')) with (list.last (y :: rest')).
  change (List.last (x :: y :: rest') d) with (List.last (y :: rest') d).
  apply IH. discriminate.
Qed.

Lemma last_of_map {A B} (f : A -> B) (l : list A) (d : A) :
  List.last (map f l) (f d) = f (List.last l d).
Proof.
  induction l as [|x rest IH]; [reflexivity|].
  destruct rest as [|y rest']; [reflexivity|]. exact IH.
Qed.

Section Archive.
Context {P : Platform} {L : PlatformLaws P}.

Lemma str_plain z : Py.all_chars plain (Py.str z) = true.
Proof.
  apply all_chars_weaken with (p := sign_or_digit); [|apply str_chars].
  intros c H. apply float_char_plain, sign_or_digit_float, H.
Qed.

Lemma repr_plain (x : pyfloat) : Py.all_chars plain (float_repr x) = true.
Proof.
  apply all_chars_weaken with (p := float_char); [|apply float_repr_chars].
  apply float_char_plain.
Qed.

Lemma quote_fields_plain candle :
  Forall (fun f => Py.all_chars plain f = true) (DataManager.quote_fields candle).
Proof.
  unfold DataManager.quote_fields.
  repeat (apply Forall_cons; split; [first [apply str_plain | apply repr_plain]|]).
  apply Forall_nil_2.
Qed.

Lemma writerow_quote_line candle :
  Csv.writerow (DataManager.quote_fields candle) = DataManager.quote_line candle ++ CRLF.
Proof.
  unfold Csv.writerow, DataManager.quote_line.
  rewrite (map_field_plain _ (quote_fields_plain candle)). reflexivity.
Qed.

Lemma csv_text_terminated data :
  DataManager.csv_text data = terminated (map DataManager.quote_line data).
Proof.
  unfold DataManager.csv_text.
  induction data as [|c rest IH]; [reflexivity|].
  simpl. rewrite writerow_quote_line, IH. reflexivity.
Qed.

Lemma quote_line_head candle :
  exists tail, DataManager.quote_line candle
               = Py.str (timestamp_ms candle) ++ String Py.COMMA tail
               /\ Py.all_chars (fun c => negb (Py.isspace c)) tail = true.
Proof.
  exists (Py.join "," (tl (DataManager.quote_fields candle))). split; [reflexivity|].
  pose proof (quote_fields_plain candle) as H.
  unfold DataManager.quote_fields in H. apply Forall_cons_iff in H as [_ H].
  apply all_chars_join; [reflexivity|].
  eapply Forall_impl; [exact H|]. intros f Hf.
  apply (all_chars_weaken plain _ _ plain_not_space Hf).
Qed.

Lemma quote_line_solid candle : solid (DataManager.quote_line candle).
Proof.
  destruct (quote_line_head candle) as (tail & -> & Ht). split.
  - destruct (Py.str (timestamp_ms candle)); discriminate.
  - rewrite all_chars_app. simpl.
    rewrite (all_chars_weaken plain _ _ plain_not_space (str_plain _)).
    rewrite Ht. reflexivity.
Qed.

Lemma first_field_quote_line candle suffix :
  Py.has_char Py.COMMA suffix = false ->
  first_field (DataManager.quote_line candle ++ suffix) = Py.str (timestamp_ms candle).
Proof.
  intros _. destruct (quote_line_head candle) as (tail & -> & _).
  rewrite app_assoc_s, append_cons. apply first_field_app, str_no_comma.
Qed.

Lemma lines_of_csv_text data :
  data <> [] ->
  Py.split Py.LF (Py.strip (DataManager.csv_text data))
  = cr_lines (map DataManager.quote_line data).
Proof.
  intros Hne. rewrite csv_text_terminated.
  assert (map DataManager.quote_line data <> []) as Hm by (destruct data; [contradiction|discriminate]).
  assert (Forall solid (map DataManager.quote_line data)) as Hs.
  { apply Forall_map, Forall_forall. intros c _. apply quote_line_solid. }
  rewrite strip_terminated, split_joined by assumption. reflexivity.
Qed.

Lemma read_status_written zip_file symbol_ name data size mtime c0 cN d0 dN m :
  head data = Some c0 -> list.last data = Some cN ->
  local_date (timestamp_ms c0) = inr d0 ->
  local_date (timestamp_ms cN) = inr dN ->
  local_minute mtime = inr m ->
  DataManager.read_status zip_file symbol_
    {| f_body := Zip [(name, Text (DataManager.csv_text data))];
       st_size := size; st_mtime := mtime |}
  = inr {| symbol := Py.upper symbol_; available := true;
           file_path := Some zip_file; file_size := size;
           candles_count := List.length data;
           start_date := Some d0; end_date := Some dN;
           last_updated := Some m |}.
Proof.
  intros Hhd Hlast H0 HN Hm.
  assert (data <> []) as Hne by (destruct data; [discriminate Hhd | discriminate]).
  unfold DataManager.read_status. cbn [ZipFile.open_read f_body ZipFile.first_name rbind].
  unfold ZipFile.read_text. cbn [ZipFile.getinfo]. rewrite String.eqb_refl. cbn [rbind].
  rewrite (lines_of_csv_text _ Hne).
  rewrite cr_lines_length by (destruct data; [contradiction|discriminate]).
  rewrite length_map.
  destruct data as [|c rest]; [contradiction|]. injection Hhd as ->.
  rewrite (stdpp_last_last _ c0) in Hlast by discriminate. injection Hlast as <-.
  assert (exists l0 tail, cr_lines (map DataManager.quote_line (c0 :: rest)) = l0 :: tail
          /\ first_field l0 = Py.str (timestamp_ms c0)) as (l0 & tail & E & Hf).
  { destruct rest as [|c1 rest'].
    - exists (DataManager.quote_line c0), []. split; [reflexivity|].
      rewrite <- (app_empty_r (DataManager.quote_line c0)).
      apply first_field_quote_line. reflexivity.
    - eexists _, _. split; [reflexivity|]. apply first_field_quote_line. reflexivity. }
  pose proof (cr_lines_last (map DataManager.quote_line (c0 :: rest)) l0
                (DataManager.quote_line c0) ltac:(discriminate)) as Hl.
  rewrite E in *. rewrite Hl, Hf, int_str. cbn [rbind]. rewrite H0. cbn [rbind].
  rewrite last_of_map.
  rewrite <- (app_empty_r (DataManager.quote_line _)).
  rewrite first_field_quote_line by reflexivity.
  rewrite int_str. cbn [rbind].
  change (List.last (c0 :: rest) c0)
    with (match rest with [] => c0 | _ :: _ => List.last rest c0 end).
  rewrite HN. cbn [rbind st_mtime]. rewrite Hm. reflexivity.
Qed.

End Archive.

(** ** The sample host is a host *)

Lemma code_of_nat n : (n < 256)%nat -> Py.code (ascii_of_nat n) = n.
Proof. apply nat_ascii_embedding. Qed.

Lemma digit_char_decimal n : Py.is_decimal (Calendar.digit_char n) = true.
Proof.
  unfold Py.is_decimal, Calendar.digit_char.
  assert (0 <= n mod 10 < 10) as Hn by (apply Z.mod_pos_bound; lia).
  rewrite code_of_nat by lia. lia.
Qed.

Lemma digits_decimal k n : Py.all_chars Py.is_decimal (Sample.digits k n) = true.
Proof.
  revert n. induction k as [|k IH]; intros n; [reflexivity|].
  cbn [Sample.digits]. rewrite all_chars_app, IH. cbn [Py.all_chars].
  rewrite digit_char_decimal. reflexivity.
Qed.

Lemma decimal_float_char c : Py.is_decimal c = true -> float_char c = true.
Proof. unfold float_char. intros ->. reflexivity. Qed.

Lemma sample_repr_chars x : Py.all_chars float_char (Sample.repr x) = true.
Proof.
  unfold Sample.repr. rewrite !all_chars_app.
  assert (Py.all_chars float_char (if x <? 0 then "-" else "") = true) as ->
    by (destruct (x <? 0); reflexivity).
  rewrite (all_chars_weaken _ _ _ sign_or_digit_float (str_chars _)).
  pose proof (rstrip_preserves float_char (Ascii.eqb "0")
                (Sample.digits 8 (Z.abs x mod Sample.scale))
                (all_chars_weaken _ _ _ decimal_float_char (digits_decimal _ _))) as H.
  destruct (Py.rstrip_with _ _); [reflexivity|]. rewrite H. reflexivity.
Qed.

Lemma sample_clock_day n :
  Calendar.of_ms ((1672876800 + Z.of_nat (Nat.min n 1000)) * 1000)
  = {| Calendar.year := 2023; Calendar.month := 1; Calendar.day := 5;
       Calendar.hour := (1672876800 + Z.of_nat (Nat.min n 1000)) mod 86400 / 3600;
       Calendar.minute := (1672876800 + Z.of_nat (Nat.min n 1000)) mod 86400 mod 3600 / 60 |}.
Proof.
  unfold Calendar.of_ms. rewrite Z.div_mul by lia.
  set (t := 1672876800 + Z.of_nat (Nat.min n 1000)).
  assert (t / 86400 = 19362) as -> by (subst t; symmetry; apply Z.div_unique with (r := Z.of_nat (Nat.min n 1000)); lia).
  reflexivity.
Qed.

#[export] Instance sample_host_laws : PlatformLaws Sample.host.
Proof.
  split.
  - apply sample_repr_chars.
  - intros ts d. simpl. unfold Sample.utc_date.
    destruct (Calendar.in_range _); [|discriminate].
    intros [= <-]. discriminate.
  - intros n. simpl. unfold Sample.utc_minute. rewrite sample_clock_day.
    eexists. reflexivity.
Qed.

(** ** Encoding and inspection *)

Lemma split_join l :
  l <> [] -> Forall (fun f => Py.has_char Py.COMMA f = false) l ->
  Py.split Py.COMMA (Py.join "," l) = l.
Proof.
  induction l as [|x rest IH]; [contradiction|]. intros _ [Hx Hrest]%Forall_cons_iff.
  destruct rest as [|y rest'].
  - apply split_absent, Hx.
  - rewrite join_cons. change ("," ++ Py.join "," (y :: rest'))
      with (String Py.COMMA (Py.join "," (y :: rest'))).
    rewrite split_app, IH by (try discriminate; assumption). reflexivity.
Qed.

Section Encoding.
Context {P : Platform} {L : PlatformLaws P}.

Lemma save_nonempty (self : DataManager.t) data symbol_ w :
  data <> [] ->
  DataManager._save_to_lean_format self data symbol_ w
  = Some (inr (Some (DataManager.quote_zip self symbol_)),
          {| w_fs := <[DataManager.quote_zip self symbol_ :=
                        {| f_body := Zip [(Py.lower symbol_ ++ ".csv",
                                           Text (DataManager.csv_text data))];
                           st_size := archive_size [(Py.lower symbol_ ++ ".csv",
                                                     Text (DataManager.csv_text data))];
                           st_mtime := clock (w_tick w) |}]> (w_fs w);
             w_tick := S (w_tick w) |}).
Proof. destruct data; [contradiction | reflexivity]. Qed.

(** C2, as the code has it: for a non-empty candle sequence [encode]
    replaces the file at [<root>/<symbol_lowercase>_quote.zip] by an archive
    whose single member, named [<symbol_lowercase>.csv], holds one row per
    candle in the legacy encoding, each row followed by CR LF; a row splits
    at its commas into exactly the nine fields epoch milliseconds, four bid
    prices and four ask prices, none of them quoted; every other file is
    left as it was, and the path written is returned. *)
Theorem encode_writes_legacy_rows (self : DataManager.t) (data : list (Candle pyfloat))
    (symbol_ : string) (w : world) :
  data <> [] ->
  exists w',
    DataManager._save_to_lean_format self data symbol_ w
    = Some (inr (Some (DataManager.quote_zip self symbol_)), w')
    /\ entry_text (w_fs w') (DataManager.quote_zip self symbol_) (Py.lower symbol_ ++ ".csv")
       = Some (terminated (map DataManager.quote_line data))
    /\ Forall (fun candle =>
                 Py.split Py.COMMA (DataManager.quote_line candle)
                 = DataManager.quote_fields candle
                 /\ List.length (DataManager.quote_fields candle) = 9%nat
                 /\ first_field (DataManager.quote_line candle)
                    = Py.str (timestamp_ms candle)) data
    /\ (forall path, path <> DataManager.quote_zip self symbol_ ->
                     w_fs w' !! path = w_fs w !! path).
Proof.
  intros Hne. eexists. split; [apply save_nonempty, Hne|]. cbn [w_fs]. repeat split.
  - unfold entry_text. rewrite lookup_insert_eq. cbn [f_body].
    rewrite String.eqb_refl, csv_text_terminated. reflexivity.
  - apply Forall_forall. intros candle _. repeat split.
    + apply split_join; [discriminate|].
      eapply Forall_impl; [apply quote_fields_plain|]. intros f. apply plain_no_comma.
    + rewrite <- (app_empty_r (DataManager.quote_line candle)).
      apply first_field_quote_line. reflexivity.
  - intros path Hp. apply lookup_insert_ne. congruence.
Qed.

(** C4: encoding a non-empty candle sequence for a symbol and then
    inspecting that symbol yields a status with [available = true], a row
    count equal to the number of candles, and as start and end date the
    calendar dates (in the host's time zone, as [datetime.fromtimestamp]
    gives them) of the first and of the last candle's opening time. *)
Theorem encode_then_inspect (self : DataManager.t) (data : list (Candle pyfloat))
    (symbol_ : string) (w : world) (c0 cN : Candle pyfloat) (d0 dN : string) :
  head data = Some c0 -> list.last data = Some cN ->
  local_date (timestamp_ms c0) = inr d0 ->
  local_date (timestamp_ms cN) = inr dN ->
  exists w',
    DataManager._save_to_lean_format self data symbol_ w
    = Some (inr (Some (DataManager.quote_zip self symbol_)), w')
    /\ let status := DataManager.get_symbol_status self (w_fs w') symbol_ in
       available status = true
       /\ candles_count status = List.length data
       /\ start_date status = Some d0
       /\ end_date status = Some dN.
Proof.
  intros Hhd Hlast H0 HN.
  assert (data <> []) as Hne by (destruct data; [discriminate Hhd | discriminate]).
  eexists. split; [apply save_nonempty, Hne|]. cbn [w_fs].
  destruct (clock_renders (w_tick w)) as [m Hm].
  unfold DataManager.get_symbol_status. rewrite lookup_insert_eq.
  rewrite (read_status_written _ _ _ _ _ _ c0 cN d0 dN m) by assumption.
  cbn. auto.
Qed.

End Encoding.

Lemma encode_writes_legacy_rows_witness :
  Sample.market <> []
  /\ exists w',
    DataManager._save_to_lean_format (P := Sample.host) Sample.dm Sample.market "BTCUSDT" Sample.start
    = Some (inr (Some (DataManager.quote_zip Sample.dm "BTCUSDT")), w')
    /\ entry_text (w_fs w') (DataManager.quote_zip Sample.dm "BTCUSDT") "btcusdt.csv"
       = Some (terminated (map (DataManager.quote_line (P := Sample.host)) Sample.market)).
Proof.
  split; [discriminate|].
  destruct (encode_writes_legacy_rows (P := Sample.host) Sample.dm Sample.market "BTCUSDT" Sample.start
              ltac:(discriminate)) as (w' & Hrun & Htext & _).
  exists w'. split; [exact Hrun | exact Htext].
Defined.

Lemma encode_then_inspect_witness :
  exists w',
    DataManager._save_to_lean_format (P := Sample.host) Sample.dm Sample.market "BTCUSDT" Sample.start
    = Some (inr (Some (DataManager.quote_zip Sample.dm "BTCUSDT")), w')
    /\ let status := DataManager.get_symbol_status (P := Sample.host) Sample.dm (w_fs w') "BTCUSDT" in
       available status = true
       /\ candles_count status = 3%nat
       /\ start_date status = Some "2023-01-01"
       /\ end_date status = Some "2023-01-03".
Proof.
  apply (encode_then_inspect (P := Sample.host) Sample.dm Sample.market "BTCUSDT" Sample.start
           (Sample.candle 1672531200000 (Sample.price 100) (Sample.price 101)
              (Sample.price 99) 10050000000)
           (Sample.candle 1672704000000 (Sample.price 104) (Sample.price 105)
              (Sample.price 103) (Sample.price 104)));
    reflexivity.
Defined.

(** The claim C2 as the specification words it fails on the sample
    candle of 2023-01-01: the member written holds the nine-field legacy row
    with its CR LF, not the eleven-field row of the current encoding. *)
Lemma encode_current_format_counterexample :
  let data := [Sample.candle 1672531200000 (Sample.price 100) (Sample.price 101)
                 (Sample.price 99) 10050000000] in
  let written :=
    match DataManager._save_to_lean_format (P := Sample.host) Sample.dm data "BTCUSDT" Sample.start with
    | Some (_, w') =>
        entry_text (w_fs w') (DataManager.quote_zip Sample.dm "BTCUSDT") "btcusdt.csv"
    | None => None
    end in
  written
  = Some ("1672531200000,100.0,101.0,99.0,100.5,100.01,101.0101,99.0099,100.51005"
          ++ Csv.lineterminator)
  /\ Spec.current_text (P := Sample.host) data
     = "20230101 00:00,100.0,101.0,99.0,100.5,0,100.01,101.0101,99.0099,100.51005,0"
  /\ written <> Some (Spec.current_text (P := Sample.host) data).
Proof. vm_compute. repeat split. discriminate. Qed.

(** ** Date keys are not integer literals *)

Lemma decimal_not_int_space c : Py.is_decimal c = true -> Py.int_space c = false.
Proof.
  unfold Py.is_decimal, Py.int_space. generalize (Py.code c). intros n H. lia.
Qed.

Lemma rstrip_keep_cons sp c r :
  Py.rstrip_with sp r = r -> r <> "" -> Py.rstrip_with sp (String c r) = String c r.
Proof. intros E Hne. simpl. rewrite E. destruct r; [contradiction | reflexivity]. Qed.

Lemma rstrip_keep_last sp c :
  sp c = false -> Py.rstrip_with sp (String c "") = String c "".
Proof. intros H. simpl. rewrite H. reflexivity. Qed.

Lemma int_digits_decimal_none b c r :
  Py.is_decimal c = true -> Py.int_digits true r = None ->
  Py.int_digits b (String c r) = None.
Proof.
  intros Hc Hr. simpl. rewrite Hr.
  assert ((Py.code c =? 95)%nat = false) as ->
    by (revert Hc; unfold Py.is_decimal; generalize (Py.code c); intros n H; lia).
  destruct (Py.digit_of c); reflexivity.
Qed.

Lemma key_shape dt :
  exists d1 d2 d3 d4 d5 d6 d7 d8 h1 h2 m1 m2,
    Calendar.strftime_key dt
    = String d1 (String d2 (String d3 (String d4 (String d5 (String d6 (String d7
        (String d8 (String " " (String h1 (String h2 (String ":" (String m1
        (String m2 ""))))))))))))) /\
    Forall (fun c => Py.is_decimal c = true) [d1; d2; d3; d4; d5; d6; d7; d8; h1; h2; m1; m2].
Proof.
  do 12 eexists. split; [reflexivity|].
  repeat (apply Forall_cons; split; [apply digit_char_decimal|]). apply Forall_nil_2.
Qed.

Ltac key_chars H :=
  repeat match type of H with
         | Forall _ (_ :: _) =>
             let Hc := fresh "Hc" in apply Forall_cons_iff in H as [Hc H]
         end.

(** [int] rejects every date key. *)
Lemma int_date_key dt : Py.int (Calendar.strftime_key dt) = inl ValueError.
Proof.
  destruct (key_shape dt) as (d1 & d2 & d3 & d4 & d5 & d6 & d7 & d8 & h1 & h2 & m1 & m2 & -> & H).
  key_chars H.
  unfold Py.int, Py.strip_with.
  rewrite lstrip_keep by (apply decimal_not_int_space; assumption).
  assert (Py.rstrip_with Py.int_space
            (String d1 (String d2 (String d3 (String d4 (String d5 (String d6 (String d7
            (String d8 (String " " (String h1 (String h2 (String ":" (String m1
            (String m2 ""))))))))))))))
          = String d1 (String d2 (String d3 (String d4 (String d5 (String d6 (String d7
            (String d8 (String " " (String h1 (String h2 (String ":" (String m1
            (String m2 "")))))))))))))) as ->.
  { repeat (apply rstrip_keep_cons; [|discriminate]).
    apply rstrip_keep_last, decimal_not_int_space. assumption. }
  rewrite split_sign_digit by assumption.
  repeat (rewrite int_digits_decimal_none; [reflexivity | assumption |]).
  reflexivity.
Qed.

(** A date key is not all digits: it holds a blank. *)
Lemma isdigit_date_key dt : Py.isdigit (Calendar.strftime_key dt) = false.
Proof.
  destruct (key_shape dt) as (d1 & d2 & d3 & d4 & d5 & d6 & d7 & d8 & h1 & h2 & m1 & m2 & -> & _).
  cbn. rewrite !andb_false_r. reflexivity.
Qed.

Lemma date_key_chars dt :
  Py.all_chars (fun c => negb (Py.is_linebreak c) && negb (Ascii.eqb c Py.COMMA))
    (Calendar.strftime_key dt) = true.
Proof.
  assert (forall c, Py.is_decimal c = true ->
                    negb (Py.is_linebreak c) && negb (Ascii.eqb c Py.COMMA) = true) as Hd.
  { intros c. rewrite eqb_code. unfold Py.is_decimal, Py.is_linebreak.
    change (Py.code Py.COMMA) with 44%nat. generalize (Py.code c). intros n H. lia. }
  destruct (key_shape dt) as (d1 & d2 & d3 & d4 & d5 & d6 & d7 & d8 & h1 & h2 & m1 & m2 & -> & H).
  key_chars H. cbn [Py.all_chars].
  repeat match goal with
         | Hx : Py.is_decimal ?c = true |- _ => rewrite (Hd c Hx); clear Hx
         end.
  reflexivity.
Qed.

(** ** Status inspection *)

Lemma last_default {A} (l : list A) (d d' : A) :
  l <> [] -> List.last l d = List.last l d'.
Proof.
  induction l as [|x rest IH]; [contradiction|]. intros _.
  destruct rest as [|y rest']; [reflexivity|]. apply IH. discriminate.
Qed.

Lemma read_text_single name p :
  ZipFile.read_text name [(name, p)]
  = match p with
    | Text content => inr content
    | NotUtf8 => inl UnicodeDecodeError
    | Damaged => inl BadZipFile
    end.
Proof.
  unfold ZipFile.read_text. cbn [ZipFile.getinfo]. rewrite String.eqb_refl. reflexivity.
Qed.

Section Inspect.
Context {P : Platform}.

(** The [try] body of [get_symbol_status] on an archive whose first member
    can be read. *)
Lemma read_status_text zip_file symbol_ f members name content :
  ZipFile.open_read f = inr members ->
  ZipFile.first_name members = inr name ->
  ZipFile.read_text name members = inr content ->
  DataManager.read_status zip_file symbol_ f
  = let lines := Py.split Py.LF (Py.strip content) in
    (try first_ts <- Py.int (first_field (hd "" lines)) ;;
     try start_date_ <- local_date first_ts ;;
     try last_ts <- Py.int (first_field (List.last lines "")) ;;
     try end_date_ <- local_date last_ts ;;
     try last_updated_ <- local_minute (st_mtime f) ;;
     inr {| symbol := Py.upper symbol_; available := true;
            file_path := Some zip_file; file_size := st_size f;
            candles_count := List.length lines;
            start_date := Some start_date_; end_date := Some end_date_;
            last_updated := Some last_updated_ |})%py.
Proof.
  intros Ho Hn Hr. unfold DataManager.read_status. rewrite Ho. cbn [rbind].
  rewrite Hn. cbn [rbind]. rewrite Hr. cbn [rbind]. cbv zeta.
  pose proof (split_nonempty Py.LF (Py.strip content)) as Hne.
  destruct (Py.split Py.LF (Py.strip content)) as [|l0 tl] eqn:E; [contradiction|].
  cbn [hd]. rewrite (last_default (l0 :: tl) l0 "") by discriminate.
  destruct (Py.int (first_field l0)) as [e|t0]; [reflexivity|]. cbn [rbind].
  destruct (local_date t0) as [e|d0]; [reflexivity|]. cbn [rbind].
  destruct (Py.int (first_field (List.last (l0 :: tl) ""))) as [e|tN]; [reflexivity|].
  cbn [rbind].
  destruct (local_date tN) as [e|dN]; [reflexivity|]. cbn [rbind].
  destruct (local_minute (st_mtime f)) as [e|m]; reflexivity.
Qed.

(** C3, as the code has it: on an archive whose first member can be read,
    [inspect] takes the first comma-separated field of the first line and of
    the last line and parses both as integers, the epoch in milliseconds;
    there is no branch on the encoding. When both parse and the host can
    render the two instants and the file time, the status is available with
    those two dates; when either field is no integer literal, as the date
    key of a current-format row never is, the status is [available = false]. *)
Theorem inspect_parses_epoch_only (self : DataManager.t) (fs : gmap string file)
    (symbol_ : string) (f : file) (members : list (string * payload))
    (name content : string) :
  fs !! DataManager.quote_zip self symbol_ = Some f ->
  ZipFile.open_read f = inr members ->
  ZipFile.first_name members = inr name ->
  ZipFile.read_text name members = inr content ->
  let lines := Py.split Py.LF (Py.strip content) in
  let first := first_field (hd "" lines) in
  let last := first_field (List.last lines "") in
  let status := DataManager.get_symbol_status self fs symbol_ in
  (forall t0 tN d0 dN m,
      Py.int first = inr t0 -> local_date t0 = inr d0 ->
      Py.int last = inr tN -> local_date tN = inr dN ->
      local_minute (st_mtime f) = inr m ->
      status = {| symbol := Py.upper symbol_; available := true;
                  file_path := Some (DataManager.quote_zip self symbol_);
                  file_size := st_size f;
                  candles_count := List.length lines;
                  start_date := Some d0; end_date := Some dN;
                  last_updated := Some m |})
  /\ (Py.int first = inl ValueError \/ Py.int last = inl ValueError ->
      status = DataManager.not_available symbol_)
  /\ (forall dt, first = Calendar.strftime_key dt \/ last = Calendar.strftime_key dt ->
                 status = DataManager.not_available symbol_).
Proof.
  intros Hf Ho Hn Hr lines first last status.
  assert (status = match DataManager.read_status (DataManager.quote_zip self symbol_) symbol_ f with
                   | inr st => st
                   | inl _ => DataManager.not_available symbol_
                   end) as Hs.
  { subst status. unfold DataManager.get_symbol_status. rewrite Hf. reflexivity. }
  rewrite (read_status_text _ _ _ _ _ _ Ho Hn Hr) in Hs. cbv zeta in Hs.
  fold lines in Hs. fold first in Hs. fold last in Hs.
  assert (Py.int first = inl ValueError \/ Py.int last = inl ValueError ->
          status = DataManager.not_available symbol_) as Hbad.
  { intros [E|E]; rewrite Hs, E; cbn [rbind]; [reflexivity|].
    destruct (Py.int first) as [e|t0]; [reflexivity|]. cbn [rbind].
    destruct (local_date t0); reflexivity. }
  split; [|split].
  - intros t0 tN d0 dN m E0 D0 EN DN Em.
    rewrite Hs, E0. cbn [rbind]. rewrite D0. cbn [rbind]. rewrite EN. cbn [rbind].
    rewrite DN. cbn [rbind]. rewrite Em. reflexivity.
  - exact Hbad.
  - intros dt [E|E]; apply Hbad; [left|right]; rewrite E; apply int_date_key.
Qed.

(** C6: [inspect] lets an exception through in one case: when the existence
    test, which stands before the [try], raises, the call raises [OSError].
    For every symbol whose path [os.stat] accepts, the call returns a status
    and raises nothing: when no file stands at the archive's path, and when
    anything raises while the archive is opened, read, decoded or parsed or
    while the dates are derived, the status is [available = false] with
    every derived field empty. *)
Theorem inspect_raises_before_try (self : DataManager.t) (fs : gmap string file)
    (symbol_ : string) :
  let path := DataManager.quote_zip self symbol_ in
  (stat_error path = true ->
   DataManager.get_symbol_status_call self fs symbol_ = inl OSError)
  /\ (stat_error path = false ->
      DataManager.get_symbol_status_call self fs symbol_
      = inr (DataManager.get_symbol_status self fs symbol_)
      /\ (fs !! path = None
          \/ (exists f e, fs !! path = Some f
                          /\ DataManager.read_status path symbol_ f = inl e) ->
          DataManager.get_symbol_status_call self fs symbol_
          = inr {| symbol := Py.upper symbol_; available := false; file_path := None;
                   file_size := 0; candles_count := O; start_date := None;
                   end_date := None; last_updated := None |})).
Proof.
  cbv zeta. unfold DataManager.get_symbol_status_call, DataManager.path_exists.
  split; [intros ->; reflexivity|]. intros ->. unfold rbind, DataManager.get_symbol_status.
  destruct (fs !! DataManager.quote_zip self symbol_) as [f|] eqn:E.
  - split; [reflexivity|]. intros [H | (f' & e & [= <-] & ->)]; [discriminate H | reflexivity].
  - split; [reflexivity|]. intros _. reflexivity.
Qed.

(** What raises inside the [try]: a file that is no zip container, a
    container without members, a member that cannot be read or decoded, and
    a first field that is no integer literal. *)
Lemma read_status_raises zip_file symbol_ f :
  (f_body f = NotZip
   \/ f_body f = Zip []
   \/ (exists name, f_body f = Zip [(name, Damaged)])
   \/ (exists name, f_body f = Zip [(name, NotUtf8)])
   \/ (exists name content,
         f_body f = Zip [(name, Text content)]
         /\ Py.int (first_field (hd "" (Py.split Py.LF (Py.strip content))))
            = inl ValueError)) ->
  exists e, DataManager.read_status zip_file symbol_ f = inl e.
Proof.
  intros [E | [E | [[name E] | [[name E] | (name & content & E & H)]]]].
  - unfold DataManager.read_status, ZipFile.open_read. rewrite E. eexists. reflexivity.
  - unfold DataManager.read_status, ZipFile.open_read. rewrite E. eexists. reflexivity.
  - unfold DataManager.read_status, ZipFile.open_read. rewrite E.
    cbn [rbind ZipFile.first_name]. rewrite read_text_single. eexists. reflexivity.
  - unfold DataManager.read_status, ZipFile.open_read. rewrite E.
    cbn [rbind ZipFile.first_name]. rewrite read_text_single. eexists. reflexivity.
  - rewrite (read_status_text zip_file symbol_ _ [(name, Text content)] name content).
    + cbv zeta. rewrite H. eexists. reflexivity.
    + unfold ZipFile.open_read. rewrite E. reflexivity.
    + reflexivity.
    + apply read_text_single.
Qed.

End Inspect.

(** The claim C3 as the specification words it fails on a well-formed
    current-format archive: inspection reports it as not available. *)
Lemma inspect_current_format_counterexample :
  Spec.current_text (P := Sample.host) [Sample.candle 1672531200000 (Sample.price 100)
     (Sample.price 101) (Sample.price 99) 10050000000]
  = "20230101 00:00,100.0,101.0,99.0,100.5,0,100.01,101.0101,99.0099,100.51005,0"
  /\ available (DataManager.get_symbol_status (P := Sample.host) Sample.dm
                  current_archive "BTCUSDT") = false.
Proof. vm_compute. split; reflexivity. Qed.

Lemma inspect_parses_epoch_only_witness :
  DataManager.get_symbol_status (P := Sample.host) Sample.dm current_archive "BTCUSDT"
  = DataManager.not_available "BTCUSDT".
Proof.
  refine (proj2 (proj2 (inspect_parses_epoch_only (P := Sample.host) Sample.dm
            current_archive "BTCUSDT" _ _ "btcusdt.csv" _ _ _ _ _))
            (Calendar.of_ms 1672531200000) _);
    first [reflexivity | left; reflexivity].
Defined.

Lemma inspect_raises_before_try_witness :
  String.length Sample.long_symbol = 246%nat
  /\ DataManager.get_symbol_status_call (P := Sample.host) Sample.dm garbage_archive
       Sample.long_symbol = inl OSError.
Proof.
  split; [vm_compute; reflexivity|].
  apply (proj1 (inspect_raises_before_try (P := Sample.host) Sample.dm garbage_archive
                  Sample.long_symbol)).
  vm_compute. reflexivity.
Defined.

(** One letter less and the path is accepted: the call returns the
    not-available status, as it does on an archive that is no zip file. *)
Example inspect_returns_not_available :
  DataManager.get_symbol_status_call (P := Sample.host) Sample.dm garbage_archive
    (String.concat "" (repeat "A" 245))
  = inr (DataManager.not_available (String.concat "" (repeat "A" 245)))
  /\ DataManager.get_symbol_status_call (P := Sample.host) Sample.dm garbage_archive "BTCUSDT"
     = inr (DataManager.not_available "BTCUSDT").
Proof. vm_compute. split; reflexivity. Qed.

(** ** Pagination *)

Section Pagination.
Context {P : Platform}.
Variables (symbol_ interval : string) (end_ts : Z).

Lemma turn_stops current_ts n :
  stops (klines_turn symbol_ interval end_ts current_ts n) = true
  <-> end_ts <= current_ts
      \/ remote n (klines_request symbol_ interval current_ts end_ts) = Failed
      \/ remote n (klines_request symbol_ interval current_ts end_ts) = Page [].
Proof.
  unfold klines_turn. destruct (Z.ltb_spec current_ts end_ts) as [Hlt|Hge].
  - destruct (remote n _) as [|[|c rest]]; cbn;
      (split; [intros H; first [discriminate H | auto]
              | intros [H|[H|H]]; first [reflexivity | lia | discriminate H]]).
  - cbn. split; auto.
Qed.

Lemma turn_continue current_ts n data next_ts :
  klines_turn symbol_ interval end_ts current_ts n = Continue data next_ts
  <-> current_ts < end_ts
      /\ remote n (klines_request symbol_ interval current_ts end_ts) = Page data
      /\ exists c, list.last data = Some c /\ next_ts = timestamp_ms c + 1.
Proof.
  unfold klines_turn. destruct (Z.ltb_spec current_ts end_ts) as [Hlt|Hge].
  - destruct (remote n _) as [|[|c rest]].
    + split; [discriminate | intros (_ & ? & _); discriminate].
    + split; [discriminate | intros (_ & [= <-] & c & ? & _); discriminate].
    + unfold next_start. split.
      * intros [= <- <-]. repeat split; auto.
        exists (List.last rest c). split; [|reflexivity].
        rewrite (stdpp_last_last (c :: rest) c) by discriminate.
        destruct rest; reflexivity.
      * intros (_ & [= <-] & c' & Hl & ->).
        rewrite (stdpp_last_last (c :: rest) c) in Hl by discriminate.
        injection Hl as <-. destruct rest; reflexivity.
  - split; [discriminate | intros (? & _); lia].
Qed.

Lemma loop_step fuel current_ts all_data w :
  klines_loop (S fuel) symbol_ interval end_ts current_ts all_data w
  = match klines_turn symbol_ interval end_ts current_ts (w_tick w) with
    | Exit => Some (inr all_data, w)
    | BreakOnError | BreakOnEmpty => Some (inr all_data, tick w)
    | Continue data next_ts =>
        klines_loop fuel symbol_ interval end_ts next_ts (all_data ++ data)%list (tick w)
    end.
Proof. reflexivity. Qed.

Lemma loop_terminates :
  respects_start symbol_ interval end_ts ->
  forall fuel current_ts all_data w,
    (Z.to_nat (end_ts - current_ts) < fuel)%nat ->
    let pages := klines_pages fuel symbol_ interval end_ts current_ts (w_tick w) in
    exists w',
      klines_loop fuel symbol_ interval end_ts current_ts all_data w
      = Some (inr (all_data ++ concat pages)%list, w')
      /\ w_fs w' = w_fs w
      /\ Forall (Forall (fun c => current_ts <= timestamp_ms c)) pages
      /\ boundaries_ok pages.
Proof.
  intros Hr. induction fuel as [|fuel IH]; intros current_ts all_data w Hfuel; [lia|].
  cbv zeta. rewrite loop_step. cbn [klines_pages].
  destruct (klines_turn symbol_ interval end_ts current_ts (w_tick w)) as [| | |data next_ts] eqn:E.
  1-3: eexists; rewrite app_nil_r; repeat split; auto; constructor.
  apply turn_continue in E as (Hlt & Hpage & c & Hlast & ->).
  pose proof (Hr _ _ _ Hpage) as Hdata.
  assert (current_ts <= timestamp_ms c) as Hc.
  { apply last_Some in Hlast as [l' ->]. apply Forall_app in Hdata as [_ Hd].
    apply Forall_cons_iff in Hd as [Hd _]. exact Hd. }
  destruct (IH (timestamp_ms c + 1) (all_data ++ data)%list (tick w) ltac:(lia))
    as (w' & Hrun & Hfs & Hall & Hb).
  cbn [tick w_tick] in *. exists w'. rewrite Hrun. repeat split.
  - rewrite <- app_assoc. reflexivity.
  - exact Hfs.
  - constructor; [exact Hdata|].
    eapply Forall_impl; [exact Hall|]. intros page Hp.
    eapply Forall_impl; [exact Hp|]. cbn. intros; lia.
  - cbn [boundaries_ok].
    destruct (klines_pages fuel symbol_ interval end_ts (timestamp_ms c + 1) (S (w_tick w)))
      as [|q rest] eqn:Eq; [exact I|].
    split; [|exact Hb]. rewrite Hlast.
    apply Forall_cons_iff in Hall as [Hq _].
    eapply Forall_impl; [exact Hq|]. cbn. intros; lia.
Qed.

Lemma loop_fuel_mono fuel :
  forall current_ts all_data w r,
    klines_loop fuel symbol_ interval end_ts current_ts all_data w = Some r ->
    forall fuel', (fuel <= fuel')%nat ->
      klines_loop fuel' symbol_ interval end_ts current_ts all_data w = Some r
      /\ klines_pages fuel' symbol_ interval end_ts current_ts (w_tick w)
         = klines_pages fuel symbol_ interval end_ts current_ts (w_tick w).
Proof.
  induction fuel as [|fuel IH]; intros current_ts all_data w r Hrun fuel' Hle;
    [discriminate Hrun|].
  destruct fuel' as [|fuel']; [lia|].
  rewrite loop_step in *. cbn [klines_pages].
  destruct (klines_turn symbol_ interval end_ts current_ts (w_tick w)); auto.
  destruct (IH _ _ _ _ Hrun fuel' ltac:(lia)) as [H1 H2].
  cbn [tick w_tick] in H2. rewrite H1, H2. auto.
Qed.

End Pagination.

(** C7, as the code has it: a turn of the loop ends it exactly when the
    start has reached the end bound, the request raised, or the page came
    back empty; otherwise the page is kept and the next request starts one
    millisecond after the last row of the page. When the remote returns no
    row that opens before the requested start, the fetch returns (any fuel
    above the width of the range is enough), its result is the concatenation
    of the pages received, the files are untouched, and no page starts at or
    before the last row of the page before it. The data manager runs this
    loop on the symbol in upper case, the standalone downloader on the symbol
    as given. *)
Theorem pagination_terminates {P : Platform} (symbol_ interval : string) (end_ts : Z) :
  (forall current_ts n,
      stops (klines_turn symbol_ interval end_ts current_ts n) = true
      <-> end_ts <= current_ts
          \/ remote n (klines_request symbol_ interval current_ts end_ts) = Failed
          \/ remote n (klines_request symbol_ interval current_ts end_ts) = Page [])
  /\ (forall current_ts n data next_ts,
         klines_turn symbol_ interval end_ts current_ts n = Continue data next_ts ->
         remote n (klines_request symbol_ interval current_ts end_ts) = Page data
         /\ (exists c, list.last data = Some c /\ next_ts = timestamp_ms c + 1)
         /\ forall fuel all_data w,
              w_tick w = n ->
              klines_loop (S fuel) symbol_ interval end_ts current_ts all_data w
              = klines_loop fuel symbol_ interval end_ts next_ts
                  (all_data ++ data)%list (tick w))
  /\ (respects_start symbol_ interval end_ts ->
      forall start_date_ end_date_ start_ts w,
        date_to_ms start_date_ = inr start_ts ->
        date_to_ms end_date_ = inr end_ts ->
        exists pages w',
          boundaries_ok pages
          /\ w_fs w' = w_fs w
          /\ forall fuel,
               (Z.to_nat (end_ts - start_ts) < fuel)%nat ->
               fetch_klines fuel symbol_ interval start_date_ end_date_ w
               = Some (inr (concat pages), w')
               /\ klines_pages fuel symbol_ interval end_ts start_ts (w_tick w) = pages)
  /\ (forall self fuel s start_date_ end_date_,
         DataManager._download_binance_klines self fuel s interval start_date_ end_date_
         = fetch_klines fuel (Py.upper s) interval start_date_ end_date_)
  /\ (forall fuel start_date_ end_date_,
         Downloader.download_binance_klines fuel symbol_ interval start_date_ end_date_
         = fetch_klines fuel symbol_ interval start_date_ end_date_).
Proof.
  split; [|split; [|split; [|split]]].
  - apply turn_stops.
  - intros current_ts n data next_ts E.
    pose proof (proj1 (turn_continue _ _ _ _ _ _ _) E) as (_ & Hpage & Hnext).
    repeat split; [exact Hpage | exact Hnext |].
    intros fuel all_data w <-. rewrite loop_step, E. reflexivity.
  - intros Hr start_date_ end_date_ start_ts w Hs He.
    set (fuel0 := S (Z.to_nat (end_ts - start_ts))).
    destruct (loop_terminates symbol_ interval end_ts Hr fuel0 start_ts [] w
                ltac:(subst fuel0; lia)) as (w' & Hrun & Hfs & _ & Hb).
    eexists _, w'. split; [exact Hb|]. split; [exact Hfs|].
    intros fuel Hfuel.
    destruct (loop_fuel_mono symbol_ interval end_ts fuel0 _ _ _ _ Hrun fuel
                ltac:(subst fuel0; lia)) as [H1 H2].
    unfold fetch_klines, bind, lift. rewrite Hs, He. auto.
  - reflexivity.
  - reflexivity.
Qed.

Lemma Forall_filter_bool {A} (f : A -> bool) (Q : A -> Prop) (l : list A) :
  (forall x, f x = true -> Q x) -> Forall Q (List.filter f l).
Proof.
  intros H. induction l as [|x rest IH]; [constructor|].
  cbn [List.filter]. destruct (f x) eqn:E; [constructor; auto | exact IH].
Qed.

Lemma sample_respects_start end_ts :
  respects_start (P := Sample.host) "BTCUSDT" "1d" end_ts.
Proof.
  intros n current_ts data.
  set (served := firstn 2 (List.filter
                    (fun c => (current_ts <=? timestamp_ms c) && (timestamp_ms c <=? end_ts))
                    Sample.market)).
  assert (remote (Platform := Sample.host) n (klines_request "BTCUSDT" "1d" current_ts end_ts)
          = Page served) as ->.
  { cbn [remote Sample.host]. unfold Sample.serve.
    cbn [q_symbol q_startTime q_endTime klines_request]. rewrite !int_str. reflexivity. }
  assert (Forall (fun c : Candle Z => current_ts <= timestamp_ms c) served) as Hs.
  { subst served. apply Forall_take, Forall_filter_bool. intros c Hc. lia. }
  clearbody served. intros [= <-]. exact Hs.
Qed.

Lemma pagination_terminates_witness :
  exists pages w',
    boundaries_ok pages
    /\ w_fs w' = w_fs Sample.start
    /\ forall fuel,
         (Z.to_nat (1672790400000 - 1672531200000) < fuel)%nat ->
         fetch_klines (P := Sample.host) fuel "BTCUSDT" "1d" "2023-01-01" "2023-01-04"
           Sample.start
         = Some (inr (concat pages), w')
         /\ klines_pages (P := Sample.host) fuel "BTCUSDT" "1d" 1672790400000
              1672531200000 (w_tick Sample.start) = pages.
Proof.
  apply (proj1 (proj2 (proj2 (pagination_terminates (P := Sample.host)
           "BTCUSDT" "1d" 1672790400000))) (sample_respects_start _)
           "2023-01-01" "2023-01-04" 1672531200000 Sample.start);
    vm_compute; reflexivity.
Defined.

(** On the sample remote the three candles arrive in two pages. *)
Example sample_fetch :
  option_map fst
    (fetch_klines (P := Sample.host) 10 "BTCUSDT" "1d" "2023-01-01" "2023-01-04" Sample.start)
  = Some (inr Sample.market)
  /\ klines_pages (P := Sample.host) 10 "BTCUSDT" "1d" 1672790400000 1672531200000 0
     = [firstn 2 Sample.market; skipn 2 Sample.market].
Proof. vm_compute. split; reflexivity. Qed.

(** The claim C7 as the specification words it fails where a request
    raises: the loop stops although the start is below the bound and no page
    came back empty (the sample remote refuses a symbol it does not know). *)
Lemma pagination_stops_counterexample :
  stops (klines_turn (P := Sample.host) "DOGEUSDT" "1d" 1672790400000 1672531200000 0) = true
  /\ ~ (1672790400000 <= 1672531200000
        \/ remote (Platform := Sample.host) 0
             (klines_request "DOGEUSDT" "1d" 1672531200000 1672790400000) = Page []).
Proof.
  split; [reflexivity|]. intros [H|H]; [lia | discriminate H].
Qed.


(** ** Downloading and updating one symbol *)

Section Sync.
Context {P : Platform}.

Lemma loop_keeps_files symbol_ interval end_ts fuel :
  forall current_ts all_data w r w',
    klines_loop fuel symbol_ interval end_ts current_ts all_data w = Some (r, w') ->
    w_fs w' = w_fs w.
Proof.
  induction fuel as [|fuel IH]; intros current_ts all_data w r w' H; [discriminate H|].
  rewrite loop_step in H.
  destruct (klines_turn symbol_ interval end_ts current_ts (w_tick w)).
  1-3: injection H as _ <-; reflexivity.
  apply IH in H. exact H.
Qed.

Lemma fetch_keeps_files fuel symbol_ interval start_date_ end_date_ w r w' :
  fetch_klines fuel symbol_ interval start_date_ end_date_ w = Some (r, w') ->
  w_fs w' = w_fs w.
Proof.
  unfold fetch_klines, bind, lift.
  destruct (date_to_ms start_date_); [intros [= _ <-]; reflexivity|].
  destruct (date_to_ms end_date_); [intros [= _ <-]; reflexivity|].
  apply loop_keeps_files.
Qed.

Lemma download_fetch_keeps_files self fuel symbol_ sd ed w r w' :
  DataManager.download_fetch self fuel symbol_ sd ed w = Some (r, w') ->
  w_fs w' = w_fs w.
Proof.
  unfold DataManager.download_fetch, DataManager._download_binance_klines, bind.
  destruct ed as [d|]; cbn [ret now_date]; intros H; apply fetch_keeps_files in H; exact H.
Qed.

(** [download_symbol] is its fetch, the write when rows came, and the
    inspection. *)
Lemma download_symbol_run self fuel symbol_ sd ed w :
  DataManager.download_symbol self fuel symbol_ sd ed w
  = match DataManager.download_fetch self fuel symbol_ sd ed w with
    | None => None
    | Some (inl e, w1) => Some (inl e, w1)
    | Some (inr data, w1) =>
        match DataManager._save_to_lean_format self data symbol_ w1 with
        | Some (_, w2) =>
            Some (inr (DataManager.get_symbol_status self
                         (w_fs (match data with [] => w1 | _ => w2 end)) symbol_),
                  match data with [] => w1 | _ => w2 end)
        | None => None
        end
    end.
Proof.
  unfold DataManager.download_symbol, DataManager.download_fetch, bind.
  destruct (match ed with Some d => ret d | None => now_date end w) as [[[e|d] w0]|];
    [reflexivity | | reflexivity].
  destruct (DataManager._download_binance_klines self fuel symbol_ "1d"
              (default DataManager.DEFAULT_START_DATE sd) d w0) as [[[e|data] w1]|];
    [reflexivity | | reflexivity].
  destruct data; reflexivity.
Qed.

(** C8: when the fetch of [download_one] returns zero candles no archive is
    written: the files are exactly those from before the call, and the
    status returned is the one inspection gives on them. *)
Theorem download_zero_candles (self : DataManager.t) (fuel : nat) (symbol_ : string)
    (sd ed : option string) (w w1 : world) :
  DataManager.download_fetch self fuel symbol_ sd ed w = Some (inr [], w1) ->
  DataManager.download_symbol self fuel symbol_ sd ed w
  = Some (inr (DataManager.get_symbol_status self (w_fs w) symbol_), w1)
  /\ w_fs w1 = w_fs w.
Proof.
  intros H. pose proof (download_fetch_keeps_files _ _ _ _ _ _ _ _ H) as Hfs.
  rewrite download_symbol_run, H. cbn. rewrite Hfs. auto.
Qed.

End Sync.

Lemma download_zero_candles_witness :
  DataManager.download_symbol (P := Sample.host) Sample.dm 10 "btcusdt"
    (Some "2023-01-04") (Some "2023-01-04") cached
  = Some (inr (DataManager.get_symbol_status (P := Sample.host) Sample.dm (w_fs cached) "btcusdt"),
          cached)
  /\ w_fs cached = w_fs cached.
Proof.
  apply (download_zero_candles (P := Sample.host)). vm_compute. reflexivity.
Defined.

(** ** Updating *)

Section Update.
Context {P : Platform} {L : PlatformLaws P}.

(** The end date of an available status was rendered by the host. *)
Lemma available_end_date self fs symbol_ e :
  available (DataManager.get_symbol_status self fs symbol_) = true ->
  end_date (DataManager.get_symbol_status self fs symbol_) = Some e ->
  exists ts, local_date ts = inr e.
Proof.
  unfold DataManager.get_symbol_status.
  destruct (fs !! DataManager.quote_zip self symbol_) as [f|]; [|discriminate].
  destruct (DataManager.read_status _ _ f) as [ex|st] eqn:E; [discriminate|].
  intros _. revert E. unfold DataManager.read_status, rbind.
  destruct (ZipFile.open_read f) as [?|members]; [discriminate|].
  destruct (ZipFile.first_name members) as [?|name]; [discriminate|].
  destruct (ZipFile.read_text name members) as [?|content]; [discriminate|].
  pose proof (split_nonempty Py.LF (Py.strip content)) as Hne.
  destruct (Py.split Py.LF (Py.strip content)) as [|l0 tl]; [contradiction|].
  destruct (Py.int (first_field l0)) as [?|t0]; [discriminate|].
  destruct (local_date t0) as [?|d0]; [discriminate|].
  destruct (Py.int (first_field (List.last (l0 :: tl) l0))) as [?|tN]; [discriminate|].
  destruct (local_date tN) as [?|dN] eqn:EN; [discriminate|].
  destruct (local_minute (st_mtime f)); [discriminate|].
  intros [= <-]. cbn. intros [= <-]. eauto.
Qed.

Lemma resume_date_known self fs symbol_ e :
  available (DataManager.get_symbol_status self fs symbol_) = true ->
  end_date (DataManager.get_symbol_status self fs symbol_) = Some e ->
  DataManager.resume_date (DataManager.get_symbol_status self fs symbol_) = Some e.
Proof.
  intros Ha He. destruct (available_end_date _ _ _ _ Ha He) as [ts Hts].
  unfold DataManager.resume_date. rewrite Ha, He.
  destruct (String.eqb_spec e "") as [->|_]; [|reflexivity].
  exfalso. exact (local_date_nonempty _ _ Hts eq_refl).
Qed.

Lemma resume_date_unknown (status : SymbolStatus) :
  available status = false \/ end_date status = None ->
  DataManager.resume_date status = None.
Proof.
  unfold DataManager.resume_date. intros [-> | ->]; [reflexivity|].
  destruct (available status); reflexivity.
Qed.

Lemma download_fetch_unfold self fuel symbol_ d w :
  DataManager.download_fetch self fuel symbol_ (Some d) None w
  = DataManager._download_binance_klines self fuel symbol_ "1d" d
      (today (w_tick w)) (tick w).
Proof. reflexivity. Qed.

(** C1: when the current status of the symbol is available with an end
    date, [update_one] is the download that starts from that very date and
    ends today; when rows come back the archive is replaced by exactly those
    rows, whatever it held before, and the status returned is the one
    inspection gives on the new archive. When the status is not available,
    or has no end date, [update_one] is the download from 2023-01-01. *)
Theorem update_resumes_from_end_date (self : DataManager.t) (fuel : nat)
    (symbol_ : string) (w : world) :
  let status := DataManager.get_symbol_status self (w_fs w) symbol_ in
  (forall e,
      available status = true -> end_date status = Some e ->
      DataManager.update_symbol self fuel symbol_ w
      = DataManager.download_symbol self fuel symbol_ (Some e) None w
      /\ DataManager.download_fetch self fuel symbol_ (Some e) None w
         = DataManager._download_binance_klines self fuel symbol_ "1d" e
             (today (w_tick w)) (tick w)
      /\ forall data w1,
           data <> [] ->
           DataManager._download_binance_klines self fuel symbol_ "1d" e
             (today (w_tick w)) (tick w) = Some (inr data, w1) ->
           exists w2,
             DataManager.update_symbol self fuel symbol_ w
             = Some (inr (DataManager.get_symbol_status self (w_fs w2) symbol_), w2)
             /\ entry_text (w_fs w2) (DataManager.quote_zip self symbol_)
                  (Py.lower symbol_ ++ ".csv")
                = Some (DataManager.csv_text data)
             /\ Py.split Py.LF (Py.strip (DataManager.csv_text data))
                = cr_lines (map DataManager.quote_line data)
             /\ forall path, path <> DataManager.quote_zip self symbol_ ->
                             w_fs w2 !! path = w_fs w !! path)
  /\ (available status = false \/ end_date status = None ->
      DataManager.update_symbol self fuel symbol_ w
      = DataManager.download_symbol self fuel symbol_ (Some "2023-01-01") None w
      /\ DataManager.download_fetch self fuel symbol_ (Some "2023-01-01") None w
         = DataManager._download_binance_klines self fuel symbol_ "1d" "2023-01-01"
             (today (w_tick w)) (tick w)).
Proof.
  intros status. subst status. split.
  - intros e Ha He.
    assert (DataManager.update_symbol self fuel symbol_ w
            = DataManager.download_symbol self fuel symbol_ (Some e) None w) as Hup.
    { unfold DataManager.update_symbol, bind, get_fs.
      rewrite (resume_date_known _ _ _ _ Ha He). reflexivity. }
    split; [exact Hup|]. split; [reflexivity|].
    intros data w1 Hne Hfetch.
    pose proof (fetch_keeps_files _ _ _ _ _ _ _ _ Hfetch) as Hfs. cbn [tick w_fs] in Hfs.
    rewrite Hup, download_symbol_run, download_fetch_unfold, Hfetch.
    rewrite (save_nonempty _ _ _ _ Hne).
    destruct data as [|c rest]; [contradiction|].
    eexists. split; [reflexivity|]. cbn [w_fs]. repeat split.
    + unfold entry_text. rewrite lookup_insert_eq. cbn [f_body].
      rewrite String.eqb_refl. reflexivity.
    + apply lines_of_csv_text. discriminate.
    + intros path Hp. rewrite lookup_insert_ne, Hfs by congruence. reflexivity.
  - intros Hno. split; [|reflexivity].
    unfold DataManager.update_symbol, bind, get_fs.
    rewrite (resume_date_unknown _ Hno). reflexivity.
Qed.

End Update.

Lemma update_resumes_from_end_date_witness :
  exists w2,
    DataManager.update_symbol (P := Sample.host) Sample.dm 10 "BTCUSDT" cached
    = Some (inr (DataManager.get_symbol_status (P := Sample.host) Sample.dm (w_fs w2) "BTCUSDT"),
            w2)
    /\ entry_text (w_fs w2) (DataManager.quote_zip Sample.dm "BTCUSDT") "btcusdt.csv"
       = Some (DataManager.csv_text (P := Sample.host) (skipn 2 Sample.market)).
Proof.
  pose proof (proj1 (update_resumes_from_end_date (P := Sample.host)
                      Sample.dm 10 "BTCUSDT" cached)) as HA.
  destruct (HA "2023-01-03" ltac:(vm_compute; reflexivity) ltac:(vm_compute; reflexivity))
    as (_ & _ & Hrows).
  edestruct (Hrows (skipn 2 Sample.market)) as (w2 & Hrun & Htext & _).
  - discriminate.
  - vm_compute. reflexivity.
  - exists w2. split; [exact Hrun | exact Htext].
Defined.

(** The update of the sample cache: three rows before, one after. *)
Example sample_update_drops_history :
  candles_count (DataManager.get_symbol_status (P := Sample.host) Sample.dm (w_fs cached) "BTCUSDT")
  = 3%nat
  /\ option_map (fun r => match fst r with inr st => candles_count st | inl _ => O end)
       (DataManager.update_symbol (P := Sample.host) Sample.dm 10 "BTCUSDT" cached)
     = Some 1%nat.
Proof. vm_compute. split; reflexivity. Qed.

(** ** The symbol of a status *)

Lemma upper_app a b : Py.upper (a ++ b) = Py.upper a ++ Py.upper b.
Proof.
  induction a as [|c a IH]; [reflexivity|].
  rewrite append_cons. cbn [Py.upper]. rewrite IH, app_assoc_s. reflexivity.
Qed.

Lemma upper_char_idem c : Py.upper (Py.upper_char c) = Py.upper_char c.
Proof.
  unfold Py.upper_char. cbv zeta.
  destruct (Py.code c =? 223)%nat eqn:E0; [reflexivity|].
  destruct ((((97 <=? Py.code c) && (Py.code c <=? 122))
             || ((224 <=? Py.code c) && (Py.code c <=? 254) && negb (Py.code c =? 247)))%nat)
    eqn:E; cbn [Py.upper]; unfold Py.upper_char; cbv zeta.
  - rewrite code_of_nat by lia.
    assert ((Py.code c - 32 =? 223)%nat = false) as -> by lia.
    assert ((((97 <=? Py.code c - 32) && (Py.code c - 32 <=? 122))
             || ((224 <=? Py.code c - 32) && (Py.code c - 32 <=? 254)
                 && negb (Py.code c - 32 =? 247)))%nat = false) as -> by lia.
    reflexivity.
  - rewrite E0, E. reflexivity.
Qed.

Lemma upper_idem s : Py.upper (Py.upper s) = Py.upper s.
Proof.
  induction s as [|c s IH]; [reflexivity|].
  cbn [Py.upper]. rewrite upper_app, upper_char_idem, IH. reflexivity.
Qed.

Lemma Forall_insert_sorted (Q : string -> Prop) x l :
  Q x -> Forall Q l -> Forall Q (Py.insert_sorted x l).
Proof.
  intros Hx. induction l as [|y rest IH]; intros Hl; cbn [Py.insert_sorted].
  - constructor; [exact Hx | constructor].
  - apply Forall_cons_iff in Hl as [Hy Hrest].
    destruct (String.leb x y); repeat constructor; auto.
Qed.

Lemma Forall_sorted (Q : string -> Prop) l : Forall Q l -> Forall Q (Py.sorted l).
Proof.
  unfold Py.sorted. induction l as [|x rest IH]; intros Hl; [constructor|].
  apply Forall_cons_iff in Hl as [Hx Hrest]. cbn [fold_right].
  apply Forall_insert_sorted; auto.
Qed.

Lemma map_upper_fixed l : Forall (fun s => Py.upper s = s) l -> map Py.upper l = l.
Proof.
  induction 1 as [|s rest Hs _ IH]; [reflexivity|]. cbn [map]. rewrite Hs, IH. reflexivity.
Qed.

Lemma lower_app a b : Py.lower (a ++ b) = Py.lower a ++ Py.lower b.
Proof.
  unfold Py.lower. induction a as [|c a IH]; [reflexivity|].
  rewrite append_cons. cbn [Py.map_chars]. rewrite IH. reflexivity.
Qed.

(** On the ASCII letters lower-casing undoes upper-casing. It does not at ß,
    whose upper-case form SS lower-cases to ss. *)
Lemma lower_upper_char c :
  (Py.code c <? 128)%nat = true ->
  Py.lower (Py.upper_char c) = String (Py.lower_char c) "".
Proof.
  intros Hc. unfold Py.upper_char. cbv zeta.
  assert ((Py.code c =? 223)%nat = false) as -> by lia.
  destruct ((((97 <=? Py.code c) && (Py.code c <=? 122))
             || ((224 <=? Py.code c) && (Py.code c <=? 254) && negb (Py.code c =? 247)))%nat)
    eqn:E; [|reflexivity].
  unfold Py.lower. cbn [Py.map_chars]. unfold Py.lower_char. cbv zeta.
  rewrite code_of_nat by lia.
  assert ((((65 <=? Py.code c - 32) && (Py.code c - 32 <=? 90))
           || ((192 <=? Py.code c - 32) && (Py.code c - 32 <=? 222)
               && negb (Py.code c - 32 =? 215)))%nat = true) as -> by lia.
  assert ((((65 <=? Py.code c) && (Py.code c <=? 90))
           || ((192 <=? Py.code c) && (Py.code c <=? 222)
               && negb (Py.code c =? 215)))%nat = false) as -> by lia.
  replace (Py.code c - 32 + 32)%nat with (Py.code c) by lia.
  unfold Py.code. rewrite ascii_nat_embedding. reflexivity.
Qed.

Lemma lower_upper s : Py.isascii s = true -> Py.lower (Py.upper s) = Py.lower s.
Proof.
  unfold Py.isascii. induction s as [|c s IH]; [reflexivity|].
  cbn [Py.all_chars]. intros [Hc Hs]%andb_true_iff.
  cbn [Py.upper]. rewrite lower_app, (lower_upper_char c Hc), (IH Hs). reflexivity.
Qed.

Lemma upper_char_ascii c :
  (Py.code c <? 128)%nat = true ->
  exists d, Py.upper_char c = String d ""
            /\ ((97 <=? Py.code d) && (Py.code d <=? 122))%nat = false.
Proof.
  intros Hc. unfold Py.upper_char. cbv zeta.
  assert ((Py.code c =? 223)%nat = false) as -> by lia.
  destruct ((((97 <=? Py.code c) && (Py.code c <=? 122))
             || ((224 <=? Py.code c) && (Py.code c <=? 254) && negb (Py.code c =? 247)))%nat)
    eqn:E; eexists; (split; [reflexivity|]); [rewrite code_of_nat by lia|]; lia.
Qed.

(** The upper-case form of an ASCII string: as long as the string, and
    without any of the letters a-z. *)
Lemma upper_ascii_shape s :
  Py.isascii s = true ->
  String.length (Py.upper s) = String.length s
  /\ Py.all_chars (fun c => negb ((97 <=? Py.code c) && (Py.code c <=? 122))%nat)
       (Py.upper s) = true.
Proof.
  unfold Py.isascii. induction s as [|c s IH]; [split; reflexivity|].
  cbn [Py.all_chars]. intros [Hc Hs]%andb_true_iff.
  destruct (upper_char_ascii c Hc) as (d & Ed & Hd). destruct (IH Hs) as [Hl Ha].
  cbn [Py.upper]. rewrite Ed, append_cons, append_nil. cbn [String.length Py.all_chars].
  rewrite Hl, Ha, Hd. split; reflexivity.
Qed.

Section Symbols.
Context {P : Platform}.

Lemma status_symbol self fs s :
  symbol (DataManager.get_symbol_status self fs s) = Py.upper s.
Proof.
  unfold DataManager.get_symbol_status.
  destruct (fs !! DataManager.quote_zip self s) as [f|]; [|reflexivity].
  destruct (DataManager.read_status _ s f) as [e|st] eqn:E; [reflexivity|].
  revert E. unfold DataManager.read_status, rbind.
  repeat match goal with
         | |- context [match ?x with inl _ => _ | inr _ => _ end] =>
             destruct x; [discriminate|]
         | |- context [match ?x with [] => _ | _ :: _ => _ end] => destruct x
         end; intros [= <-]; reflexivity.
Qed.

Lemma download_symbol_status self fuel s sd ed w st w' :
  DataManager.download_symbol self fuel s sd ed w = Some (inr st, w') ->
  symbol st = Py.upper s.
Proof.
  rewrite download_symbol_run.
  destruct (DataManager.download_fetch self fuel s sd ed w) as [[[e|data] w1]|];
    [discriminate | | discriminate].
  destruct (DataManager._save_to_lean_format self data s w1) as [[r w2]|]; [|discriminate].
  intros [= <- _]. apply status_symbol.
Qed.

Lemma update_symbol_status self fuel s w st w' :
  DataManager.update_symbol self fuel s w = Some (inr st, w') ->
  symbol st = Py.upper s.
Proof. unfold DataManager.update_symbol, bind, get_fs. apply download_symbol_status. Qed.

Lemma for_each_symbols (f : string -> M SymbolStatus) :
  (forall s w st w', f s w = Some (inr st, w') -> symbol st = Py.upper s) ->
  forall l w sts w',
    for_each f l w = Some (inr sts, w') -> map symbol sts = map Py.upper l.
Proof.
  intros Hf. induction l as [|s rest IH]; intros w sts w'; cbn [for_each].
  - intros [= <- _]. reflexivity.
  - unfold bind at 1. destruct (f s w) as [[[e|st] w1]|] eqn:E; [discriminate | | discriminate].
    unfold bind at 1.
    destruct (for_each f rest w1) as [[[e|sts'] w2]|] eqn:E'; [discriminate | | discriminate].
    intros [= <- _]. cbn [map]. rewrite (Hf _ _ _ _ E), (IH _ _ _ E'). reflexivity.
Qed.

Lemma check_symbols_missing self fs symbols :
  snd (DataManager.check_symbols self fs symbols)
  = map Py.upper (List.filter (fun s => negb (DataManager.is_symbol_available self fs s)) symbols).
Proof.
  induction symbols as [|s rest IH]; [reflexivity|].
  cbn [DataManager.check_symbols List.filter].
  destruct (DataManager.check_symbols self fs rest) as [av mi]. cbn [snd] in IH.
  destruct (DataManager.is_symbol_available self fs s); cbn [negb snd map]; rewrite IH;
    reflexivity.
Qed.

Lemma available_symbols_upper self fs :
  Forall (fun s => Py.upper s = s) (DataManager.get_available_symbols self fs).
Proof.
  unfold DataManager.get_available_symbols. apply Forall_sorted, Forall_map, Forall_forall.
  intros name _. apply upper_idem.
Qed.

(** C10: every status an operation returns carries the upper-case form of
    the symbol it was asked about: [inspect] in each of its branches (no
    file, a readable archive, anything raised), [download_one] and
    [update_one] whenever they return, [download_missing] for each of the
    missing symbols in order, [update_all] for each cached symbol in order.
    The upper-case form is Python's: for btcUsdt it is BTCUSDT, for ß it is
    SS, and for an ASCII symbol it is as long as the symbol, holds none of
    the letters a-z and differs from the symbol in letter case only. So the
    status of btcusdt carries BTCUSDT. *)
Theorem status_symbol_is_uppercase (self : DataManager.t) :
  Py.upper "btcUsdt" = "BTCUSDT"
  /\ Py.upper (String (ascii_of_nat 223) "") = "SS"
  /\ (forall s, Py.isascii s = true ->
                String.length (Py.upper s) = String.length s
                /\ Py.all_chars
                     (fun c => negb ((97 <=? Py.code c) && (Py.code c <=? 122))%nat)
                     (Py.upper s) = true
                /\ Py.lower (Py.upper s) = Py.lower s)
  /\ (forall fs, symbol (DataManager.get_symbol_status self fs "btcusdt") = "BTCUSDT")
  /\ (forall fs s, symbol (DataManager.get_symbol_status self fs s) = Py.upper s)
  /\ (forall s, symbol (DataManager.not_available s) = Py.upper s)
  /\ (forall fuel s sd ed w st w',
         DataManager.download_symbol self fuel s sd ed w = Some (inr st, w') ->
         symbol st = Py.upper s)
  /\ (forall fuel s w st w',
         DataManager.update_symbol self fuel s w = Some (inr st, w') ->
         symbol st = Py.upper s)
  /\ (forall fuel symbols w sts w',
         DataManager.download_missing self fuel symbols w = Some (inr sts, w') ->
         map symbol sts
         = map Py.upper
             (List.filter (fun s => negb (DataManager.is_symbol_available self (w_fs w) s))
                symbols))
  /\ (forall fuel w sts w',
         DataManager.update_all self fuel w = Some (inr sts, w') ->
         map symbol sts = DataManager.get_available_symbols self (w_fs w)
         /\ map symbol sts = map Py.upper (DataManager.get_available_symbols self (w_fs w))).
Proof.
  split; [reflexivity|]. split; [reflexivity|].
  split; [intros s Hs; destruct (upper_ascii_shape s Hs); auto using lower_upper|].
  split; [intros fs; apply (status_symbol self fs "btcusdt")|].
  split; [apply status_symbol|]. split; [reflexivity|].
  split; [apply download_symbol_status|]. split; [apply update_symbol_status|]. split.
  - intros fuel symbols w sts w'. unfold DataManager.download_missing, bind, get_fs.
    intros H. apply for_each_symbols in H.
    + rewrite H, check_symbols_missing, map_map.
      apply map_ext. intros s. apply upper_idem.
    + intros s w0 st w0' Hd. exact (download_symbol_status _ _ _ _ _ _ _ _ Hd).
  - intros fuel w sts w'. unfold DataManager.update_all, bind, get_fs.
    intros H. apply for_each_symbols in H;
      [|intros s w0 st w0' Hd; exact (update_symbol_status _ _ _ _ _ _ Hd)].
    split; [|exact H]. rewrite H.
    apply map_upper_fixed, available_symbols_upper.
Qed.

End Symbols.

Lemma status_symbol_is_uppercase_witness :
  exists st w',
    DataManager.download_symbol (P := Sample.host) Sample.dm 10 "btcusdt" None None
      Sample.start = Some (inr st, w')
    /\ symbol st = "BTCUSDT" /\ available st = true.
Proof.
  destruct (DataManager.download_symbol (P := Sample.host) Sample.dm 10 "btcusdt" None None
              Sample.start) as [[[e|st] w']|] eqn:E;
    [vm_compute in E; discriminate E | | vm_compute in E; discriminate E].
  exists st, w'. split; [reflexivity|]. split.
  - exact (proj1 (proj2 (proj2 (proj2 (proj2 (proj2 (proj2
             (status_symbol_is_uppercase (P := Sample.host) Sample.dm)))))))
             10%nat "btcusdt" None None Sample.start st w' E).
  - vm_compute in E. injection E as <- _. reflexivity.
Defined.

(** The sample cache asked about a cached and an unknown symbol. *)
Example sample_download_missing :
  option_map (fun r => match fst r with inr sts => map symbol sts | inl _ => [] end)
    (DataManager.download_missing (P := Sample.host) Sample.dm 10
       ["btcusdt"; "dogeusdt"] cached)
  = Some ["DOGEUSDT"].
Proof. vm_compute. reflexivity. Qed.

(** ** The converter, row by row *)

Lemma split_fields_no_comma s :
  Forall (fun f => Py.has_char Py.COMMA f = false) (Py.split Py.COMMA s).
Proof.
  induction s as [|c s IH]; cbn [Py.split]; [repeat constructor|].
  destruct (Ascii.eqb_spec c Py.COMMA) as [->|Hne].
  - constructor; [reflexivity | exact IH].
  - destruct (Py.split Py.COMMA s) as [|h t]; [repeat constructor|].
    + cbn. rewrite orb_false_r. apply Ascii.eqb_neq. congruence.
    + apply Forall_cons_iff in IH as [Hh Ht]. constructor; [|exact Ht].
      cbn. rewrite Hh, orb_false_r. apply Ascii.eqb_neq. congruence.
Qed.

Lemma date_key_no_comma dt : Py.has_char Py.COMMA (Calendar.strftime_key dt) = false.
Proof.
  apply (all_chars_absent _ _ _ (date_key_chars dt)).
  rewrite Ascii.eqb_refl. apply andb_false_r.
Qed.

Section Rows.
Context {P : Platform}.

Lemma convert_timestamp_in_range ts_ms :
  Calendar.in_range (Calendar.of_ms ts_ms) = true ->
  Converter.convert_timestamp ts_ms = inr (Spec.date_key ts_ms).
Proof. unfold Converter.convert_timestamp. intros ->. reflexivity. Qed.

Lemma convert_timestamp_key ts_ms key :
  Converter.convert_timestamp ts_ms = inr key -> key = Spec.date_key ts_ms.
Proof.
  unfold Converter.convert_timestamp.
  destruct (Calendar.in_range _); [intros [= <-]; reflexivity | discriminate].
Qed.

(** The row [convert_line] emits, as the list of its eleven fields. *)
Lemma convert_line_row line ts b1 b2 b3 b4 a1 a2 a3 a4 rest n :
  Py.split Py.COMMA (Py.strip line) = ts :: b1 :: b2 :: b3 :: b4 :: a1 :: a2 :: a3 :: a4 :: rest ->
  Py.int ts = inr n ->
  Calendar.in_range (Calendar.of_ms n) = true ->
  Converter.convert_line line
  = inr (Some (Py.join "," [Spec.date_key n; b1; b2; b3; b4; "0"; a1; a2; a3; a4; "0"])).
Proof.
  intros Hp Hn Hr. unfold Converter.convert_line. rewrite Hp.
  cbn [List.length Nat.ltb Nat.leb hd rbind]. rewrite Hn. cbn [rbind].
  rewrite (convert_timestamp_in_range _ Hr). cbn [rbind].
  unfold slice. cbn [skipn firstn Nat.sub].
  rewrite !join_cons. cbn [Py.join].
  rewrite !app_assoc_s. reflexivity.
Qed.

Lemma convert_line_short line :
  (List.length (Py.split Py.COMMA (Py.strip line)) < 9)%nat ->
  Converter.convert_line line = inr None.
Proof.
  intros H. unfold Converter.convert_line.
  apply Nat.ltb_lt in H. rewrite H. reflexivity.
Qed.

Lemma convert_line_bad_timestamp line ts rest :
  Py.split Py.COMMA (Py.strip line) = ts :: rest ->
  Py.int ts = inl ValueError ->
  Converter.convert_line line = inr None.
Proof.
  intros Hp Hn. unfold Converter.convert_line. rewrite Hp.
  destruct (List.length (ts :: rest) <? 9)%nat; [reflexivity|].
  cbn [hd rbind]. rewrite Hn. reflexivity.
Qed.

Lemma convert_lines_drop line rest :
  Converter.convert_line line = inr None ->
  Converter.convert_lines (line :: rest) = Converter.convert_lines rest.
Proof.
  intros H. cbn [Converter.convert_lines]. rewrite H. cbn [rbind].
  destruct (Py.strip line); [reflexivity|].
  destruct (Converter.convert_lines rest); reflexivity.
Qed.

Lemma convert_line_some_nonblank line row :
  Converter.convert_line line = inr (Some row) -> Py.strip line <> "".
Proof.
  unfold Converter.convert_line. intros H E. rewrite E in H. discriminate H.
Qed.

Lemma convert_lines_keep line rest c r :
  Converter.convert_line line = inr (Some (String c r)) ->
  Converter.convert_lines (line :: rest)
  = match Converter.convert_lines rest with
    | inr rows => inr (String c r :: rows)
    | inl e => inl e
    end.
Proof.
  intros H. pose proof (convert_line_some_nonblank _ _ H) as Hne.
  cbn [Converter.convert_lines]. rewrite H. cbn [rbind].
  destruct (Py.strip line); [contradiction | reflexivity].
Qed.

End Rows.

(** C9: a legacy row, a timestamp that [int] accepts followed by four bid and
    four ask fields, whose instant lies in the years [datetime] knows,
    converts to the row of eleven fields: the date key of that instant read
    in UTC, the four bid fields as they were, [0], the four ask fields as
    they were, [0]; split at its commas the new row gives back these eleven
    fields. A row with fewer than nine fields, and a row whose first field is
    no integer literal, gives [None]; the loop over the lines drops such a
    row and goes on with the lines that follow, and keeps a converted row in
    front of what the following lines give. *)
Theorem convert_line_legacy_row {P : Platform} (line : string) :
  (forall ts b1 b2 b3 b4 a1 a2 a3 a4 rest n,
      Py.split Py.COMMA (Py.strip line)
      = ts :: b1 :: b2 :: b3 :: b4 :: a1 :: a2 :: a3 :: a4 :: rest ->
      Py.int ts = inr n ->
      Calendar.in_range (Calendar.of_ms n) = true ->
      let fields := [Calendar.strftime_key (Calendar.of_ms n);
                     b1; b2; b3; b4; "0"; a1; a2; a3; a4; "0"] in
      Converter.convert_line line = inr (Some (Py.join "," fields))
      /\ Py.split Py.COMMA (Py.join "," fields) = fields
      /\ forall following,
           Converter.convert_lines (line :: following)
           = match Converter.convert_lines following with
             | inr rows => inr (Py.join "," fields :: rows)
             | inl e => inl e
             end)
  /\ ((List.length (Py.split Py.COMMA (Py.strip line)) < 9)%nat
      \/ Py.int (hd "" (Py.split Py.COMMA (Py.strip line))) = inl ValueError ->
      Converter.convert_line line = inr None
      /\ forall following,
           Converter.convert_lines (line :: following) = Converter.convert_lines following).
Proof.
  split.
  - intros ts b1 b2 b3 b4 a1 a2 a3 a4 rest n Hp Hn Hr fields.
    pose proof (convert_line_row _ _ _ _ _ _ _ _ _ _ _ _ Hp Hn Hr) as Hrow.
    fold (Spec.date_key n) in fields. split; [exact Hrow|]. split.
    + apply split_join; [discriminate|].
      pose proof (split_fields_no_comma (Py.strip line)) as Hf. rewrite Hp in Hf.
      repeat match type of Hf with
             | Forall _ (_ :: _) =>
                 let H := fresh "Hf" in apply Forall_cons_iff in Hf as [H Hf]
             end.
      subst fields. repeat (constructor; [first [assumption | reflexivity | apply date_key_no_comma]|]).
      constructor.
    + intros following.
      destruct (Py.join "," fields) as [|c r] eqn:E.
      * subst fields. rewrite join_cons in E. unfold Spec.date_key in E.
        destruct (key_shape (Calendar.of_ms n)) as (? & ? & ? & ? & ? & ? & ? & ? & ? & ? & ? & ? & Hk & _).
        rewrite Hk in E. discriminate E.
      * apply convert_lines_keep. rewrite <- E. exact Hrow.
  - intros H.
    assert (Converter.convert_line line = inr None) as Hnone.
    { destruct H as [H|H]; [apply convert_line_short, H|].
      pose proof (split_nonempty Py.COMMA (Py.strip line)) as Hne.
      destruct (Py.split Py.COMMA (Py.strip line)) as [|ts rest] eqn:E; [contradiction|].
      eapply convert_line_bad_timestamp; [exact E | exact H]. }
    split; [exact Hnone|]. intros following. apply convert_lines_drop, Hnone.
Qed.

(** The row of the specification's example. *)
Lemma convert_line_legacy_row_witness :
  Converter.convert_line (P := Sample.host)
    "1700000000000,100,101,99,100.5,100.01,101.01,99.01,100.51"
  = inr (Some "20231114 22:13,100,101,99,100.5,0,100.01,101.01,99.01,100.51,0").
Proof.
  refine (proj1 (proj1 (convert_line_legacy_row (P := Sample.host)
            "1700000000000,100,101,99,100.5,100.01,101.01,99.01,100.51")
            "1700000000000" "100" "101" "99" "100.5" "100.01" "101.01" "99.01" "100.51"
            [] 1700000000000 _ _ _)); vm_compute; reflexivity.
Defined.

(** Four lines of which the second is too short and the third has no
    integer in front: the other two are converted. *)
Example convert_lines_sample :
  Converter.convert_lines (P := Sample.host)
    ["1700000000000,100,101,99,100.5,100.01,101.01,99.01,100.51";
     "1700086400000,100,101";
     "x1700172800000,1,2,3,4,5,6,7,8";
     "1700259200000,1,2,3,4,5,6,7,8"]
  = inr ["20231114 22:13,100,101,99,100.5,0,100.01,101.01,99.01,100.51,0";
         "20231117 22:13,1,2,3,4,0,5,6,7,8,0"].
Proof. vm_compute. reflexivity. Qed.

Example calendar_samples :
  Calendar.strftime_key (Calendar.of_ms 1700000000000) = "20231114 22:13"
  /\ Calendar.strftime_key (Calendar.of_ms (-1)) = "19691231 23:59"
  /\ Calendar.strftime_key (Calendar.of_ms 253402300799999) = "99991231 23:59"
  /\ Calendar.strftime_key (Calendar.of_ms (-62135596800000)) = "00010101 00:00"
  /\ Calendar.in_range (Calendar.of_ms 253402300800000) = false
  /\ Calendar.in_range (Calendar.of_ms (-62135596800001)) = false
  /\ Calendar.strftime_date (Calendar.of_ms 951782400000) = "2000-02-29".
Proof. vm_compute. repeat split; reflexivity. Qed.

(** ** The converter, file by file *)

Lemma first_line_keyed key tail :
  Py.all_chars (fun c => negb (Py.is_linebreak c) && negb (Ascii.eqb c Py.COMMA)) key = true ->
  exists x rest, Py.splitlines (key ++ String Py.COMMA tail)
                 = (key ++ String Py.COMMA x) :: rest.
Proof.
  induction key as [|c key IH]; intros Hk.
  - rewrite append_nil. cbn [Py.splitlines].
    change (Py.is_linebreak Py.COMMA) with false. cbv iota.
    destruct (Py.splitlines tail) as [|h t]; eexists _, _; reflexivity.
  - cbn [Py.all_chars] in Hk. apply andb_true_iff in Hk as [Hc Hk].
    apply andb_true_iff in Hc as [Hc _]. apply negb_true_iff in Hc.
    destruct (IH Hk) as (x & rest & E).
    rewrite append_cons. cbn [Py.splitlines]. rewrite Hc, E.
    exists x, rest. reflexivity.
Qed.

Lemma already_lean_keyed row rows :
  keyed row ->
  Converter.already_lean (Py.splitlines (Py.join (String Py.LF "") (row :: rows))) = true.
Proof.
  intros (dt & tail & ->).
  assert (exists tail', Py.join (String Py.LF "") ((Calendar.strftime_key dt ++ String Py.COMMA tail) :: rows)
                        = Calendar.strftime_key dt ++ String Py.COMMA tail') as [tail' ->].
  { destruct rows as [|r rows]; [eexists; reflexivity|].
    rewrite join_cons, app_assoc_s, append_cons. eexists. reflexivity. }
  destruct (first_line_keyed _ tail' (date_key_chars dt)) as (x & rest & ->).
  unfold Converter.already_lean.
  rewrite (first_field_app _ _ (date_key_no_comma dt)), isdigit_date_key. reflexivity.
Qed.

Section Files.
Context {P : Platform}.

Lemma convert_line_keyed line row :
  Converter.convert_line line = inr (Some row) -> keyed row.
Proof.
  unfold Converter.convert_line.
  destruct (List.length _ <? 9)%nat; [discriminate|].
  destruct (Py.int _) as [e|ts]; cbn [rbind]; [destruct e; discriminate|].
  unfold Converter.convert_timestamp.
  destruct (Calendar.in_range _); cbn [rbind];
    [|destruct (out_of_range ts); discriminate].
  intros [= <-]. eexists _, _. reflexivity.
Qed.

Lemma convert_lines_keyed lines :
  forall converted, Converter.convert_lines lines = inr converted -> Forall keyed converted.
Proof.
  induction lines as [|line rest IH]; intros converted; cbn [Converter.convert_lines].
  - intros [= <-]. constructor.
  - destruct (Py.strip line); [apply IH|].
    destruct (Converter.convert_line line) as [e|r] eqn:E; [discriminate|]. cbn [rbind].
    destruct (Converter.convert_lines rest) as [e|rows]; [discriminate|]. cbn [rbind].
    specialize (IH rows eq_refl).
    destruct r as [[|c r]|]; intros [= <-]; auto.
    constructor; [|exact IH]. exact (convert_line_keyed _ _ E).
Qed.

(** The converter never runs out of fuel: it has no loop on the world. *)
Lemma convert_zip_file_total input output backup w :
  exists r w', Converter.convert_zip_file input output backup w = Some (r, w').
Proof.
  unfold Converter.convert_zip_file, bind, get_fs, lift, raise, ret.
  destruct (w_fs w !! input) as [f|]; [|eauto].
  destruct (ZipFile.open_read f) as [e|[|[csv_name p] more]]; [eauto | eauto |].
  destruct (ZipFile.read_text csv_name _) as [e|content]; [eauto|].
  destruct (Converter.already_lean _); [eauto|].
  destruct (Converter.convert_lines _) as [e|[|row rows]]; [eauto | eauto |].
  destruct (backup && _); cbn; eauto.
Qed.

(** What one in-place run does: nothing, or the archive replaced by keyed
    rows under its first member's name. *)
Lemma convert_in_place input backup w r w1 :
  Converter.convert_zip_file input None backup w = Some (r, w1) ->
  w1 = w
  \/ exists csv_name row rows size mtime,
       keyed row
       /\ w_fs w1 !! input
          = Some {| f_body := Zip [(csv_name, Text (Py.join (String Py.LF "") (row :: rows)))];
                    st_size := size; st_mtime := mtime |}.
Proof.
  unfold Converter.convert_zip_file, bind, get_fs, lift, raise, ret. cbn [default].
  destruct (w_fs w !! input) as [f|]; [|intros [= _ <-]; auto].
  destruct (ZipFile.open_read f) as [e|[|[csv_name p] more]];
    [intros [= _ <-]; auto | intros [= _ <-]; auto |].
  destruct (ZipFile.read_text csv_name _) as [e|content]; [intros [= _ <-]; auto|].
  destruct (Converter.already_lean _); [intros [= _ <-]; auto|].
  destruct (Converter.convert_lines _) as [e|[|row rows]] eqn:E;
    [intros [= _ <-]; auto | intros [= _ <-]; auto |].
  pose proof (convert_lines_keyed _ _ E) as Hk. apply Forall_cons_iff in Hk as [Hk _].
  intros H. right.
  exists csv_name, row, rows.
  destruct (backup && (input =? input)%string); cbn in H; injection H as _ <-; cbn [w_fs];
    rewrite lookup_insert_eq; eexists _, _; (split; [exact Hk | reflexivity]).
Qed.

Lemma convert_skips_keyed input backup w csv_name row rows size mtime :
  keyed row ->
  w_fs w !! input
  = Some {| f_body := Zip [(csv_name, Text (Py.join (String Py.LF "") (row :: rows)))];
            st_size := size; st_mtime := mtime |} ->
  Converter.convert_zip_file input None backup w = Some (inr tt, w).
Proof.
  intros Hk Hf. unfold Converter.convert_zip_file, bind, get_fs, lift, raise, ret.
  rewrite Hf. cbn [ZipFile.open_read f_body]. rewrite read_text_single.
  rewrite (already_lean_keyed _ _ Hk). reflexivity.
Qed.

End Files.

(** C5: converting an archive in place a second time changes nothing: the
    first run returns, and on the world it leaves the second run returns
    with every file, the archive included, exactly as the first run left
    it. Whenever the first run rewrote the archive, the first field of its
    first line is now a date key, which is not all digits, so the second run
    takes the branch that skips. *)
Theorem convert_twice_is_convert_once {P : Platform} (input : string) (backup : bool)
    (w : world) :
  exists r1 w1 r2,
    Converter.convert_zip_file input None backup w = Some (r1, w1)
    /\ Converter.convert_zip_file input None backup w1 = Some (r2, w1)
    /\ (w_fs w1 !! input <> w_fs w !! input ->
        exists f members name content,
          w_fs w1 !! input = Some f
          /\ ZipFile.open_read f = inr members
          /\ ZipFile.first_name members = inr name
          /\ ZipFile.read_text name members = inr content
          /\ Converter.already_lean (Py.splitlines content) = true
          /\ r2 = inr tt).
Proof.
  destruct (convert_zip_file_total input None backup w) as (r1 & w1 & H1).
  destruct (convert_in_place _ _ _ _ _ H1)
    as [-> | (csv_name & row & rows & size & mtime & Hk & Hf)].
  - exists r1, w, r1. split; [exact H1|]. split; [exact H1|]. intros Hne. contradiction.
  - pose proof (convert_skips_keyed input backup w1 _ _ _ _ _ Hk Hf) as H2.
    exists r1, w1, (inr tt). split; [exact H1|]. split; [exact H2|]. intros _.
    eexists _, _, _, _. split; [exact Hf|]. cbn [ZipFile.open_read f_body ZipFile.first_name].
    rewrite read_text_single. repeat split. apply already_lean_keyed, Hk.
Qed.

(** The sample cache converted twice: the first run rewrites the archive in
    the current encoding and keeps a backup, the second changes nothing. *)
Example sample_convert_twice :
  let path := DataManager.quote_zip Sample.dm "BTCUSDT" in
  match Converter.convert_zip_file (P := Sample.host) path None true cached with
  | Some (r1, w1) =>
      r1 = inr tt
      /\ entry_text (w_fs w1) path "btcusdt.csv"
         = Some (Spec.current_text (P := Sample.host) Sample.market)
      /\ w_fs w1 !! (path ++ ".bak") = w_fs cached !! path
      /\ Converter.convert_zip_file (P := Sample.host) path None true w1 = Some (inr tt, w1)
  | None => False
  end.
Proof. vm_compute. repeat split; reflexivity. Qed.

(** * Further properties of the code *)

(** ** A status is populated or empty *)

Section StatusShape.
Context {P : Platform}.

(** X1: the status [get_symbol_status] returns is of one of two shapes. When
    it is available the archive exists at the symbol's path, the status
    carries that path and the size of the file, counts at least one row and
    has a start date, an end date and a modification time; when it is not
    available every derived field is empty. *)
Theorem status_populated_or_empty (self : DataManager.t) (fs : gmap string file)
    (symbol_ : string) :
  let status := DataManager.get_symbol_status self fs symbol_ in
  (available status = true ->
   DataManager.is_symbol_available self fs symbol_ = true
   /\ (exists f, fs !! DataManager.quote_zip self symbol_ = Some f
                 /\ file_size status = st_size f)
   /\ file_path status = Some (DataManager.quote_zip self symbol_)
   /\ (1 <= candles_count status)%nat
   /\ exists d0 dN m,
        start_date status = Some d0 /\ end_date status = Some dN
        /\ last_updated status = Some m)
  /\ (available status = false -> status = DataManager.not_available symbol_).
Proof.
  cbv zeta. unfold DataManager.get_symbol_status, DataManager.is_symbol_available.
  destruct (fs !! DataManager.quote_zip self symbol_) as [f|];
    [|split; [discriminate | reflexivity]].
  destruct (DataManager.read_status _ symbol_ f) as [e|st] eqn:E;
    [split; [discriminate | reflexivity]|].
  revert E. unfold DataManager.read_status, rbind.
  destruct (ZipFile.open_read f) as [?|members]; [discriminate|].
  destruct (ZipFile.first_name members) as [?|name]; [discriminate|].
  destruct (ZipFile.read_text name members) as [?|content]; [discriminate|].
  pose proof (split_nonempty Py.LF (Py.strip content)) as Hne.
  destruct (Py.split Py.LF (Py.strip content)) as [|l0 tl]; [contradiction|].
  destruct (Py.int (first_field l0)) as [?|t0]; [discriminate|].
  destruct (local_date t0) as [?|d0]; [discriminate|].
  destruct (Py.int (first_field (List.last (l0 :: tl) l0))) as [?|tN]; [discriminate|].
  destruct (local_date tN) as [?|dN]; [discriminate|].
  destruct (local_minute (st_mtime f)) as [?|m]; [discriminate|].
  intros [= <-]. cbn. split; [|discriminate]. intros _.
  split; [reflexivity|]. split; [exists f; auto|]. split; [reflexivity|].
  split; [lia|]. do 3 eexists. repeat split.
Qed.

End StatusShape.

Example status_populated_sample :
  DataManager.get_symbol_status (P := Sample.host) Sample.dm (w_fs cached) "BTCUSDT"
  = {| symbol := "BTCUSDT"; available := true;
       file_path := Some "/lean/data/crypto/binance/daily/btcusdt_quote.zip";
       file_size := 322; candles_count := 3;
       start_date := Some "2023-01-01"; end_date := Some "2023-01-03";
       last_updated := Some "2023-01-05 00:00" |}.
Proof. vm_compute. reflexivity. Qed.

(** ** Existence checks *)

Lemma quote_zip_upper self s :
  Py.isascii s = true ->
  DataManager.quote_zip self (Py.upper s) = DataManager.quote_zip self s.
Proof. intros Hs. unfold DataManager.quote_zip. rewrite (lower_upper s Hs). reflexivity. Qed.

Lemma check_symbols_available self fs symbols :
  fst (DataManager.check_symbols self fs symbols)
  = map Py.upper (List.filter (DataManager.is_symbol_available self fs) symbols).
Proof.
  induction symbols as [|s rest IH]; [reflexivity|].
  cbn [DataManager.check_symbols List.filter].
  destruct (DataManager.check_symbols self fs rest) as [av mi]. cbn [fst] in IH.
  destruct (DataManager.is_symbol_available self fs s); cbn [fst map]; rewrite IH;
    reflexivity.
Qed.

(** X2: [check_symbols] sorts the symbols, in upper case and in the order
    given, into those whose archive file exists and those whose file does not;
    every symbol lands in exactly one of the two lists. When the symbols are
    ASCII no name stands in both lists, also when the same symbol is given
    in different letter cases. *)
Theorem check_symbols_partition (self : DataManager.t) (fs : gmap string file)
    (symbols : list string) :
  let check := DataManager.check_symbols self fs symbols in
  fst check = map Py.upper (List.filter (DataManager.is_symbol_available self fs) symbols)
  /\ snd check
     = map Py.upper
         (List.filter (fun s => negb (DataManager.is_symbol_available self fs s)) symbols)
  /\ (List.length (fst check) + List.length (snd check) = List.length symbols)%nat
  /\ (forall s, In s symbols -> In (Py.upper s) (fst check) \/ In (Py.upper s) (snd check))
  /\ (Forall (fun s => Py.isascii s = true) symbols ->
      forall u, In u (fst check) -> In u (snd check) -> False).
Proof.
  cbv zeta. rewrite check_symbols_available, check_symbols_missing.
  split; [reflexivity|]. split; [reflexivity|]. split; [|split].
  - rewrite !length_map. induction symbols as [|s rest IH]; [reflexivity|].
    cbn [List.filter]. destruct (DataManager.is_symbol_available self fs s);
      cbn [negb List.length]; lia.
  - intros s Hs. destruct (DataManager.is_symbol_available self fs s) eqn:E.
    + left. apply in_map, filter_In. auto.
    + right. apply in_map, filter_In. rewrite E. auto.
  - intros Hascii u Ha Hm. rewrite List.Forall_forall in Hascii.
    apply in_map_iff in Ha as (s & <- & Hs). apply filter_In in Hs as [Hin Hs].
    apply in_map_iff in Hm as (s' & Hu & Hs'). apply filter_In in Hs' as [Hin' Hs'].
    apply negb_true_iff in Hs'.
    unfold DataManager.is_symbol_available in *.
    rewrite <- (quote_zip_upper self s (Hascii s Hin)), <- Hu,
      (quote_zip_upper self s' (Hascii s' Hin')) in Hs.
    congruence.
Qed.

Lemma check_symbols_partition_witness :
  DataManager.check_symbols Sample.dm (w_fs cached) ["btcusdt"; "ethusdt"; "BTCUSDT"]
  = (["BTCUSDT"; "BTCUSDT"], ["ETHUSDT"])
  /\ forall u,
       In u (fst (DataManager.check_symbols Sample.dm (w_fs cached)
                    ["btcusdt"; "ethusdt"; "BTCUSDT"])) ->
       In u (snd (DataManager.check_symbols Sample.dm (w_fs cached)
                    ["btcusdt"; "ethusdt"; "BTCUSDT"])) -> False.
Proof.
  split; [vm_compute; reflexivity|].
  apply (check_symbols_partition Sample.dm (w_fs cached) ["btcusdt"; "ethusdt"; "BTCUSDT"]).
  repeat constructor.
Defined.

(** Outside ASCII a name can stand in both lists: ß and ss are two files,
    and both symbols are SS in upper case. *)
Example check_symbols_eszett :
  let eszett := String (ascii_of_nat 223) "" in
  let fs : gmap string file :=
    {[ "/lean/data/crypto/binance/daily/ss_quote.zip" :=
         {| f_body := NotZip; st_size := 0; st_mtime := 0 |} ]} in
  DataManager.check_symbols Sample.dm fs [eszett; "ss"] = (["SS"], ["SS"]).
Proof. vm_compute. reflexivity. Qed.

(** ** Deleting a symbol *)

(** X3: deleting a symbol whose archive exists removes that file and no
    other; afterwards the symbol is not available, its status is the empty
    one, [check_symbols] lists it as missing and a second delete answers 404.
    Deleting a symbol without an archive answers 404 and changes nothing. *)
Theorem delete_symbol_data_effect {P : Platform} (self : DataManager.t) (symbol_ : string)
    (w : world) :
  (DataManager.is_symbol_available self (w_fs w) symbol_ = true ->
   exists w',
     Api.delete_symbol_data self symbol_ w = (inr "ok", w')
     /\ DataManager.is_symbol_available self (w_fs w') symbol_ = false
     /\ DataManager.get_symbol_status self (w_fs w') symbol_
        = DataManager.not_available symbol_
     /\ DataManager.check_symbols self (w_fs w') [symbol_] = ([], [Py.upper symbol_])
     /\ Api.delete_symbol_data self symbol_ w' = (inl 404, w')
     /\ forall path, path <> DataManager.quote_zip self symbol_ ->
                     w_fs w' !! path = w_fs w !! path)
  /\ (DataManager.is_symbol_available self (w_fs w) symbol_ = false ->
      Api.delete_symbol_data self symbol_ w = (inl 404, w)).
Proof.
  unfold Api.delete_symbol_data, DataManager.is_symbol_available.
  destruct (w_fs w !! DataManager.quote_zip self symbol_) as [f|] eqn:E.
  - split; [|discriminate]. intros _. eexists. split; [reflexivity|]. cbn [w_fs].
    unfold DataManager.get_symbol_status, DataManager.check_symbols,
      DataManager.is_symbol_available.
    rewrite !lookup_delete_eq. repeat split.
    intros path Hp. apply lookup_delete_ne. congruence.
  - split; [discriminate | reflexivity].
Qed.

Lemma delete_symbol_data_effect_witness :
  exists w',
    Api.delete_symbol_data Sample.dm "btcusdt" cached = (inr "ok", w')
    /\ DataManager.check_symbols Sample.dm (w_fs w') ["btcusdt"] = ([], ["BTCUSDT"]).
Proof.
  destruct (proj1 (delete_symbol_data_effect (P := Sample.host) Sample.dm "btcusdt" cached)
              ltac:(vm_compute; reflexivity)) as (w' & Hd & _ & _ & Hc & _).
  exists w'. split; [exact Hd | exact Hc].
Defined.

(** ** What a fetch returns, whatever the remote does *)

Section Fetch.
Context {P : Platform}.

Lemma loop_returns_pages symbol_ interval end_ts fuel :
  forall current_ts all_data w r w',
    klines_loop fuel symbol_ interval end_ts current_ts all_data w = Some (r, w') ->
    let pages := klines_pages fuel symbol_ interval end_ts current_ts (w_tick w) in
    r = inr (all_data ++ concat pages)%list
    /\ (w_tick w + List.length pages <= w_tick w' <= w_tick w + List.length pages + 1)%nat.
Proof.
  induction fuel as [|fuel IH]; intros current_ts all_data w r w' H; [discriminate H|].
  rewrite loop_step in H. cbn [klines_pages].
  destruct (klines_turn symbol_ interval end_ts current_ts (w_tick w)) as [| | |data next_ts].
  1-3: injection H as <- <-; cbn; rewrite app_nil_r; split; [reflexivity | lia].
  apply IH in H. cbn [tick w_tick] in H. destruct H as [-> Ht].
  cbn. rewrite <- app_assoc. split; [reflexivity | lia].
Qed.

(** X4: when one of its two dates does not parse a fetch raises that error
    before any request. Once the dates parse, and the remote answers every
    request by a failure or by a list of rows, a fetch that returns gives
    back the pages it received before it stopped, in order, so that a
    request that fails after some pages leaves those pages as the result; it
    leaves every file as it was, and it made one request per page kept and
    at most one more. *)
Theorem fetch_returns_pages_kept (fuel : nat) (symbol_ interval start_date_ end_date_ : string)
    (w : world) :
  (forall e, date_to_ms start_date_ = inl e ->
             fetch_klines fuel symbol_ interval start_date_ end_date_ w = Some (inl e, w))
  /\ (forall start_ts e,
         date_to_ms start_date_ = inr start_ts -> date_to_ms end_date_ = inl e ->
         fetch_klines fuel symbol_ interval start_date_ end_date_ w = Some (inl e, w))
  /\ (forall start_ts end_ts r w',
         date_to_ms start_date_ = inr start_ts -> date_to_ms end_date_ = inr end_ts ->
         fetch_klines fuel symbol_ interval start_date_ end_date_ w = Some (r, w') ->
         let pages := klines_pages fuel symbol_ interval end_ts start_ts (w_tick w) in
         r = inr (concat pages)
         /\ w_fs w' = w_fs w
         /\ (w_tick w + List.length pages <= w_tick w'
             <= w_tick w + List.length pages + 1)%nat).
Proof.
  unfold fetch_klines, bind, lift. split; [|split].
  - intros e ->. reflexivity.
  - intros start_ts e -> ->. reflexivity.
  - intros start_ts end_ts r w' -> -> H.
    pose proof (loop_keeps_files _ _ _ _ _ _ _ _ _ H) as Hfs.
    apply loop_returns_pages in H. cbn in H. destruct H as [-> Ht]. auto.
Qed.

End Fetch.

Lemma fetch_returns_pages_kept_witness :
  exists w',
    fetch_klines (P := Flaky.host) 10 "BTCUSDT" "1d" "2023-01-01" "2023-01-04" Sample.start
    = Some (inr (firstn 2 Sample.market), w')
    /\ w_fs w' = w_fs Sample.start /\ w_tick w' = 2%nat.
Proof.
  destruct (fetch_klines (P := Flaky.host) 10 "BTCUSDT" "1d" "2023-01-01" "2023-01-04"
              Sample.start) as [[r w']|] eqn:E; [|vm_compute in E; discriminate E].
  destruct (proj2 (proj2 (fetch_returns_pages_kept (P := Flaky.host) 10 "BTCUSDT" "1d"
              "2023-01-01" "2023-01-04" Sample.start))
              1672531200000 1672790400000 r w'
              ltac:(vm_compute; reflexivity) ltac:(vm_compute; reflexivity) E)
    as (-> & Hfs & Ht).
  exists w'. split; [|split; [exact Hfs|]].
  - vm_compute. reflexivity.
  - vm_compute in E. injection E as <-. reflexivity.
Defined.

(** ** Symbols the remote has nothing for *)

Section Silent.
Context {P : Platform}.

Lemma loop_silent fuel symbol_ interval end_ts current_ts all_data w :
  silent symbol_ -> (0 < fuel)%nat ->
  exists w', klines_loop fuel symbol_ interval end_ts current_ts all_data w
             = Some (inr all_data, w')
             /\ w_fs w' = w_fs w.
Proof.
  intros Hs Hf. destruct fuel as [|fuel]; [lia|].
  cbn [klines_loop]. unfold klines_turn.
  destruct (current_ts <? end_ts); [|eauto].
  destruct (Hs (w_tick w) (klines_request symbol_ interval current_ts end_ts) eq_refl)
    as [-> | ->]; eexists; split; reflexivity.
Qed.

Lemma download_symbol_silent self fuel s sd t0 w :
  silent (Py.upper s) -> (0 < fuel)%nat ->
  date_to_ms (default DataManager.DEFAULT_START_DATE sd) = inr t0 ->
  (forall n, exists t, date_to_ms (today n) = inr t) ->
  exists w',
    DataManager.download_symbol self fuel s sd None w
    = Some (inr (DataManager.get_symbol_status self (w_fs w) s), w')
    /\ w_fs w' = w_fs w.
Proof.
  intros Hs Hf H0 Ht. rewrite download_symbol_run.
  unfold DataManager.download_fetch, DataManager._download_binance_klines, fetch_klines.
  unfold bind at 1. cbn [now_date]. unfold bind at 1. rewrite H0. cbn [lift].
  unfold bind at 1. destruct (Ht (w_tick w)) as [t1 ->].
  destruct (loop_silent fuel (Py.upper s) "1d" t1 t0 [] (tick w) Hs Hf) as (w' & E & Hfs).
  cbn [lift]. rewrite E. cbn. exists w'. rewrite Hfs. cbn. auto.
Qed.

Lemma for_each_fixed_fs {A B} (f : A -> M B) (g : A -> B) (fs0 : gmap string file)
    (l : list A) :
  (forall x, In x l -> forall w, w_fs w = fs0 ->
                                 exists w', f x w = Some (inr (g x), w') /\ w_fs w' = fs0) ->
  forall w, w_fs w = fs0 ->
            exists w', for_each f l w = Some (inr (map g l), w') /\ w_fs w' = fs0.
Proof.
  induction l as [|x rest IH]; intros Hf w Hw; cbn [for_each map].
  - exists w. auto.
  - destruct (Hf x (or_introl eq_refl) w Hw) as (w1 & E1 & H1).
    destruct (IH (fun y Hy => Hf y (or_intror Hy)) w1 H1) as (w2 & E2 & H2).
    unfold bind. rewrite E1, E2. exists w2. auto.
Qed.

Lemma available_upper self fs s :
  Py.isascii s = true ->
  DataManager.is_symbol_available self fs (Py.upper s)
  = DataManager.is_symbol_available self fs s.
Proof.
  intros Hs. unfold DataManager.is_symbol_available. rewrite (quote_zip_upper self s Hs).
  reflexivity.
Qed.

Lemma check_missing_again self fs symbols :
  Forall (fun s => Py.isascii s = true) symbols ->
  snd (DataManager.check_symbols self fs (snd (DataManager.check_symbols self fs symbols)))
  = snd (DataManager.check_symbols self fs symbols).
Proof.
  rewrite !check_symbols_missing.
  induction 1 as [|s rest Hs _ IH]; [reflexivity|].
  cbn [List.filter]. destruct (DataManager.is_symbol_available self fs s) eqn:E; cbn [negb];
    [exact IH|].
  cbn [map List.filter]. rewrite (available_upper self fs s Hs), E. cbn [negb map].
  rewrite upper_idem. f_equal. exact IH.
Qed.

Lemma missing_origin self fs symbols u :
  In u (snd (DataManager.check_symbols self fs symbols)) ->
  exists s, In s symbols /\ u = Py.upper s
            /\ DataManager.is_symbol_available self fs s = false.
Proof.
  rewrite check_symbols_missing, in_map_iff. intros (s & <- & Hs).
  apply filter_In in Hs. destruct Hs as [Hin Hn]. exists s.
  destruct (DataManager.is_symbol_available self fs s); [discriminate Hn | auto].
Qed.

(** X5: for ASCII symbols, when the host parses the default start date and
    today's date, and the remote has nothing for any of the symbols whose
    archive is missing, [download_missing] returns one status per missing
    symbol, each the not-available one, [ensure_symbols] returns what
    [check_symbols] said before it started, and neither writes or removes a
    file. *)
Theorem ensure_symbols_silent (self : DataManager.t) (fuel : nat) (symbols : list string)
    (w : world) (t0 : Z) :
  Forall (fun s => Py.isascii s = true) symbols ->
  (0 < fuel)%nat ->
  date_to_ms DataManager.DEFAULT_START_DATE = inr t0 ->
  (forall n, exists t, date_to_ms (today n) = inr t) ->
  (forall s, In s symbols ->
             DataManager.is_symbol_available self (w_fs w) s = false ->
             silent (Py.upper s)) ->
  (exists w1,
      DataManager.download_missing self fuel symbols w
      = Some (inr (map DataManager.not_available
                     (snd (DataManager.check_symbols self (w_fs w) symbols))), w1)
      /\ w_fs w1 = w_fs w)
  /\ (exists w2,
         DataManager.ensure_symbols self fuel symbols w
         = Some (inr (DataManager.check_symbols self (w_fs w) symbols), w2)
         /\ w_fs w2 = w_fs w).
Proof.
  intros Hascii Hf H0 Ht Hs.
  assert (forall l w0,
             w_fs w0 = w_fs w ->
             (forall u, In u (snd (DataManager.check_symbols self (w_fs w) l)) ->
                        silent (Py.upper u)
                        /\ DataManager.is_symbol_available self (w_fs w) u = false) ->
             exists w1,
               DataManager.download_missing self fuel l w0
               = Some (inr (map DataManager.not_available
                              (snd (DataManager.check_symbols self (w_fs w) l))), w1)
               /\ w_fs w1 = w_fs w) as Hdm.
  { intros l w0 Hw0 Hl. unfold DataManager.download_missing, bind, get_fs. rewrite Hw0.
    destruct (for_each_fixed_fs
                (fun s => DataManager.download_symbol self fuel s None None)
                DataManager.not_available (w_fs w)
                (snd (DataManager.check_symbols self (w_fs w) l))) with (w := w0)
      as (w1 & E & Hw1); [|exact Hw0|].
    - intros u Hu w3 Hw3. destruct (Hl u Hu) as [Hsil Hav].
      destruct (download_symbol_silent self fuel u None t0 w3 Hsil Hf H0 Ht) as (w4 & E & H4).
      exists w4. split; [|congruence]. rewrite E, Hw3. do 2 f_equal.
      unfold DataManager.get_symbol_status. unfold DataManager.is_symbol_available in Hav.
      destruct (w_fs w !! DataManager.quote_zip self u); [discriminate Hav | reflexivity].
    - exists w1. rewrite E. auto. }
  assert (forall u, In u (snd (DataManager.check_symbols self (w_fs w) symbols)) ->
                    silent (Py.upper u)
                    /\ DataManager.is_symbol_available self (w_fs w) u = false) as Hmiss.
  { intros u Hu. apply missing_origin in Hu. destruct Hu as (s & Hin & -> & Hav).
    rewrite upper_idem, available_upper; [auto|].
    rewrite List.Forall_forall in Hascii. exact (Hascii s Hin). }
  split; [exact (Hdm symbols w eq_refl Hmiss)|].
  destruct (Hdm (snd (DataManager.check_symbols self (w_fs w) symbols)) w eq_refl)
    as (w1 & E & Hw1).
  { rewrite (check_missing_again _ _ _ Hascii). exact Hmiss. }
  rewrite (check_missing_again _ _ _ Hascii) in E.
  unfold DataManager.ensure_symbols. unfold bind at 1. unfold get_fs at 1.
  destruct (snd (DataManager.check_symbols self (w_fs w) symbols)) as [|u rest].
  - exists w. split; reflexivity.
  - unfold bind, get_fs, ret. rewrite E. rewrite Hw1. exists w1. auto.
Qed.

End Silent.

Lemma ensure_symbols_silent_witness :
  exists w2,
    DataManager.ensure_symbols (P := Sample.host) Sample.dm 5 ["btcusdt"; "aaabbb"] cached
    = Some (inr (["BTCUSDT"], ["AAABBB"]), w2)
    /\ w_fs w2 = w_fs cached.
Proof.
  destruct (ensure_symbols_silent (P := Sample.host) Sample.dm 5 ["btcusdt"; "aaabbb"] cached
              1672531200000) as [_ (w2 & E & H)].
  - repeat constructor.
  - lia.
  - vm_compute. reflexivity.
  - intros n. exists 1672790400000. vm_compute. reflexivity.
  - intros s [<- | [<- | []]] Hav; [vm_compute in Hav; discriminate Hav|].
    intros n q Hq. left. cbn. unfold Sample.serve. rewrite Hq. reflexivity.
  - exists w2. split; [|exact H]. rewrite E. vm_compute. reflexivity.
Defined.

(** ** The data manager removes no file *)

Section Keeps.
Context {P : Platform}.

Lemma keeps_for_each {A B} (f : A -> M B) (l : list A) :
  (forall x, keeps_files (f x)) -> keeps_files (for_each f l).
Proof.
  intros Hf. induction l as [|x rest IH]; intros w r w'; cbn [for_each].
  - intros [= _ <-]. auto.
  - unfold bind.
    destruct (f x w) as [[[e|y] w1]|] eqn:E1; [intros [= _ <-]; eapply Hf, E1 | | discriminate].
    destruct (for_each f rest w1) as [[[e|ys] w2]|] eqn:E2; [| | discriminate];
      intros [= _ <-] path Hp; eapply IH; eauto; eapply Hf; eauto.
Qed.

Lemma keeps_download_symbol self fuel s sd ed :
  keeps_files (DataManager.download_symbol self fuel s sd ed).
Proof.
  intros w r w'. rewrite download_symbol_run.
  destruct (DataManager.download_fetch self fuel s sd ed w) as [[[e|data] w1]|] eqn:E;
    [| | discriminate].
  - intros [= _ <-] path. rewrite (download_fetch_keeps_files _ _ _ _ _ _ _ _ E). auto.
  - pose proof (download_fetch_keeps_files _ _ _ _ _ _ _ _ E) as Hfs.
    destruct data as [|c rest].
    + cbn. intros [= _ <-] path. rewrite Hfs. auto.
    + cbn. intros [= _ <-] path. cbn. rewrite Hfs. intros Hp.
      destruct (decide (DataManager.quote_zip self s = path)) as [->|Hne].
      * rewrite lookup_insert_eq. eauto.
      * rewrite lookup_insert_ne by exact Hne. exact Hp.
Qed.

(** X6: no operation of the data manager removes a file, however it ends:
    a path that names a file before [download_symbol], [download_missing],
    [update_symbol], [update_all] or [ensure_symbols] names one after it. So
    the symbols [check_symbols] finds available before [ensure_symbols] are
    among those it returns as available. *)
Theorem data_manager_keeps_files (self : DataManager.t) (fuel : nat) :
  (forall s sd ed, keeps_files (DataManager.download_symbol self fuel s sd ed))
  /\ (forall symbols, keeps_files (DataManager.download_missing self fuel symbols))
  /\ (forall s, keeps_files (DataManager.update_symbol self fuel s))
  /\ keeps_files (DataManager.update_all self fuel)
  /\ (forall symbols, keeps_files (DataManager.ensure_symbols self fuel symbols))
  /\ (forall symbols w res w',
         DataManager.ensure_symbols self fuel symbols w = Some (inr res, w') ->
         forall u, In u (fst (DataManager.check_symbols self (w_fs w) symbols)) ->
                   In u (fst res)).
Proof.
  assert (forall symbols, keeps_files (DataManager.download_missing self fuel symbols)) as Hdm.
  { intros symbols w r w'. unfold DataManager.download_missing, bind, get_fs.
    apply keeps_for_each. intros x. apply keeps_download_symbol. }
  assert (forall s, keeps_files (DataManager.update_symbol self fuel s)) as Hus.
  { intros s w r w'. unfold DataManager.update_symbol, bind, get_fs.
    apply keeps_download_symbol. }
  assert (forall symbols, keeps_files (DataManager.ensure_symbols self fuel symbols)) as Hen.
  { intros symbols w r w'. unfold DataManager.ensure_symbols.
    unfold bind at 1. unfold get_fs at 1.
    destruct (snd (DataManager.check_symbols self (w_fs w) symbols)) as [|u rest].
    - cbn. intros [= _ <-]. auto.
    - unfold bind.
      destruct (DataManager.download_missing self fuel (u :: rest) w) as [[[e|sts] w1]|] eqn:E;
        [| | discriminate]; cbn; intros [= _ <-]; eapply Hdm, E. }
  split; [intros; apply keeps_download_symbol|].
  split; [exact Hdm|]. split; [exact Hus|].
  split; [|split; [exact Hen|]].
  - intros w r w'. unfold DataManager.update_all, bind, get_fs.
    apply keeps_for_each. exact Hus.
  - intros symbols w res w' E u.
    pose proof (Hen symbols w _ _ E) as Hk. revert E.
    unfold DataManager.ensure_symbols. unfold bind at 1. unfold get_fs at 1.
    assert (forall w1, w_fs w1 = w_fs w' ->
               In u (fst (DataManager.check_symbols self (w_fs w) symbols)) ->
               In u (fst (DataManager.check_symbols self (w_fs w1) symbols))) as Hmono.
    { intros w1 Hw1. rewrite !check_symbols_available, !in_map_iff.
      intros (s & <- & Hs). exists s. split; [reflexivity|].
      apply filter_In in Hs. apply filter_In. destruct Hs as [Hin Hav]. split; [exact Hin|].
      unfold DataManager.is_symbol_available in *. rewrite Hw1.
      destruct (w_fs w !! DataManager.quote_zip self s) as [f|] eqn:Ef; [|discriminate Hav].
      destruct (Hk (DataManager.quote_zip self s)) as [f' ->]; [rewrite Ef; eauto|].
      reflexivity. }
    destruct (snd (DataManager.check_symbols self (w_fs w) symbols)) as [|m rest].
    + cbn. intros [= <- <-]. auto.
    + unfold bind.
      destruct (DataManager.download_missing self fuel (m :: rest) w) as [[[e|sts] w1]|];
        [discriminate | | discriminate].
      cbn. intros [= <- <-]. apply Hmono. reflexivity.
Qed.

End Keeps.

(** ** The two encoders *)

Section Encoders.
Context {P : Platform}.

(** X7: written into the data manager's directory, the standalone script's
    [convert_to_lean_quote_format] and the data manager's
    [_save_to_lean_format] do the same for a non-empty candle sequence: the
    same archive at the same path. For an empty sequence they part: the
    data manager writes nothing, the standalone function writes an archive
    with an empty member, which [is_symbol_available] then reports as
    available while [get_symbol_status] reports it as not available. *)
Theorem standalone_encoder_agrees (self : DataManager.t) (data : list (Candle pyfloat))
    (symbol_ : string) (w : world) :
  (data <> [] ->
   exists w',
     DataManager._save_to_lean_format self data symbol_ w
     = Some (inr (Some (DataManager.quote_zip self symbol_)), w')
     /\ Downloader.convert_to_lean_quote_format data symbol_ (DataManager.data_path self) w
        = Some (inr (DataManager.quote_zip self symbol_), w'))
  /\ DataManager._save_to_lean_format self [] symbol_ w = Some (inr None, w)
  /\ exists w',
       Downloader.convert_to_lean_quote_format [] symbol_ (DataManager.data_path self) w
       = Some (inr (DataManager.quote_zip self symbol_), w')
       /\ entry_text (w_fs w') (DataManager.quote_zip self symbol_) (Py.lower symbol_ ++ ".csv")
          = Some ""
       /\ DataManager.is_symbol_available self (w_fs w') symbol_ = true
       /\ DataManager.get_symbol_status self (w_fs w') symbol_
          = DataManager.not_available symbol_.
Proof.
  split; [|split; [reflexivity|]].
  - intros Hne. destruct data as [|c rest]; [contradiction|].
    eexists. split; reflexivity.
  - eexists. split; [reflexivity|].
    unfold entry_text, DataManager.is_symbol_available, DataManager.get_symbol_status.
    cbn [w_fs]. change (DataManager.data_path self ++ "/" ++ Py.lower symbol_ ++ "_quote.zip")
      with (DataManager.quote_zip self symbol_).
    rewrite lookup_insert_eq. cbn [f_body]. rewrite String.eqb_refl.
    split; [reflexivity|]. split; [reflexivity|].
    unfold DataManager.read_status. cbn [ZipFile.open_read f_body ZipFile.first_name rbind].
    rewrite read_text_single. reflexivity.
Qed.

End Encoders.

Lemma standalone_encoder_agrees_witness :
  exists w',
    DataManager._save_to_lean_format (P := Sample.host) Sample.dm Sample.market "BTCUSDT"
      Sample.start
    = Some (inr (Some (DataManager.quote_zip Sample.dm "BTCUSDT")), w')
    /\ Downloader.convert_to_lean_quote_format (P := Sample.host) Sample.market "BTCUSDT"
         (DataManager.data_path Sample.dm) Sample.start
       = Some (inr (DataManager.quote_zip Sample.dm "BTCUSDT"), w').
Proof.
  apply (proj1 (standalone_encoder_agrees (P := Sample.host) Sample.dm Sample.market
                  "BTCUSDT" Sample.start)).
  discriminate.
Defined.

(** ** The converter on what the data manager wrote *)

Lemma linebreak_isspace c : Py.is_linebreak c = true -> Py.isspace c = true.
Proof. unfold Py.is_linebreak, Py.isspace. cbv zeta. lia. Qed.

Lemma splitlines_line l rest :
  Py.all_chars (fun c => negb (Py.isspace c)) l = true ->
  Py.splitlines (l ++ CRLF ++ rest) = l :: Py.splitlines rest.
Proof.
  induction l as [|c r IH]; intros H.
  - reflexivity.
  - cbn [Py.all_chars] in H. apply andb_true_iff in H. destruct H as [Hc Hr].
    rewrite append_cons. cbn [Py.splitlines].
    destruct (Py.is_linebreak c) eqn:E.
    + apply linebreak_isspace in E. rewrite E in Hc. discriminate Hc.
    + rewrite (IH Hr). reflexivity.
Qed.

Lemma splitlines_terminated ls :
  Forall solid ls -> Py.splitlines (terminated ls) = ls.
Proof.
  induction 1 as [|l rest [_ Hl] _ IH]; [reflexivity|].
  cbn [terminated]. rewrite app_assoc_s, (splitlines_line _ _ Hl), IH. reflexivity.
Qed.

Lemma isdigit_uint u :
  NilEmpty.string_of_uint u <> "" -> Py.isdigit (NilEmpty.string_of_uint u) = true.
Proof.
  intros Hne. unfold Py.isdigit.
  destruct (NilEmpty.string_of_uint u) eqn:E; [contradiction|]. rewrite <- E.
  apply (all_chars_weaken Py.is_decimal); [|apply uint_chars].
  intros c Hc. unfold Py.isdigit_char. rewrite Hc. reflexivity.
Qed.

Lemma isdigit_str z : 0 <= z -> Py.isdigit (Py.str z) = true.
Proof.
  intros Hz. destruct z as [|p|p]; [reflexivity | | lia].
  rewrite str_pos. apply isdigit_uint. rewrite <- str_pos. apply str_nonempty.
Qed.

Section Rewrites.
Context {P : Platform}.

(** The world a rewriting conversion in place leaves. *)
Lemma convert_rewrites input backup w f csv_name content row rows :
  w_fs w !! input = Some f ->
  f_body f = Zip [(csv_name, Text content)] ->
  Converter.already_lean (Py.splitlines content) = false ->
  Converter.convert_lines (Py.splitlines content) = inr (row :: rows) ->
  Converter.convert_zip_file input None backup w
  = Some (inr tt,
          {| w_fs := <[input :=
                        {| f_body := Zip [(csv_name,
                                           Text (Py.join (String Py.LF "") (row :: rows)))];
                           st_size := archive_size
                                        [(csv_name,
                                          Text (Py.join (String Py.LF "") (row :: rows)))];
                           st_mtime := clock (w_tick w) |}]>
                     (if backup then <[Converter.with_suffix input ".zip.bak" := f]> (w_fs w)
                      else w_fs w);
             w_tick := S (w_tick w) |}).
Proof.
  intros Hf Hb Hl Hc. unfold Converter.convert_zip_file. cbn [default].
  unfold bind at 1. unfold get_fs at 1. rewrite Hf.
  unfold bind at 1. unfold ZipFile.open_read. rewrite Hb. cbn [lift].
  unfold bind at 1. rewrite read_text_single. cbn [lift]. rewrite Hl.
  unfold bind at 1. rewrite Hc. cbn [lift].
  rewrite String.eqb_refl, andb_true_r. destruct backup; reflexivity.
Qed.

End Rewrites.

Section Convert.
Context {P : Platform} {L : PlatformLaws P}.

Lemma convert_line_quote_line candle :
  Calendar.in_range (Calendar.of_ms (timestamp_ms candle)) = true ->
  Converter.convert_line (DataManager.quote_line candle)
  = inr (Some (Spec.current_row candle)).
Proof.
  intros Hr.
  apply (convert_line_row _ (Py.str (timestamp_ms candle))
           (float_repr (open_price candle)) (float_repr (high_price candle))
           (float_repr (low_price candle)) (float_repr (close_price candle))
           _ _ _ _ [] (timestamp_ms candle)); [|apply int_str|exact Hr].
  destruct (quote_line_solid candle) as [_ Hs].
  unfold Py.strip. rewrite (strip_clean _ _ Hs).
  unfold DataManager.quote_line. rewrite split_join; [reflexivity|discriminate|].
  eapply Forall_impl; [apply quote_fields_plain|]. intros f Hf. apply plain_no_comma, Hf.
Qed.

Lemma current_row_nonempty candle : exists c r, Spec.current_row candle = String c r.
Proof.
  unfold Spec.current_row, Spec.date_key. cbv zeta. rewrite join_cons.
  destruct (key_shape (Calendar.of_ms (timestamp_ms candle)))
    as (d1 & d2 & d3 & d4 & d5 & d6 & d7 & d8 & h1 & h2 & m1 & m2 & -> & _).
  rewrite append_cons. eauto.
Qed.

Lemma convert_lines_quote_lines data :
  Forall (fun c => Calendar.in_range (Calendar.of_ms (timestamp_ms c)) = true) data ->
  Converter.convert_lines (map DataManager.quote_line data)
  = inr (map Spec.current_row data).
Proof.
  induction 1 as [|c rest Hc _ IH]; [reflexivity|].
  cbn [map]. destruct (current_row_nonempty c) as (ch & r & E).
  pose proof (convert_line_quote_line c Hc) as Hl. rewrite E in Hl.
  rewrite (convert_lines_keep _ _ _ _ Hl), IH, E. reflexivity.
Qed.

(** X8: the converter on an archive the data manager wrote. When every
    opening instant falls in the years [datetime] can show, the rows the
    converter makes of the written text are the eleven-field rows of the
    same candles, in order, with the date key of each opening instant in UTC
    in front. When moreover the first timestamp is not negative, converting
    the written archive in place replaces its member by these rows joined
    by line feeds. *)
Theorem convert_written_archive (self : DataManager.t) (data : list (Candle pyfloat))
    (symbol_ : string) (backup : bool) (w : world) (c0 : Candle pyfloat) :
  head data = Some c0 ->
  Forall (fun c => Calendar.in_range (Calendar.of_ms (timestamp_ms c)) = true) data ->
  Converter.convert_lines (Py.splitlines (DataManager.csv_text data))
  = inr (map Spec.current_row data)
  /\ (0 <= timestamp_ms c0 ->
      exists w1 w2,
        DataManager._save_to_lean_format self data symbol_ w
        = Some (inr (Some (DataManager.quote_zip self symbol_)), w1)
        /\ Converter.convert_zip_file (DataManager.quote_zip self symbol_) None backup w1
           = Some (inr tt, w2)
        /\ entry_text (w_fs w2) (DataManager.quote_zip self symbol_)
             (Py.lower symbol_ ++ ".csv")
           = Some (Spec.current_text data)).
Proof.
  intros Hhd Hall.
  assert (Py.splitlines (DataManager.csv_text data) = map DataManager.quote_line data) as Hlines.
  { rewrite csv_text_terminated. apply splitlines_terminated.
    apply Forall_map, Forall_forall. intros c _. apply quote_line_solid. }
  assert (Converter.convert_lines (Py.splitlines (DataManager.csv_text data))
          = inr (map Spec.current_row data)) as Hconv.
  { rewrite Hlines. apply convert_lines_quote_lines, Hall. }
  split; [exact Hconv|]. intros Hpos.
  assert (data <> []) as Hne by (destruct data; [discriminate Hhd | discriminate]).
  assert (Converter.already_lean (Py.splitlines (DataManager.csv_text data)) = false) as Hal.
  { rewrite Hlines. destruct data as [|c rest]; [contradiction|]. injection Hhd as ->.
    cbn [map Converter.already_lean].
    rewrite <- (app_empty_r (DataManager.quote_line c0)).
    rewrite first_field_quote_line by reflexivity.
    rewrite isdigit_str by exact Hpos. reflexivity. }
  assert (exists row rows, map Spec.current_row data = row :: rows) as (row & rows & Erows).
  { destruct data as [|c rest]; [contradiction|]. cbn [map]. eauto. }
  rewrite Erows in Hconv. unfold Spec.current_text. rewrite Erows.
  eexists. eexists. split; [apply save_nonempty, Hne|].
  split.
  - eapply convert_rewrites; [apply lookup_insert_eq | reflexivity | exact Hal | exact Hconv].
  - unfold entry_text. cbn [w_fs]. rewrite lookup_insert_eq. cbn [f_body].
    rewrite String.eqb_refl. reflexivity.
Qed.

End Convert.

Lemma convert_written_archive_witness :
  Converter.convert_lines (P := Sample.host)
    (Py.splitlines (DataManager.csv_text (P := Sample.host) Sample.market))
  = inr (map (Spec.current_row (P := Sample.host)) Sample.market)
  /\ exists w1 w2,
       DataManager._save_to_lean_format (P := Sample.host) Sample.dm Sample.market "BTCUSDT"
         Sample.start
       = Some (inr (Some (DataManager.quote_zip Sample.dm "BTCUSDT")), w1)
       /\ Converter.convert_zip_file (P := Sample.host)
            (DataManager.quote_zip Sample.dm "BTCUSDT") None true w1
          = Some (inr tt, w2)
       /\ entry_text (w_fs w2) (DataManager.quote_zip Sample.dm "BTCUSDT") "btcusdt.csv"
          = Some (Spec.current_text (P := Sample.host) Sample.market).
Proof.
  destruct (convert_written_archive (P := Sample.host) (L := sample_host_laws)
              Sample.dm Sample.market "BTCUSDT" true Sample.start
              (Sample.candle 1672531200000 (Sample.price 100) (Sample.price 101)
                 (Sample.price 99) 10050000000))
    as [H1 H2].
  - vm_compute. reflexivity.
  - repeat constructor.
  - split; [exact H1|]. apply H2. vm_compute. discriminate.
Defined.

(** ** The backup of a conversion in place *)

Lemma length_app_s (a b : string) :
  String.length (a ++ b) = (String.length a + String.length b)%nat.
Proof. induction a as [|c a IH]; [reflexivity|]. rewrite append_cons. cbn. rewrite IH. reflexivity. Qed.

Lemma app_inj_l (a b c : string) : a ++ b = a ++ c -> b = c.
Proof.
  induction a as [|x a IH]; [exact (fun H => H)|].
  rewrite !append_cons. intros [= H]. exact (IH H).
Qed.

Lemma substring_split (k : nat) (s : string) :
  (k <= String.length s)%nat ->
  s = String.substring 0 k s ++ String.substring k (String.length s - k) s.
Proof.
  revert s. induction k as [|k IH]; intros s Hk.
  - rewrite Nat.sub_0_r. destruct s as [|c s]; [reflexivity|].
    cbn [String.substring]. rewrite append_nil.
    clear Hk. revert c. induction s as [|d s IHs]; intros c; [reflexivity|].
    cbn [String.length String.substring]. f_equal. apply IHs.
  - destruct s as [|c s]; [cbn in Hk; lia|].
    cbn [String.length] in *. cbn [String.substring]. rewrite append_cons.
    f_equal. rewrite Nat.sub_succ. apply IH. lia.
Qed.

Lemma length_substring_0 (k : nat) (s : string) :
  (k <= String.length s)%nat -> String.length (String.substring 0 k s) = k.
Proof.
  revert s. induction k as [|k IH]; intros s Hk.
  - destruct s; reflexivity.
  - destruct s as [|c s]; [cbn in Hk; lia|]. cbn [String.length] in *.
    cbn [String.substring String.length]. rewrite IH; lia.
Qed.

Lemma name_start_le s : (Converter.name_start s <= String.length s)%nat.
Proof.
  induction s as [|c s IH]; [reflexivity|]. cbn [Converter.name_start String.length].
  destruct (Py.has_char "/" s); [lia|]. destruct (Ascii.eqb c "/"); lia.
Qed.

Lemma rfind_dot_app a b j :
  Converter.rfind_dot b = Some j ->
  Converter.rfind_dot (a ++ b) = Some (String.length a + j)%nat.
Proof.
  intros Hb. induction a as [|c a IH]; [exact Hb|].
  rewrite append_cons. cbn [Converter.rfind_dot String.length]. rewrite IH. reflexivity.
Qed.

Lemma with_suffix_bak_fresh path : Converter.with_suffix path ".zip.bak" <> path.
Proof.
  unfold Converter.with_suffix. cbv zeta.
  pose proof (name_start_le path) as Hk.
  set (k := Converter.name_start path) in *.
  set (dir := String.substring 0 k path).
  set (name := String.substring k (String.length path - k) path).
  assert (path = dir ++ name) as Hp by (apply substring_split, Hk).
  clearbody dir name. intros E. rewrite Hp in E. apply app_inj_l in E. clear Hp.
  assert (forall kept, String.length kept = String.length name ->
                       kept ++ ".zip.bak" <> name) as Hlen.
  { intros kept Hl Ek. apply (f_equal String.length) in Ek. rewrite length_app_s in Ek.
    cbn in Ek. lia. }
  destruct (Converter.rfind_dot name) as [i|] eqn:Ei; [|exact (Hlen name eq_refl E)].
  destruct ((0 <? i)%nat && (i <? String.length name - 1)%nat) eqn:Eb;
    [|exact (Hlen name eq_refl E)].
  assert (String.length (String.substring 0 i name) = i) as Hi
      by (apply length_substring_0; lia).
  rewrite <- E in Ei.
  rewrite (rfind_dot_app _ ".zip.bak" 4 eq_refl) in Ei. rewrite Hi in Ei.
  injection Ei as Ei. lia.
Qed.

Section Backup.
Context {P : Platform}.

(** X9: a conversion either leaves every file as it was, or it ends without
    an exception having replaced the output archive. In the latter case,
    with [backup] set and the output the input itself, the file found at the
    input before the call stands under the [.zip.bak] name afterwards, a name
    that is never the input's own, and no other file has changed; with
    [backup] unset, or an output elsewhere, the output is the only file
    that has changed, so the input is kept when the output is elsewhere. *)
Theorem convert_backup_keeps_original (input : string) (output : option string)
    (backup : bool) (w : world) (r : result unit) (w' : world) :
  Converter.convert_zip_file input output backup w = Some (r, w') ->
  let out := default input output in
  let bak := Converter.with_suffix input ".zip.bak" in
  bak <> input
  /\ (w' = w
      \/ (r = inr tt
          /\ is_Some (w_fs w' !! out)
          /\ (backup = true -> out = input ->
              w_fs w' !! bak = w_fs w !! input
              /\ forall path, path <> out -> path <> bak ->
                              w_fs w' !! path = w_fs w !! path)
          /\ (backup = false \/ out <> input ->
              forall path, path <> out -> w_fs w' !! path = w_fs w !! path))).
Proof.
  intros H out bak. split; [apply with_suffix_bak_fresh|]. revert H.
  unfold Converter.convert_zip_file, bind, get_fs, lift, raise, ret. fold out.
  destruct (w_fs w !! input) as [f|] eqn:Ef; [|intros [= _ <-]; auto].
  destruct (ZipFile.open_read f) as [e|[|[csv_name p] more]];
    [intros [= _ <-]; auto | intros [= _ <-]; auto |].
  destruct (ZipFile.read_text csv_name _) as [e|content]; [intros [= _ <-]; auto|].
  destruct (Converter.already_lean _); [intros [= _ <-]; auto|].
  destruct (Converter.convert_lines _) as [e|[|row rows]];
    [intros [= _ <-]; auto | intros [= _ <-]; auto |].
  intros H. right.
  destruct (backup && (input =? out)%string) eqn:Eb; cbn in H; injection H as <- <-;
    cbn [w_fs]; (split; [reflexivity|]); (split; [rewrite lookup_insert_eq; eauto|]).
  - apply andb_true_iff in Eb. destruct Eb as [-> Eo]. apply String.eqb_eq in Eo.
    split.
    + intros _ Ho. rewrite Ho.
      rewrite lookup_insert_ne by (intros E; exact (with_suffix_bak_fresh input (eq_sym E))).
      fold bak. rewrite lookup_insert_eq. split; [reflexivity|].
      intros path H1 H2. rewrite !lookup_insert_ne by congruence. reflexivity.
    + intros [Hb | Hne]; [discriminate Hb | congruence].
  - split.
    + intros -> Ho. rewrite Ho, String.eqb_refl in Eb. discriminate Eb.
    + intros _ path Hp. rewrite lookup_insert_ne by congruence. reflexivity.
Qed.

End Backup.

Lemma convert_backup_keeps_original_witness :
  exists w',
    Converter.convert_zip_file (P := Sample.host) (DataManager.quote_zip Sample.dm "BTCUSDT")
      None true cached = Some (inr tt, w')
    /\ w_fs w' !! "/lean/data/crypto/binance/daily/btcusdt_quote.zip.bak"
       = w_fs cached !! DataManager.quote_zip Sample.dm "BTCUSDT"
    /\ is_Some (w_fs cached !! DataManager.quote_zip Sample.dm "BTCUSDT").
Proof.
  destruct (Converter.convert_zip_file (P := Sample.host)
              (DataManager.quote_zip Sample.dm "BTCUSDT") None true cached)
    as [[r w']|] eqn:E; [|vm_compute in E; discriminate E].
  destruct (convert_backup_keeps_original (P := Sample.host) _ _ _ _ _ _ E)
    as [_ [-> | (-> & _ & Hb & _)]].
  - vm_compute in E. discriminate E.
  - exists w'. split; [reflexivity|]. split; [|vm_compute; eauto].
    exact (proj1 (Hb eq_refl eq_refl)).
Defined.

(** ** The data manager on what the converter wrote *)

Lemma rstrip_head_kept sp c r :
  sp c = false -> exists r', Py.rstrip_with sp (String c r) = String c r'.
Proof.
  intros H. cbn [Py.rstrip_with]. destruct (Py.rstrip_with sp r); [rewrite H|]; eauto.
Qed.

Lemma split_head sep a b :
  Py.has_char sep a = false -> exists h t, Py.split sep (a ++ b) = (a ++ h) :: t.
Proof.
  induction a as [|c a IH]; intros H.
  - rewrite append_nil. pose proof (split_nonempty sep b) as Hne.
    destruct (Py.split sep b) as [|h t]; [contradiction|]. exists h, t. reflexivity.
  - cbn [Py.has_char] in H. apply orb_false_iff in H. destruct H as [Hc Ha].
    destruct (IH Ha) as (h & t & E). rewrite append_cons. cbn [Py.split].
    rewrite Ascii.eqb_sym, Hc, E. exists h, t. reflexivity.
Qed.

Lemma keyed_text_first_field row rows :
  keyed row ->
  exists dt,
    first_field (hd "" (Py.split Py.LF (Py.strip (Py.join (String Py.LF "") (row :: rows)))))
    = Calendar.strftime_key dt.
Proof.
  intros (dt & tail & ->). exists dt.
  assert (exists rest, Py.join (String Py.LF "") ((Calendar.strftime_key dt ++ String Py.COMMA tail) :: rows)
                       = Calendar.strftime_key dt ++ String Py.COMMA rest) as (rest & ->).
  { destruct rows as [|r2 rows]; [cbn [Py.join]; eauto|].
    rewrite join_cons, app_assoc_s, append_cons. eauto. }
  assert (exists rest', Py.strip (Calendar.strftime_key dt ++ String Py.COMMA rest)
                        = Calendar.strftime_key dt ++ String Py.COMMA rest') as (rest' & ->).
  { unfold Py.strip, Py.strip_with.
    destruct (key_shape dt)
      as (d1 & d2 & d3 & d4 & d5 & d6 & d7 & d8 & h1 & h2 & m1 & m2 & E & Hd).
    assert (Py.isspace d1 = false) as Hd1.
    { apply Forall_cons_iff in Hd as [Hd _]. revert Hd. unfold Py.is_decimal, Py.isspace.
      cbv zeta. lia. }
    assert (Py.lstrip_with Py.isspace (Calendar.strftime_key dt ++ String Py.COMMA rest)
            = Calendar.strftime_key dt ++ String Py.COMMA rest) as ->.
    { rewrite E, append_cons. apply lstrip_keep, Hd1. }
    destruct (rstrip_head_kept Py.isspace Py.COMMA rest eq_refl) as (rest' & Er).
    exists rest'. rewrite rstrip_app_keep; rewrite Er; [reflexivity | discriminate]. }
  destruct (split_head Py.LF (Calendar.strftime_key dt ++ String Py.COMMA "") rest')
    as (h & t & E).
  { rewrite has_char_app. cbn [Py.has_char]. rewrite orb_false_r.
    apply (all_chars_absent _ _ _ (date_key_chars dt)). reflexivity. }
  rewrite app_assoc_s, append_cons, append_nil in E. rewrite E. cbn [hd].
  rewrite app_assoc_s, append_cons, append_nil.
  apply first_field_app, date_key_no_comma.
Qed.

Section Unread.
Context {P : Platform}.

(** X10: the data manager does not read what the converter writes. Whenever
    a conversion in place changes anything at the archive of a symbol, the
    file is there, so [is_symbol_available] holds, but [get_symbol_status]
    returns the not-available status, and [update_symbol] is then the
    download that starts from 2023-01-01. *)
Theorem converted_archive_not_available (self : DataManager.t) (symbol_ : string)
    (backup : bool) (fuel : nat) (w : world) (r : result unit) (w1 : world) :
  Converter.convert_zip_file (DataManager.quote_zip self symbol_) None backup w
  = Some (r, w1) ->
  w1 = w
  \/ (DataManager.is_symbol_available self (w_fs w1) symbol_ = true
      /\ DataManager.get_symbol_status self (w_fs w1) symbol_
         = DataManager.not_available symbol_
      /\ DataManager.update_symbol self fuel symbol_ w1
         = DataManager.download_symbol self fuel symbol_ (Some "2023-01-01") None w1).
Proof.
  intros H. destruct (convert_in_place _ _ _ _ _ H)
    as [->|(csv_name & row & rows & size & mtime & Hk & Ef)]; [left; reflexivity|].
  right.
  assert (DataManager.get_symbol_status self (w_fs w1) symbol_
          = DataManager.not_available symbol_) as Hs.
  { unfold DataManager.get_symbol_status. rewrite Ef.
    destruct (keyed_text_first_field row rows Hk) as (dt & Ek).
    destruct (read_status_raises (DataManager.quote_zip self symbol_) symbol_
                {| f_body := Zip [(csv_name, Text (Py.join (String Py.LF "") (row :: rows)))];
                   st_size := size; st_mtime := mtime |}) as (e & ->); [|reflexivity].
    do 4 right. exists csv_name, (Py.join (String Py.LF "") (row :: rows)).
    split; [reflexivity|]. rewrite Ek. apply int_date_key. }
  split; [unfold DataManager.is_symbol_available; rewrite Ef; reflexivity|].
  split; [exact Hs|].
  unfold DataManager.update_symbol, bind, get_fs. rewrite Hs.
  rewrite resume_date_unknown by (left; reflexivity). reflexivity.
Qed.

End Unread.

Lemma converted_archive_not_available_witness :
  exists w1,
    Converter.convert_zip_file (P := Sample.host) (DataManager.quote_zip Sample.dm "BTCUSDT")
      None false cached = Some (inr tt, w1)
    /\ available (DataManager.get_symbol_status (P := Sample.host) Sample.dm (w_fs cached)
                    "BTCUSDT") = true
    /\ DataManager.get_symbol_status (P := Sample.host) Sample.dm (w_fs w1) "BTCUSDT"
       = DataManager.not_available "BTCUSDT".
Proof.
  destruct (Converter.convert_zip_file (P := Sample.host)
              (DataManager.quote_zip Sample.dm "BTCUSDT") None false cached)
    as [[r w1]|] eqn:E; [|vm_compute in E; discriminate E].
  destruct (converted_archive_not_available (P := Sample.host) Sample.dm "BTCUSDT" false
              1 cached r w1 E) as [-> | (_ & Hs & _)].
  - vm_compute in E. discriminate E.
  - exists w1. split; [|split; [vm_compute; reflexivity | exact Hs]].
    vm_compute in E. injection E as <- _. reflexivity.
Defined.

(** ** Listing and availability *)

Lemma upper_lower_char c : Py.upper_char (Py.lower_char c) = Py.upper_char c.
Proof.
  unfold Py.lower_char. cbv zeta.
  destruct ((((65 <=? Py.code c) && (Py.code c <=? 90))
             || ((192 <=? Py.code c) && (Py.code c <=? 222) && negb (Py.code c =? 215)))%nat)
    eqn:E; [|reflexivity].
  unfold Py.upper_char. cbv zeta. rewrite code_of_nat by lia.
  assert ((Py.code c + 32 =? 223)%nat = false) as -> by lia.
  assert ((Py.code c =? 223)%nat = false) as -> by lia.
  assert ((((97 <=? Py.code c + 32) && (Py.code c + 32 <=? 122))
           || ((224 <=? Py.code c + 32) && (Py.code c + 32 <=? 254)
               && negb (Py.code c + 32 =? 247)))%nat = true) as -> by lia.
  assert ((((97 <=? Py.code c) && (Py.code c <=? 122))
           || ((224 <=? Py.code c) && (Py.code c <=? 254)
               && negb (Py.code c =? 247)))%nat = false) as -> by lia.
  replace (Py.code c + 32 - 32)%nat with (Py.code c) by lia.
  unfold Py.code. rewrite ascii_nat_embedding. reflexivity.
Qed.

Lemma upper_lower s : Py.upper (Py.lower s) = Py.upper s.
Proof.
  unfold Py.lower. induction s as [|c s IH]; [reflexivity|].
  cbn [Py.map_chars Py.upper]. rewrite upper_lower_char, IH. reflexivity.
Qed.

Lemma prefix_app (a b : string) : String.prefix a (a ++ b) = true.
Proof.
  induction a as [|c a IH]; [destruct b; reflexivity|].
  rewrite append_cons. cbn [String.prefix].
  destruct (ascii_dec c c) as [_|Hn]; [exact IH | contradiction].
Qed.

Lemma substring_whole (s : string) : String.substring 0 (String.length s) s = s.
Proof. induction s as [|c s IH]; [reflexivity|]. cbn [String.length String.substring]. rewrite IH. reflexivity. Qed.

Lemma substring_app_l (a b : string) :
  String.substring 0 (String.length a) (a ++ b) = a.
Proof.
  induction a as [|c a IH]; [destruct b; reflexivity|].
  rewrite append_cons. cbn [String.length String.substring]. rewrite IH. reflexivity.
Qed.

Lemma substring_app_r (a b : string) :
  String.substring (String.length a) (String.length b) (a ++ b) = b.
Proof.
  induction a as [|c a IH]; [apply substring_whole|].
  rewrite append_cons. cbn [String.length String.substring]. exact IH.
Qed.

Lemma endswith_app (a suffix : string) : Py.endswith suffix (a ++ suffix) = true.
Proof.
  unfold Py.endswith. cbv zeta. rewrite length_app_s.
  replace (String.length a + String.length suffix - String.length suffix)%nat
    with (String.length a) by lia.
  rewrite substring_app_r, String.eqb_refl.
  apply andb_true_iff. split; [apply Nat.leb_le; lia | reflexivity].
Qed.

Lemma replace_quote (x : string) :
  Py.has_char "_" x = false -> Py.replace "_quote" "" (x ++ "_quote") = x.
Proof.
  unfold Py.replace. induction x as [|c x IH]; intros H; [reflexivity|].
  cbn [Py.has_char] in H. apply orb_false_iff in H. destruct H as [Hc Hx].
  rewrite append_cons. cbn [Py.replace_from].
  assert (String.prefix "_quote" (String c (x ++ "_quote")) = false) as ->.
  { cbn [String.prefix]. destruct (ascii_dec "_" c) as [<-|_]; [discriminate Hc | reflexivity]. }
  rewrite (IH Hx). reflexivity.
Qed.

Lemma In_insert_sorted x y l : In x (y :: l) -> In x (Py.insert_sorted y l).
Proof.
  induction l as [|z l IH]; [exact (fun H => H)|].
  cbn [Py.insert_sorted]. destruct (String.leb y z); [exact (fun H => H)|].
  intros [<- | [<- | H]].
  - right. apply IH. left. reflexivity.
  - left. reflexivity.
  - right. apply IH. right. exact H.
Qed.

Lemma In_sorted x l : In x l -> In x (Py.sorted l).
Proof.
  unfold Py.sorted. induction l as [|y l IH]; [exact (fun H => H)|].
  cbn [fold_right]. intros [<- | H]; apply In_insert_sorted; [left; reflexivity|].
  right. apply IH, H.
Qed.

Section Listing.
Context {P : Platform}.

Lemma glob_finds self (fs : gmap string file) (name : string) (f : file) :
  fs !! ((DataManager.data_path self ++ "/") ++ name) = Some f ->
  Py.has_char "/" name = false ->
  Py.endswith "_quote.zip" name = true ->
  In name (DataManager.glob_quote_zip self fs).
Proof.
  intros Hf Hs He. unfold DataManager.glob_quote_zip. cbv zeta.
  set (dir := DataManager.data_path self ++ "/") in *.
  apply list_elem_of_In, list_elem_of_omap.
  exists (dir ++ name). split.
  - apply list_elem_of_fmap. exists (dir ++ name, f).
    split; [reflexivity|]. apply elem_of_map_to_list, Hf.
  - unfold Py.startswith. rewrite prefix_app, (length_app_s dir name).
    replace (String.length dir + String.length name - String.length dir)%nat
      with (String.length name) by lia.
    rewrite substring_app_r, Hs, He. reflexivity.
Qed.

(** X11: an ASCII symbol whose archive exists is listed. When the symbol is
    ASCII, its lower-case form holds neither an underscore nor a slash and
    [is_symbol_available] holds of it, its upper-case form is among the
    symbols [get_available_symbols] returns, and so its status is among
    those [get_all_status] returns. *)
Theorem available_symbol_is_listed (self : DataManager.t) (fs : gmap string file)
    (symbol_ : string) :
  Py.isascii symbol_ = true ->
  Py.has_char "_" (Py.lower symbol_) = false ->
  Py.has_char "/" (Py.lower symbol_) = false ->
  DataManager.is_symbol_available self fs symbol_ = true ->
  In (Py.upper symbol_) (DataManager.get_available_symbols self fs)
  /\ In (DataManager.get_symbol_status self fs symbol_) (DataManager.get_all_status self fs).
Proof.
  intros Hascii Hu Hs Ha.
  assert (In (Py.upper symbol_) (DataManager.get_available_symbols self fs)) as Hin.
  { unfold DataManager.is_symbol_available in Ha.
    destruct (fs !! DataManager.quote_zip self symbol_) as [f|] eqn:Ef; [|discriminate Ha].
    unfold DataManager.get_available_symbols. apply In_sorted, in_map_iff.
    exists (Py.lower symbol_ ++ "_quote.zip"). split.
    - unfold DataManager.stem. rewrite length_app_s.
      change (Py.lower symbol_ ++ "_quote.zip") with (Py.lower symbol_ ++ "_quote" ++ ".zip").
      rewrite <- app_assoc_s.
      replace (String.length (Py.lower symbol_) + String.length "_quote.zip" - 4)%nat
        with (String.length (Py.lower symbol_ ++ "_quote"))
        by (rewrite length_app_s; cbn; lia).
      rewrite substring_app_l, (replace_quote _ Hu). apply upper_lower.
    - apply (glob_finds self fs _ f).
      + unfold DataManager.quote_zip in Ef. rewrite app_assoc_s. exact Ef.
      + rewrite has_char_app, Hs. reflexivity.
      + apply endswith_app. }
  split; [exact Hin|].
  unfold DataManager.get_all_status. apply in_map_iff. exists (Py.upper symbol_).
  split; [|exact Hin].
  unfold DataManager.get_symbol_status. rewrite (quote_zip_upper self symbol_ Hascii).
  destruct (fs !! DataManager.quote_zip self symbol_) as [f|].
  - unfold DataManager.read_status, DataManager.not_available. rewrite !upper_idem.
    reflexivity.
  - unfold DataManager.not_available. rewrite upper_idem. reflexivity.
Qed.

End Listing.

Lemma available_symbol_is_listed_witness :
  In "BTCUSDT" (DataManager.get_available_symbols Sample.dm (w_fs cached))
  /\ In (DataManager.get_symbol_status (P := Sample.host) Sample.dm (w_fs cached) "btcusdt")
        (DataManager.get_all_status (P := Sample.host) Sample.dm (w_fs cached)).
Proof.
  apply (available_symbol_is_listed (P := Sample.host) Sample.dm (w_fs cached) "btcusdt");
    vm_compute; reflexivity.
Defined.

(** A name in upper case is listed, but it is not the file
    [is_symbol_available] looks for. *)
Example listed_not_available :
  let fs : gmap string file :=
    {[ "/lean/data/crypto/binance/daily/BTC_quote.zip" :=
         {| f_body := NotZip; st_size := 0; st_mtime := 0 |} ]} in
  DataManager.get_available_symbols Sample.dm fs = ["BTC"]
  /\ DataManager.is_symbol_available Sample.dm fs "BTC" = false.
Proof. vm_compute. split; reflexivity. Qed.

(** Outside ASCII too: the archive of ß is listed as SS, the symbol whose
    archive would be that of ss. *)
Example listed_eszett :
  let eszett := String (ascii_of_nat 223) "" in
  let fs : gmap string file :=
    {[ DataManager.quote_zip Sample.dm eszett :=
         {| f_body := NotZip; st_size := 0; st_mtime := 0 |} ]} in
  DataManager.is_symbol_available Sample.dm fs eszett = true
  /\ DataManager.get_available_symbols Sample.dm fs = ["SS"]
  /\ DataManager.is_symbol_available Sample.dm fs "SS" = false.
Proof. vm_compute. repeat split; reflexivity. Qed.

(** ** The string functions on samples *)

Example py_int_samples :
  Py.int " 12 " = inr 12 /\ Py.int "+5" = inr 5 /\ Py.int "-5" = inr (-5) /\
  Py.int "1_000" = inr 1000 /\ Py.int "1__0" = inl ValueError /\
  Py.int "_1" = inl ValueError /\ Py.int "1_" = inl ValueError /\
  Py.int "" = inl ValueError /\ Py.int "- 5" = inl ValueError /\
  Py.int "007" = inr 7 /\ Py.int "20231114 22:13" = inl ValueError /\
  Py.str 1700000000000 = "1700000000000" /\ Py.str (-5) = "-5" /\ Py.str 0 = "0".
Proof. repeat split; reflexivity. Qed.

Example py_split_samples :
  Py.split Py.COMMA "" = [""] /\
  Py.split Py.COMMA "a,b,,c" = ["a"; "b"; ""; "c"] /\
  Py.strip "  a b  " = "a b" /\
  Py.join "," ["a"; "b"; "c"] = "a,b,c" /\
  Py.replace "_quote" "" "a_quote_quote" = "a" /\
  Py.endswith "_quote.zip" "btcusdt_quote.zip" = true /\
  Py.upper "btcusdt" = "BTCUSDT" /\ Py.lower "BtcUsdt" = "btcusdt" /\
  Py.isdigit "1700000000000" = true /\ Py.isdigit "20231114 22:13" = false /\
  Py.isdigit "" = false.
Proof. repeat split; reflexivity. Qed.
